(** * TuxTimings: the decoders of the Linux back end, embedded and verified

    The development follows the C sources:
    - [Linux/src/util.c]      : [bit_slice];
    - [Linux/src/pm_table.c]  : the PM table decoder [pm_table_read];
    - [Linux/src/dram.c]      : the SMN DRAM timing decoder [dram_read_timings];
    - [Linux/src/aod-voltages/aod_voltages.c] : the AML scan of [find_aod_phys].

    Conventions of the embedding.
    - [uint32_t], [int], [u32], [u64] values are integers of [Z]; where the C
      arithmetic is modular the reduction is written out ([u32]).  The
      [int] arithmetic of [bit_slice], whose arguments are free, is reduced
      with the wrap-around of the compiled code ([int32]); elsewhere the
      [int] values are table indices and counts far from the bounds of
      [int], and their arithmetic is exact.
    - [float] is IEEE-754 binary32, modelled by [spec_float] with the
      operations of [SpecFloat] at precision 24 and [emax] 128 (every
      operation rounds to nearest even, as C does when it evaluates [float]
      expressions in [float]).
    - A C struct is a record; a fixed-capacity array field is a list; a store
      to an array element outside the capacity has no meaning in C and is the
      error [None] here.
    - [memset (out, 0, sizeof *out)] yields the record whose numeric fields are
      [0] or [+0.0], whose flags are [false] and whose bytes are [x00]. *)

From Stdlib Require Import ZArith List Bool Lia.
From Stdlib Require Import Floats.SpecFloat.
From Stdlib Require Import Strings.Byte.
Import ListNotations.

Local Open Scope Z_scope.

(** ** [util.c] *)

Module Util.

(** Reduction of an integer to [uint32_t]. *)
Definition u32 (x : Z) : Z := x mod 2 ^ 32.

(** Reduction of an integer to [int]: the wrap-around of the 32-bit
    two's complement arithmetic the program is compiled to. *)
Definition int32 (x : Z) : Z := (x + 2 ^ 31) mod 2 ^ 32 - 2 ^ 31.

(** [uint32_t bit_slice(uint32_t val, int hi, int lo)].  [width] is
    computed in [int], first [hi - lo], then [+ 1], each with its
    wrap-around.  The count of [val >> lo] is taken modulo 32, as the shift
    instruction of the target takes it; for [0 <= lo <= 31], the only
    counts for which C defines the shift, this is [lo] itself. *)
Definition bit_slice (val hi lo : Z) : Z :=
  let width := int32 (int32 (hi - lo) + 1) in
  if (width <=? 0) || (32 <? width) then 0
  else
    let mask := if width =? 32 then 0xFFFFFFFF
                else u32 (Z.shiftl 1 width - 1) in
    Z.land (Z.shiftr val (lo mod 32)) mask.

End Util.

(** ** binary32 arithmetic *)

Module F32.

Definition float : Type := spec_float.

Definition prec : Z := 24.
Definition emax : Z := 128.

(** The value [m * 2^e], rounded to binary32. *)
Definition of_scaled (m e : Z) : float := binary_normalize prec emax m e false.

(** Conversion of an integer to [float]: the C cast [(float) n]. *)
Definition of_Z (n : Z) : float := of_scaled n 0.

Definition zero : float := S754_zero false.

Definition add : float -> float -> float := SFadd prec emax.
Definition mul : float -> float -> float := SFmul prec emax.
Definition div : float -> float -> float := SFdiv prec emax.

(** The C comparisons [a < b], [a <= b], [a > b], [a >= b]; each is false
    as soon as an operand is a NaN. *)
Definition lt (a b : float) : bool := SFltb a b.
Definition le (a b : float) : bool := SFleb a b.
Definition gt (a b : float) : bool := SFltb b a.
Definition ge (a b : float) : bool := SFleb b a.

(** The literals of the sources. *)
Definition c0_5    : float := Eval cbv in of_scaled 1 (-1).
Definition c1      : float := Eval cbv in of_Z 1.
Definition c2      : float := Eval cbv in of_Z 2.
Definition c6_5    : float := Eval cbv in of_scaled 13 (-1).
Definition c100    : float := Eval cbv in of_Z 100.
Definition c150    : float := Eval cbv in of_Z 150.
Definition c200    : float := Eval cbv in of_Z 200.
Definition c400    : float := Eval cbv in of_Z 400.
Definition c1000   : float := Eval cbv in of_Z 1000.
Definition c2000   : float := Eval cbv in of_Z 2000.

(** [lo <= v && v <= hi], the plausibility test of [pm_table.c]
    ([v >= lo && v <= hi] in the source). *)
Definition in_range (lo hi v : float) : bool := ge v lo && le v hi.

End F32.

(** ** Array fields *)

Module Mem.

(** [l] with the element of index [n] replaced by [v]. *)
Fixpoint replace_nth {A : Type} (n : nat) (v : A) (l : list A) : list A :=
  match l, n with
  | [], _ => []
  | _ :: r, O => v :: r
  | x :: r, S n' => x :: replace_nth n' v r
  end.

(** The store [a[i] = v] into an array field: defined inside the capacity
    of the array only. *)
Definition store {A : Type} (a : list A) (i : Z) (v : A) : option (list A) :=
  if (0 <=? i) && (i <? Z.of_nat (length a))
  then Some (replace_nth (Z.to_nat i) v a)
  else None.

Definition bind {A B : Type} (x : option A) (f : A -> option B) : option B :=
  match x with
  | Some a => f a
  | None => None
  end.

End Mem.

Notation "x <- e ;; k" := (Mem.bind e (fun x => k))
  (at level 61, e at next level, right associativity).

(** ** [types.h] and [pm_table.c] *)

Module PmTable.
Import F32 Mem.

Definition MAX_CORES : Z := 16.
Definition MAX_MODULES : Z := 4.

(** [smu_metrics_t], field by field in the order of [types.h]. *)
Record smu_metrics_t : Type := Build_smu_metrics {
  package_power_w : float;
  ppt_w : float;
  package_current_a : float;
  vcore : float;
  vsoc : float;
  vddp : float;
  vddg_ccd : float;
  vddg_iod : float;
  vdd_misc : float;
  cpu_vddio : float;
  mem_vdd : float;
  mem_vddq : float;
  mem_vpp : float;
  vid : float;
  core_clock_mhz : float;
  bclk_mhz : float;
  fclk_mhz : float;
  uclk_mhz : float;
  mclk_mhz : float;
  memory_clock_mhz : float;
  core_clocks_ghz : list float;  (* float [MAX_CORES] *)
  core_clocks_count : Z;
  cpu_temp_c : float;
  core_temps_c : list float;  (* float [MAX_CORES] *)
  core_temps_count : Z;
  tdie_c : float;
  has_tdie : bool;
  tctl_c : float;
  has_tctl : bool;
  tccd1_c : float;
  has_tccd1 : bool;
  tccd2_c : float;
  has_tccd2 : bool;
  iod_hotspot_c : float;
  has_iod_hotspot : bool;
  core_voltages : list float;  (* float [MAX_CORES] *)
  core_voltages_count : Z;
  core_usage_pct : list float;  (* float [MAX_CORES] *)
  core_usage_count : Z;
  core_freq_mhz : list float;  (* float [MAX_CORES] *)
  core_freq_count : Z;
  spd_temps_c : list float;  (* float [MAX_MODULES] *)
  spd_temps_count : Z
}.

Definition set_package_power_w (v : float) (m : smu_metrics_t) : smu_metrics_t :=
  {| package_power_w := v; ppt_w := ppt_w m;
     package_current_a := package_current_a m; vcore := vcore m;
     vsoc := vsoc m; vddp := vddp m; vddg_ccd := vddg_ccd m;
     vddg_iod := vddg_iod m; vdd_misc := vdd_misc m;
     cpu_vddio := cpu_vddio m; mem_vdd := mem_vdd m; mem_vddq := mem_vddq m;
     mem_vpp := mem_vpp m; vid := vid m; core_clock_mhz := core_clock_mhz m;
     bclk_mhz := bclk_mhz m; fclk_mhz := fclk_mhz m; uclk_mhz := uclk_mhz m;
     mclk_mhz := mclk_mhz m; memory_clock_mhz := memory_clock_mhz m;
     core_clocks_ghz := core_clocks_ghz m;
     core_clocks_count := core_clocks_count m; cpu_temp_c := cpu_temp_c m;
     core_temps_c := core_temps_c m; core_temps_count := core_temps_count m;
     tdie_c := tdie_c m; has_tdie := has_tdie m; tctl_c := tctl_c m;
     has_tctl := has_tctl m; tccd1_c := tccd1_c m; has_tccd1 := has_tccd1 m;
     tccd2_c := tccd2_c m; has_tccd2 := has_tccd2 m;
     iod_hotspot_c := iod_hotspot_c m; has_iod_hotspot := has_iod_hotspot m;
     core_voltages := core_voltages m;
     core_voltages_count := core_voltages_count m;
     core_usage_pct := core_usage_pct m;
     core_usage_count := core_usage_count m;
     core_freq_mhz := core_freq_mhz m; core_freq_count := core_freq_count m;
     spd_temps_c := spd_temps_c m; spd_temps_count := spd_temps_count m |}.

Definition set_ppt_w (v : float) (m : smu_metrics_t) : smu_metrics_t :=
  {| package_power_w := package_power_w m; ppt_w := v;
     package_current_a := package_current_a m; vcore := vcore m;
     vsoc := vsoc m; vddp := vddp m; vddg_ccd := vddg_ccd m;
     vddg_iod := vddg_iod m; vdd_misc := vdd_misc m;
     cpu_vddio := cpu_vddio m; mem_vdd := mem_vdd m; mem_vddq := mem_vddq m;
     mem_vpp := mem_vpp m; vid := vid m; core_clock_mhz := core_clock_mhz m;
     bclk_mhz := bclk_mhz m; fclk_mhz := fclk_mhz m; uclk_mhz := uclk_mhz m;
     mclk_mhz := mclk_mhz m; memory_clock_mhz := memory_clock_mhz m;
     core_clocks_ghz := core_clocks_ghz m;
     core_clocks_count := core_clocks_count m; cpu_temp_c := cpu_temp_c m;
     core_temps_c := core_temps_c m; core_temps_count := core_temps_count m;
     tdie_c := tdie_c m; has_tdie := has_tdie m; tctl_c := tctl_c m;
     has_tctl := has_tctl m; tccd1_c := tccd1_c m; has_tccd1 := has_tccd1 m;
     tccd2_c := tccd2_c m; has_tccd2 := has_tccd2 m;
     iod_hotspot_c := iod_hotspot_c m; has_iod_hotspot := has_iod_hotspot m;
     core_voltages := core_voltages m;
     core_voltages_count := core_voltages_count m;
     core_usage_pct := core_usage_pct m;
     core_usage_count := core_usage_count m;
     core_freq_mhz := core_freq_mhz m; core_freq_count := core_freq_count m;
     spd_temps_c := spd_temps_c m; spd_temps_count := spd_temps_count m |}.

Definition set_package_current_a (v : float) (m : smu_metrics_t) : smu_metrics_t :=
  {| package_power_w := package_power_w m; ppt_w := ppt_w m;
     package_current_a := v; vcore := vcore m; vsoc := vsoc m;
     vddp := vddp m; vddg_ccd := vddg_ccd m; vddg_iod := vddg_iod m;
     vdd_misc := vdd_misc m; cpu_vddio := cpu_vddio m; mem_vdd := mem_vdd m;
     mem_vddq := mem_vddq m; mem_vpp := mem_vpp m; vid := vid m;
     core_clock_mhz := core_clock_mhz m; bclk_mhz := bclk_mhz m;
     fclk_mhz := fclk_mhz m; uclk_mhz := uclk_mhz m; mclk_mhz := mclk_mhz m;
     memory_clock_mhz := memory_clock_mhz m;
     core_clocks_ghz := core_clocks_ghz m;
     core_clocks_count := core_clocks_count m; cpu_temp_c := cpu_temp_c m;
     core_temps_c := core_temps_c m; core_temps_count := core_temps_count m;
     tdie_c := tdie_c m; has_tdie := has_tdie m; tctl_c := tctl_c m;
     has_tctl := has_tctl m; tccd1_c := tccd1_c m; has_tccd1 := has_tccd1 m;
     tccd2_c := tccd2_c m; has_tccd2 := has_tccd2 m;
     iod_hotspot_c := iod_hotspot_c m; has_iod_hotspot := has_iod_hotspot m;
     core_voltages := core_voltages m;
     core_voltages_count := core_voltages_count m;
     core_usage_pct := core_usage_pct m;
     core_usage_count := core_usage_count m;
     core_freq_mhz := core_freq_mhz m; core_freq_count := core_freq_count m;
     spd_temps_c := spd_temps_c m; spd_temps_count := spd_temps_count m |}.

Definition set_vcore (v : float) (m : smu_metrics_t) : smu_metrics_t :=
  {| package_power_w := package_power_w m; ppt_w := ppt_w m;
     package_current_a := package_current_a m; vcore := v; vsoc := vsoc m;
     vddp := vddp m; vddg_ccd := vddg_ccd m; vddg_iod := vddg_iod m;
     vdd_misc := vdd_misc m; cpu_vddio := cpu_vddio m; mem_vdd := mem_vdd m;
     mem_vddq := mem_vddq m; mem_vpp := mem_vpp m; vid := vid m;
     core_clock_mhz := core_clock_mhz m; bclk_mhz := bclk_mhz m;
     fclk_mhz := fclk_mhz m; uclk_mhz := uclk_mhz m; mclk_mhz := mclk_mhz m;
     memory_clock_mhz := memory_clock_mhz m;
     core_clocks_ghz := core_clocks_ghz m;
     core_clocks_count := core_clocks_count m; cpu_temp_c := cpu_temp_c m;
     core_temps_c := core_temps_c m; core_temps_count := core_temps_count m;
     tdie_c := tdie_c m; has_tdie := has_tdie m; tctl_c := tctl_c m;
     has_tctl := has_tctl m; tccd1_c := tccd1_c m; has_tccd1 := has_tccd1 m;
     tccd2_c := tccd2_c m; has_tccd2 := has_tccd2 m;
     iod_hotspot_c := iod_hotspot_c m; has_iod_hotspot := has_iod_hotspot m;
     core_voltages := core_voltages m;
     core_voltages_count := core_voltages_count m;
     core_usage_pct := core_usage_pct m;
     core_usage_count := core_usage_count m;
     core_freq_mhz := core_freq_mhz m; core_freq_count := core_freq_count m;
     spd_temps_c := spd_temps_c m; spd_temps_count := spd_temps_count m |}.

Definition set_vsoc (v : float) (m : smu_metrics_t) : smu_metrics_t :=
  {| package_power_w := package_power_w m; ppt_w := ppt_w m;
     package_current_a := package_current_a m; vcore := vcore m; vsoc := v;
     vddp := vddp m; vddg_ccd := vddg_ccd m; vddg_iod := vddg_iod m;
     vdd_misc := vdd_misc m; cpu_vddio := cpu_vddio m; mem_vdd := mem_vdd m;
     mem_vddq := mem_vddq m; mem_vpp := mem_vpp m; vid := vid m;
     core_clock_mhz := core_clock_mhz m; bclk_mhz := bclk_mhz m;
     fclk_mhz := fclk_mhz m; uclk_mhz := uclk_mhz m; mclk_mhz := mclk_mhz m;
     memory_clock_mhz := memory_clock_mhz m;
     core_clocks_ghz := core_clocks_ghz m;
     core_clocks_count := core_clocks_count m; cpu_temp_c := cpu_temp_c m;
     core_temps_c := core_temps_c m; core_temps_count := core_temps_count m;
     tdie_c := tdie_c m; has_tdie := has_tdie m; tctl_c := tctl_c m;
     has_tctl := has_tctl m; tccd1_c := tccd1_c m; has_tccd1 := has_tccd1 m;
     tccd2_c := tccd2_c m; has_tccd2 := has_tccd2 m;
     iod_hotspot_c := iod_hotspot_c m; has_iod_hotspot := has_iod_hotspot m;
     core_voltages := core_voltages m;
     core_voltages_count := core_voltages_count m;
     core_usage_pct := core_usage_pct m;
     core_usage_count := core_usage_count m;
     core_freq_mhz := core_freq_mhz m; core_freq_count := core_freq_count m;
     spd_temps_c := spd_temps_c m; spd_temps_count := spd_temps_count m |}.

Definition set_vddp (v : float) (m : smu_metrics_t) : smu_metrics_t :=
  {| package_power_w := package_power_w m; ppt_w := ppt_w m;
     package_current_a := package_current_a m; vcore := vcore m;
     vsoc := vsoc m; vddp := v; vddg_ccd := vddg_ccd m;
     vddg_iod := vddg_iod m; vdd_misc := vdd_misc m;
     cpu_vddio := cpu_vddio m; mem_vdd := mem_vdd m; mem_vddq := mem_vddq m;
     mem_vpp := mem_vpp m; vid := vid m; core_clock_mhz := core_clock_mhz m;
     bclk_mhz := bclk_mhz m; fclk_mhz := fclk_mhz m; uclk_mhz := uclk_mhz m;
     mclk_mhz := mclk_mhz m; memory_clock_mhz := memory_clock_mhz m;
     core_clocks_ghz := core_clocks_ghz m;
     core_clocks_count := core_clocks_count m; cpu_temp_c := cpu_temp_c m;
     core_temps_c := core_temps_c m; core_temps_count := core_temps_count m;
     tdie_c := tdie_c m; has_tdie := has_tdie m; tctl_c := tctl_c m;
     has_tctl := has_tctl m; tccd1_c := tccd1_c m; has_tccd1 := has_tccd1 m;
     tccd2_c := tccd2_c m; has_tccd2 := has_tccd2 m;
     iod_hotspot_c := iod_hotspot_c m; has_iod_hotspot := has_iod_hotspot m;
     core_voltages := core_voltages m;
     core_voltages_count := core_voltages_count m;
     core_usage_pct := core_usage_pct m;
     core_usage_count := core_usage_count m;
     core_freq_mhz := core_freq_mhz m; core_freq_count := core_freq_count m;
     spd_temps_c := spd_temps_c m; spd_temps_count := spd_temps_count m |}.

Definition set_vddg_ccd (v : float) (m : smu_metrics_t) : smu_metrics_t :=
  {| package_power_w := package_power_w m; ppt_w := ppt_w m;
     package_current_a := package_current_a m; vcore := vcore m;
     vsoc := vsoc m; vddp := vddp m; vddg_ccd := v; vddg_iod := vddg_iod m;
     vdd_misc := vdd_misc m; cpu_vddio := cpu_vddio m; mem_vdd := mem_vdd m;
     mem_vddq := mem_vddq m; mem_vpp := mem_vpp m; vid := vid m;
     core_clock_mhz := core_clock_mhz m; bclk_mhz := bclk_mhz m;
     fclk_mhz := fclk_mhz m; uclk_mhz := uclk_mhz m; mclk_mhz := mclk_mhz m;
     memory_clock_mhz := memory_clock_mhz m;
     core_clocks_ghz := core_clocks_ghz m;
     core_clocks_count := core_clocks_count m; cpu_temp_c := cpu_temp_c m;
     core_temps_c := core_temps_c m; core_temps_count := core_temps_count m;
     tdie_c := tdie_c m; has_tdie := has_tdie m; tctl_c := tctl_c m;
     has_tctl := has_tctl m; tccd1_c := tccd1_c m; has_tccd1 := has_tccd1 m;
     tccd2_c := tccd2_c m; has_tccd2 := has_tccd2 m;
     iod_hotspot_c := iod_hotspot_c m; has_iod_hotspot := has_iod_hotspot m;
     core_voltages := core_voltages m;
     core_voltages_count := core_voltages_count m;
     core_usage_pct := core_usage_pct m;
     core_usage_count := core_usage_count m;
     core_freq_mhz := core_freq_mhz m; core_freq_count := core_freq_count m;
     spd_temps_c := spd_temps_c m; spd_temps_count := spd_temps_count m |}.

Definition set_vddg_iod (v : float) (m : smu_metrics_t) : smu_metrics_t :=
  {| package_power_w := package_power_w m; ppt_w := ppt_w m;
     package_current_a := package_current_a m; vcore := vcore m;
     vsoc := vsoc m; vddp := vddp m; vddg_ccd := vddg_ccd m; vddg_iod := v;
     vdd_misc := vdd_misc m; cpu_vddio := cpu_vddio m; mem_vdd := mem_vdd m;
     mem_vddq := mem_vddq m; mem_vpp := mem_vpp m; vid := vid m;
     core_clock_mhz := core_clock_mhz m; bclk_mhz := bclk_mhz m;
     fclk_mhz := fclk_mhz m; uclk_mhz := uclk_mhz m; mclk_mhz := mclk_mhz m;
     memory_clock_mhz := memory_clock_mhz m;
     core_clocks_ghz := core_clocks_ghz m;
     core_clocks_count := core_clocks_count m; cpu_temp_c := cpu_temp_c m;
     core_temps_c := core_temps_c m; core_temps_count := core_temps_count m;
     tdie_c := tdie_c m; has_tdie := has_tdie m; tctl_c := tctl_c m;
     has_tctl := has_tctl m; tccd1_c := tccd1_c m; has_tccd1 := has_tccd1 m;
     tccd2_c := tccd2_c m; has_tccd2 := has_tccd2 m;
     iod_hotspot_c := iod_hotspot_c m; has_iod_hotspot := has_iod_hotspot m;
     core_voltages := core_voltages m;
     core_voltages_count := core_voltages_count m;
     core_usage_pct := core_usage_pct m;
     core_usage_count := core_usage_count m;
     core_freq_mhz := core_freq_mhz m; core_freq_count := core_freq_count m;
     spd_temps_c := spd_temps_c m; spd_temps_count := spd_temps_count m |}.

Definition set_vdd_misc (v : float) (m : smu_metrics_t) : smu_metrics_t :=
  {| package_power_w := package_power_w m; ppt_w := ppt_w m;
     package_current_a := package_current_a m; vcore := vcore m;
     vsoc := vsoc m; vddp := vddp m; vddg_ccd := vddg_ccd m;
     vddg_iod := vddg_iod m; vdd_misc := v; cpu_vddio := cpu_vddio m;
     mem_vdd := mem_vdd m; mem_vddq := mem_vddq m; mem_vpp := mem_vpp m;
     vid := vid m; core_clock_mhz := core_clock_mhz m;
     bclk_mhz := bclk_mhz m; fclk_mhz := fclk_mhz m; uclk_mhz := uclk_mhz m;
     mclk_mhz := mclk_mhz m; memory_clock_mhz := memory_clock_mhz m;
     core_clocks_ghz := core_clocks_ghz m;
     core_clocks_count := core_clocks_count m; cpu_temp_c := cpu_temp_c m;
     core_temps_c := core_temps_c m; core_temps_count := core_temps_count m;
     tdie_c := tdie_c m; has_tdie := has_tdie m; tctl_c := tctl_c m;
     has_tctl := has_tctl m; tccd1_c := tccd1_c m; has_tccd1 := has_tccd1 m;
     tccd2_c := tccd2_c m; has_tccd2 := has_tccd2 m;
     iod_hotspot_c := iod_hotspot_c m; has_iod_hotspot := has_iod_hotspot m;
     core_voltages := core_voltages m;
     core_voltages_count := core_voltages_count m;
     core_usage_pct := core_usage_pct m;
     core_usage_count := core_usage_count m;
     core_freq_mhz := core_freq_mhz m; core_freq_count := core_freq_count m;
     spd_temps_c := spd_temps_c m; spd_temps_count := spd_temps_count m |}.

Definition set_vid (v : float) (m : smu_metrics_t) : smu_metrics_t :=
  {| package_power_w := package_power_w m; ppt_w := ppt_w m;
     package_current_a := package_current_a m; vcore := vcore m;
     vsoc := vsoc m; vddp := vddp m; vddg_ccd := vddg_ccd m;
     vddg_iod := vddg_iod m; vdd_misc := vdd_misc m;
     cpu_vddio := cpu_vddio m; mem_vdd := mem_vdd m; mem_vddq := mem_vddq m;
     mem_vpp := mem_vpp m; vid := v; core_clock_mhz := core_clock_mhz m;
     bclk_mhz := bclk_mhz m; fclk_mhz := fclk_mhz m; uclk_mhz := uclk_mhz m;
     mclk_mhz := mclk_mhz m; memory_clock_mhz := memory_clock_mhz m;
     core_clocks_ghz := core_clocks_ghz m;
     core_clocks_count := core_clocks_count m; cpu_temp_c := cpu_temp_c m;
     core_temps_c := core_temps_c m; core_temps_count := core_temps_count m;
     tdie_c := tdie_c m; has_tdie := has_tdie m; tctl_c := tctl_c m;
     has_tctl := has_tctl m; tccd1_c := tccd1_c m; has_tccd1 := has_tccd1 m;
     tccd2_c := tccd2_c m; has_tccd2 := has_tccd2 m;
     iod_hotspot_c := iod_hotspot_c m; has_iod_hotspot := has_iod_hotspot m;
     core_voltages := core_voltages m;
     core_voltages_count := core_voltages_count m;
     core_usage_pct := core_usage_pct m;
     core_usage_count := core_usage_count m;
     core_freq_mhz := core_freq_mhz m; core_freq_count := core_freq_count m;
     spd_temps_c := spd_temps_c m; spd_temps_count := spd_temps_count m |}.

Definition set_core_clock_mhz (v : float) (m : smu_metrics_t) : smu_metrics_t :=
  {| package_power_w := package_power_w m; ppt_w := ppt_w m;
     package_current_a := package_current_a m; vcore := vcore m;
     vsoc := vsoc m; vddp := vddp m; vddg_ccd := vddg_ccd m;
     vddg_iod := vddg_iod m; vdd_misc := vdd_misc m;
     cpu_vddio := cpu_vddio m; mem_vdd := mem_vdd m; mem_vddq := mem_vddq m;
     mem_vpp := mem_vpp m; vid := vid m; core_clock_mhz := v;
     bclk_mhz := bclk_mhz m; fclk_mhz := fclk_mhz m; uclk_mhz := uclk_mhz m;
     mclk_mhz := mclk_mhz m; memory_clock_mhz := memory_clock_mhz m;
     core_clocks_ghz := core_clocks_ghz m;
     core_clocks_count := core_clocks_count m; cpu_temp_c := cpu_temp_c m;
     core_temps_c := core_temps_c m; core_temps_count := core_temps_count m;
     tdie_c := tdie_c m; has_tdie := has_tdie m; tctl_c := tctl_c m;
     has_tctl := has_tctl m; tccd1_c := tccd1_c m; has_tccd1 := has_tccd1 m;
     tccd2_c := tccd2_c m; has_tccd2 := has_tccd2 m;
     iod_hotspot_c := iod_hotspot_c m; has_iod_hotspot := has_iod_hotspot m;
     core_voltages := core_voltages m;
     core_voltages_count := core_voltages_count m;
     core_usage_pct := core_usage_pct m;
     core_usage_count := core_usage_count m;
     core_freq_mhz := core_freq_mhz m; core_freq_count := core_freq_count m;
     spd_temps_c := spd_temps_c m; spd_temps_count := spd_temps_count m |}.

Definition set_fclk_mhz (v : float) (m : smu_metrics_t) : smu_metrics_t :=
  {| package_power_w := package_power_w m; ppt_w := ppt_w m;
     package_current_a := package_current_a m; vcore := vcore m;
     vsoc := vsoc m; vddp := vddp m; vddg_ccd := vddg_ccd m;
     vddg_iod := vddg_iod m; vdd_misc := vdd_misc m;
     cpu_vddio := cpu_vddio m; mem_vdd := mem_vdd m; mem_vddq := mem_vddq m;
     mem_vpp := mem_vpp m; vid := vid m; core_clock_mhz := core_clock_mhz m;
     bclk_mhz := bclk_mhz m; fclk_mhz := v; uclk_mhz := uclk_mhz m;
     mclk_mhz := mclk_mhz m; memory_clock_mhz := memory_clock_mhz m;
     core_clocks_ghz := core_clocks_ghz m;
     core_clocks_count := core_clocks_count m; cpu_temp_c := cpu_temp_c m;
     core_temps_c := core_temps_c m; core_temps_count := core_temps_count m;
     tdie_c := tdie_c m; has_tdie := has_tdie m; tctl_c := tctl_c m;
     has_tctl := has_tctl m; tccd1_c := tccd1_c m; has_tccd1 := has_tccd1 m;
     tccd2_c := tccd2_c m; has_tccd2 := has_tccd2 m;
     iod_hotspot_c := iod_hotspot_c m; has_iod_hotspot := has_iod_hotspot m;
     core_voltages := core_voltages m;
     core_voltages_count := core_voltages_count m;
     core_usage_pct := core_usage_pct m;
     core_usage_count := core_usage_count m;
     core_freq_mhz := core_freq_mhz m; core_freq_count := core_freq_count m;
     spd_temps_c := spd_temps_c m; spd_temps_count := spd_temps_count m |}.

Definition set_uclk_mhz (v : float) (m : smu_metrics_t) : smu_metrics_t :=
  {| package_power_w := package_power_w m; ppt_w := ppt_w m;
     package_current_a := package_current_a m; vcore := vcore m;
     vsoc := vsoc m; vddp := vddp m; vddg_ccd := vddg_ccd m;
     vddg_iod := vddg_iod m; vdd_misc := vdd_misc m;
     cpu_vddio := cpu_vddio m; mem_vdd := mem_vdd m; mem_vddq := mem_vddq m;
     mem_vpp := mem_vpp m; vid := vid m; core_clock_mhz := core_clock_mhz m;
     bclk_mhz := bclk_mhz m; fclk_mhz := fclk_mhz m; uclk_mhz := v;
     mclk_mhz := mclk_mhz m; memory_clock_mhz := memory_clock_mhz m;
     core_clocks_ghz := core_clocks_ghz m;
     core_clocks_count := core_clocks_count m; cpu_temp_c := cpu_temp_c m;
     core_temps_c := core_temps_c m; core_temps_count := core_temps_count m;
     tdie_c := tdie_c m; has_tdie := has_tdie m; tctl_c := tctl_c m;
     has_tctl := has_tctl m; tccd1_c := tccd1_c m; has_tccd1 := has_tccd1 m;
     tccd2_c := tccd2_c m; has_tccd2 := has_tccd2 m;
     iod_hotspot_c := iod_hotspot_c m; has_iod_hotspot := has_iod_hotspot m;
     core_voltages := core_voltages m;
     core_voltages_count := core_voltages_count m;
     core_usage_pct := core_usage_pct m;
     core_usage_count := core_usage_count m;
     core_freq_mhz := core_freq_mhz m; core_freq_count := core_freq_count m;
     spd_temps_c := spd_temps_c m; spd_temps_count := spd_temps_count m |}.

Definition set_mclk_mhz (v : float) (m : smu_metrics_t) : smu_metrics_t :=
  {| package_power_w := package_power_w m; ppt_w := ppt_w m;
     package_current_a := package_current_a m; vcore := vcore m;
     vsoc := vsoc m; vddp := vddp m; vddg_ccd := vddg_ccd m;
     vddg_iod := vddg_iod m; vdd_misc := vdd_misc m;
     cpu_vddio := cpu_vddio m; mem_vdd := mem_vdd m; mem_vddq := mem_vddq m;
     mem_vpp := mem_vpp m; vid := vid m; core_clock_mhz := core_clock_mhz m;
     bclk_mhz := bclk_mhz m; fclk_mhz := fclk_mhz m; uclk_mhz := uclk_mhz m;
     mclk_mhz := v; memory_clock_mhz := memory_clock_mhz m;
     core_clocks_ghz := core_clocks_ghz m;
     core_clocks_count := core_clocks_count m; cpu_temp_c := cpu_temp_c m;
     core_temps_c := core_temps_c m; core_temps_count := core_temps_count m;
     tdie_c := tdie_c m; has_tdie := has_tdie m; tctl_c := tctl_c m;
     has_tctl := has_tctl m; tccd1_c := tccd1_c m; has_tccd1 := has_tccd1 m;
     tccd2_c := tccd2_c m; has_tccd2 := has_tccd2 m;
     iod_hotspot_c := iod_hotspot_c m; has_iod_hotspot := has_iod_hotspot m;
     core_voltages := core_voltages m;
     core_voltages_count := core_voltages_count m;
     core_usage_pct := core_usage_pct m;
     core_usage_count := core_usage_count m;
     core_freq_mhz := core_freq_mhz m; core_freq_count := core_freq_count m;
     spd_temps_c := spd_temps_c m; spd_temps_count := spd_temps_count m |}.

Definition set_core_clocks_ghz (v : list float) (m : smu_metrics_t) : smu_metrics_t :=
  {| package_power_w := package_power_w m; ppt_w := ppt_w m;
     package_current_a := package_current_a m; vcore := vcore m;
     vsoc := vsoc m; vddp := vddp m; vddg_ccd := vddg_ccd m;
     vddg_iod := vddg_iod m; vdd_misc := vdd_misc m;
     cpu_vddio := cpu_vddio m; mem_vdd := mem_vdd m; mem_vddq := mem_vddq m;
     mem_vpp := mem_vpp m; vid := vid m; core_clock_mhz := core_clock_mhz m;
     bclk_mhz := bclk_mhz m; fclk_mhz := fclk_mhz m; uclk_mhz := uclk_mhz m;
     mclk_mhz := mclk_mhz m; memory_clock_mhz := memory_clock_mhz m;
     core_clocks_ghz := v; core_clocks_count := core_clocks_count m;
     cpu_temp_c := cpu_temp_c m; core_temps_c := core_temps_c m;
     core_temps_count := core_temps_count m; tdie_c := tdie_c m;
     has_tdie := has_tdie m; tctl_c := tctl_c m; has_tctl := has_tctl m;
     tccd1_c := tccd1_c m; has_tccd1 := has_tccd1 m; tccd2_c := tccd2_c m;
     has_tccd2 := has_tccd2 m; iod_hotspot_c := iod_hotspot_c m;
     has_iod_hotspot := has_iod_hotspot m; core_voltages := core_voltages m;
     core_voltages_count := core_voltages_count m;
     core_usage_pct := core_usage_pct m;
     core_usage_count := core_usage_count m;
     core_freq_mhz := core_freq_mhz m; core_freq_count := core_freq_count m;
     spd_temps_c := spd_temps_c m; spd_temps_count := spd_temps_count m |}.

Definition set_core_clocks_count (v : Z) (m : smu_metrics_t) : smu_metrics_t :=
  {| package_power_w := package_power_w m; ppt_w := ppt_w m;
     package_current_a := package_current_a m; vcore := vcore m;
     vsoc := vsoc m; vddp := vddp m; vddg_ccd := vddg_ccd m;
     vddg_iod := vddg_iod m; vdd_misc := vdd_misc m;
     cpu_vddio := cpu_vddio m; mem_vdd := mem_vdd m; mem_vddq := mem_vddq m;
     mem_vpp := mem_vpp m; vid := vid m; core_clock_mhz := core_clock_mhz m;
     bclk_mhz := bclk_mhz m; fclk_mhz := fclk_mhz m; uclk_mhz := uclk_mhz m;
     mclk_mhz := mclk_mhz m; memory_clock_mhz := memory_clock_mhz m;
     core_clocks_ghz := core_clocks_ghz m; core_clocks_count := v;
     cpu_temp_c := cpu_temp_c m; core_temps_c := core_temps_c m;
     core_temps_count := core_temps_count m; tdie_c := tdie_c m;
     has_tdie := has_tdie m; tctl_c := tctl_c m; has_tctl := has_tctl m;
     tccd1_c := tccd1_c m; has_tccd1 := has_tccd1 m; tccd2_c := tccd2_c m;
     has_tccd2 := has_tccd2 m; iod_hotspot_c := iod_hotspot_c m;
     has_iod_hotspot := has_iod_hotspot m; core_voltages := core_voltages m;
     core_voltages_count := core_voltages_count m;
     core_usage_pct := core_usage_pct m;
     core_usage_count := core_usage_count m;
     core_freq_mhz := core_freq_mhz m; core_freq_count := core_freq_count m;
     spd_temps_c := spd_temps_c m; spd_temps_count := spd_temps_count m |}.

Definition set_cpu_temp_c (v : float) (m : smu_metrics_t) : smu_metrics_t :=
  {| package_power_w := package_power_w m; ppt_w := ppt_w m;
     package_current_a := package_current_a m; vcore := vcore m;
     vsoc := vsoc m; vddp := vddp m; vddg_ccd := vddg_ccd m;
     vddg_iod := vddg_iod m; vdd_misc := vdd_misc m;
     cpu_vddio := cpu_vddio m; mem_vdd := mem_vdd m; mem_vddq := mem_vddq m;
     mem_vpp := mem_vpp m; vid := vid m; core_clock_mhz := core_clock_mhz m;
     bclk_mhz := bclk_mhz m; fclk_mhz := fclk_mhz m; uclk_mhz := uclk_mhz m;
     mclk_mhz := mclk_mhz m; memory_clock_mhz := memory_clock_mhz m;
     core_clocks_ghz := core_clocks_ghz m;
     core_clocks_count := core_clocks_count m; cpu_temp_c := v;
     core_temps_c := core_temps_c m; core_temps_count := core_temps_count m;
     tdie_c := tdie_c m; has_tdie := has_tdie m; tctl_c := tctl_c m;
     has_tctl := has_tctl m; tccd1_c := tccd1_c m; has_tccd1 := has_tccd1 m;
     tccd2_c := tccd2_c m; has_tccd2 := has_tccd2 m;
     iod_hotspot_c := iod_hotspot_c m; has_iod_hotspot := has_iod_hotspot m;
     core_voltages := core_voltages m;
     core_voltages_count := core_voltages_count m;
     core_usage_pct := core_usage_pct m;
     core_usage_count := core_usage_count m;
     core_freq_mhz := core_freq_mhz m; core_freq_count := core_freq_count m;
     spd_temps_c := spd_temps_c m; spd_temps_count := spd_temps_count m |}.

Definition set_core_temps_c (v : list float) (m : smu_metrics_t) : smu_metrics_t :=
  {| package_power_w := package_power_w m; ppt_w := ppt_w m;
     package_current_a := package_current_a m; vcore := vcore m;
     vsoc := vsoc m; vddp := vddp m; vddg_ccd := vddg_ccd m;
     vddg_iod := vddg_iod m; vdd_misc := vdd_misc m;
     cpu_vddio := cpu_vddio m; mem_vdd := mem_vdd m; mem_vddq := mem_vddq m;
     mem_vpp := mem_vpp m; vid := vid m; core_clock_mhz := core_clock_mhz m;
     bclk_mhz := bclk_mhz m; fclk_mhz := fclk_mhz m; uclk_mhz := uclk_mhz m;
     mclk_mhz := mclk_mhz m; memory_clock_mhz := memory_clock_mhz m;
     core_clocks_ghz := core_clocks_ghz m;
     core_clocks_count := core_clocks_count m; cpu_temp_c := cpu_temp_c m;
     core_temps_c := v; core_temps_count := core_temps_count m;
     tdie_c := tdie_c m; has_tdie := has_tdie m; tctl_c := tctl_c m;
     has_tctl := has_tctl m; tccd1_c := tccd1_c m; has_tccd1 := has_tccd1 m;
     tccd2_c := tccd2_c m; has_tccd2 := has_tccd2 m;
     iod_hotspot_c := iod_hotspot_c m; has_iod_hotspot := has_iod_hotspot m;
     core_voltages := core_voltages m;
     core_voltages_count := core_voltages_count m;
     core_usage_pct := core_usage_pct m;
     core_usage_count := core_usage_count m;
     core_freq_mhz := core_freq_mhz m; core_freq_count := core_freq_count m;
     spd_temps_c := spd_temps_c m; spd_temps_count := spd_temps_count m |}.

Definition set_core_temps_count (v : Z) (m : smu_metrics_t) : smu_metrics_t :=
  {| package_power_w := package_power_w m; ppt_w := ppt_w m;
     package_current_a := package_current_a m; vcore := vcore m;
     vsoc := vsoc m; vddp := vddp m; vddg_ccd := vddg_ccd m;
     vddg_iod := vddg_iod m; vdd_misc := vdd_misc m;
     cpu_vddio := cpu_vddio m; mem_vdd := mem_vdd m; mem_vddq := mem_vddq m;
     mem_vpp := mem_vpp m; vid := vid m; core_clock_mhz := core_clock_mhz m;
     bclk_mhz := bclk_mhz m; fclk_mhz := fclk_mhz m; uclk_mhz := uclk_mhz m;
     mclk_mhz := mclk_mhz m; memory_clock_mhz := memory_clock_mhz m;
     core_clocks_ghz := core_clocks_ghz m;
     core_clocks_count := core_clocks_count m; cpu_temp_c := cpu_temp_c m;
     core_temps_c := core_temps_c m; core_temps_count := v;
     tdie_c := tdie_c m; has_tdie := has_tdie m; tctl_c := tctl_c m;
     has_tctl := has_tctl m; tccd1_c := tccd1_c m; has_tccd1 := has_tccd1 m;
     tccd2_c := tccd2_c m; has_tccd2 := has_tccd2 m;
     iod_hotspot_c := iod_hotspot_c m; has_iod_hotspot := has_iod_hotspot m;
     core_voltages := core_voltages m;
     core_voltages_count := core_voltages_count m;
     core_usage_pct := core_usage_pct m;
     core_usage_count := core_usage_count m;
     core_freq_mhz := core_freq_mhz m; core_freq_count := core_freq_count m;
     spd_temps_c := spd_temps_c m; spd_temps_count := spd_temps_count m |}.

Definition set_tdie_c (v : float) (m : smu_metrics_t) : smu_metrics_t :=
  {| package_power_w := package_power_w m; ppt_w := ppt_w m;
     package_current_a := package_current_a m; vcore := vcore m;
     vsoc := vsoc m; vddp := vddp m; vddg_ccd := vddg_ccd m;
     vddg_iod := vddg_iod m; vdd_misc := vdd_misc m;
     cpu_vddio := cpu_vddio m; mem_vdd := mem_vdd m; mem_vddq := mem_vddq m;
     mem_vpp := mem_vpp m; vid := vid m; core_clock_mhz := core_clock_mhz m;
     bclk_mhz := bclk_mhz m; fclk_mhz := fclk_mhz m; uclk_mhz := uclk_mhz m;
     mclk_mhz := mclk_mhz m; memory_clock_mhz := memory_clock_mhz m;
     core_clocks_ghz := core_clocks_ghz m;
     core_clocks_count := core_clocks_count m; cpu_temp_c := cpu_temp_c m;
     core_temps_c := core_temps_c m; core_temps_count := core_temps_count m;
     tdie_c := v; has_tdie := has_tdie m; tctl_c := tctl_c m;
     has_tctl := has_tctl m; tccd1_c := tccd1_c m; has_tccd1 := has_tccd1 m;
     tccd2_c := tccd2_c m; has_tccd2 := has_tccd2 m;
     iod_hotspot_c := iod_hotspot_c m; has_iod_hotspot := has_iod_hotspot m;
     core_voltages := core_voltages m;
     core_voltages_count := core_voltages_count m;
     core_usage_pct := core_usage_pct m;
     core_usage_count := core_usage_count m;
     core_freq_mhz := core_freq_mhz m; core_freq_count := core_freq_count m;
     spd_temps_c := spd_temps_c m; spd_temps_count := spd_temps_count m |}.

Definition set_has_tdie (v : bool) (m : smu_metrics_t) : smu_metrics_t :=
  {| package_power_w := package_power_w m; ppt_w := ppt_w m;
     package_current_a := package_current_a m; vcore := vcore m;
     vsoc := vsoc m; vddp := vddp m; vddg_ccd := vddg_ccd m;
     vddg_iod := vddg_iod m; vdd_misc := vdd_misc m;
     cpu_vddio := cpu_vddio m; mem_vdd := mem_vdd m; mem_vddq := mem_vddq m;
     mem_vpp := mem_vpp m; vid := vid m; core_clock_mhz := core_clock_mhz m;
     bclk_mhz := bclk_mhz m; fclk_mhz := fclk_mhz m; uclk_mhz := uclk_mhz m;
     mclk_mhz := mclk_mhz m; memory_clock_mhz := memory_clock_mhz m;
     core_clocks_ghz := core_clocks_ghz m;
     core_clocks_count := core_clocks_count m; cpu_temp_c := cpu_temp_c m;
     core_temps_c := core_temps_c m; core_temps_count := core_temps_count m;
     tdie_c := tdie_c m; has_tdie := v; tctl_c := tctl_c m;
     has_tctl := has_tctl m; tccd1_c := tccd1_c m; has_tccd1 := has_tccd1 m;
     tccd2_c := tccd2_c m; has_tccd2 := has_tccd2 m;
     iod_hotspot_c := iod_hotspot_c m; has_iod_hotspot := has_iod_hotspot m;
     core_voltages := core_voltages m;
     core_voltages_count := core_voltages_count m;
     core_usage_pct := core_usage_pct m;
     core_usage_count := core_usage_count m;
     core_freq_mhz := core_freq_mhz m; core_freq_count := core_freq_count m;
     spd_temps_c := spd_temps_c m; spd_temps_count := spd_temps_count m |}.

Definition set_iod_hotspot_c (v : float) (m : smu_metrics_t) : smu_metrics_t :=
  {| package_power_w := package_power_w m; ppt_w := ppt_w m;
     package_current_a := package_current_a m; vcore := vcore m;
     vsoc := vsoc m; vddp := vddp m; vddg_ccd := vddg_ccd m;
     vddg_iod := vddg_iod m; vdd_misc := vdd_misc m;
     cpu_vddio := cpu_vddio m; mem_vdd := mem_vdd m; mem_vddq := mem_vddq m;
     mem_vpp := mem_vpp m; vid := vid m; core_clock_mhz := core_clock_mhz m;
     bclk_mhz := bclk_mhz m; fclk_mhz := fclk_mhz m; uclk_mhz := uclk_mhz m;
     mclk_mhz := mclk_mhz m; memory_clock_mhz := memory_clock_mhz m;
     core_clocks_ghz := core_clocks_ghz m;
     core_clocks_count := core_clocks_count m; cpu_temp_c := cpu_temp_c m;
     core_temps_c := core_temps_c m; core_temps_count := core_temps_count m;
     tdie_c := tdie_c m; has_tdie := has_tdie m; tctl_c := tctl_c m;
     has_tctl := has_tctl m; tccd1_c := tccd1_c m; has_tccd1 := has_tccd1 m;
     tccd2_c := tccd2_c m; has_tccd2 := has_tccd2 m; iod_hotspot_c := v;
     has_iod_hotspot := has_iod_hotspot m; core_voltages := core_voltages m;
     core_voltages_count := core_voltages_count m;
     core_usage_pct := core_usage_pct m;
     core_usage_count := core_usage_count m;
     core_freq_mhz := core_freq_mhz m; core_freq_count := core_freq_count m;
     spd_temps_c := spd_temps_c m; spd_temps_count := spd_temps_count m |}.

Definition set_has_iod_hotspot (v : bool) (m : smu_metrics_t) : smu_metrics_t :=
  {| package_power_w := package_power_w m; ppt_w := ppt_w m;
     package_current_a := package_current_a m; vcore := vcore m;
     vsoc := vsoc m; vddp := vddp m; vddg_ccd := vddg_ccd m;
     vddg_iod := vddg_iod m; vdd_misc := vdd_misc m;
     cpu_vddio := cpu_vddio m; mem_vdd := mem_vdd m; mem_vddq := mem_vddq m;
     mem_vpp := mem_vpp m; vid := vid m; core_clock_mhz := core_clock_mhz m;
     bclk_mhz := bclk_mhz m; fclk_mhz := fclk_mhz m; uclk_mhz := uclk_mhz m;
     mclk_mhz := mclk_mhz m; memory_clock_mhz := memory_clock_mhz m;
     core_clocks_ghz := core_clocks_ghz m;
     core_clocks_count := core_clocks_count m; cpu_temp_c := cpu_temp_c m;
     core_temps_c := core_temps_c m; core_temps_count := core_temps_count m;
     tdie_c := tdie_c m; has_tdie := has_tdie m; tctl_c := tctl_c m;
     has_tctl := has_tctl m; tccd1_c := tccd1_c m; has_tccd1 := has_tccd1 m;
     tccd2_c := tccd2_c m; has_tccd2 := has_tccd2 m;
     iod_hotspot_c := iod_hotspot_c m; has_iod_hotspot := v;
     core_voltages := core_voltages m;
     core_voltages_count := core_voltages_count m;
     core_usage_pct := core_usage_pct m;
     core_usage_count := core_usage_count m;
     core_freq_mhz := core_freq_mhz m; core_freq_count := core_freq_count m;
     spd_temps_c := spd_temps_c m; spd_temps_count := spd_temps_count m |}.

Definition set_core_voltages (v : list float) (m : smu_metrics_t) : smu_metrics_t :=
  {| package_power_w := package_power_w m; ppt_w := ppt_w m;
     package_current_a := package_current_a m; vcore := vcore m;
     vsoc := vsoc m; vddp := vddp m; vddg_ccd := vddg_ccd m;
     vddg_iod := vddg_iod m; vdd_misc := vdd_misc m;
     cpu_vddio := cpu_vddio m; mem_vdd := mem_vdd m; mem_vddq := mem_vddq m;
     mem_vpp := mem_vpp m; vid := vid m; core_clock_mhz := core_clock_mhz m;
     bclk_mhz := bclk_mhz m; fclk_mhz := fclk_mhz m; uclk_mhz := uclk_mhz m;
     mclk_mhz := mclk_mhz m; memory_clock_mhz := memory_clock_mhz m;
     core_clocks_ghz := core_clocks_ghz m;
     core_clocks_count := core_clocks_count m; cpu_temp_c := cpu_temp_c m;
     core_temps_c := core_temps_c m; core_temps_count := core_temps_count m;
     tdie_c := tdie_c m; has_tdie := has_tdie m; tctl_c := tctl_c m;
     has_tctl := has_tctl m; tccd1_c := tccd1_c m; has_tccd1 := has_tccd1 m;
     tccd2_c := tccd2_c m; has_tccd2 := has_tccd2 m;
     iod_hotspot_c := iod_hotspot_c m; has_iod_hotspot := has_iod_hotspot m;
     core_voltages := v; core_voltages_count := core_voltages_count m;
     core_usage_pct := core_usage_pct m;
     core_usage_count := core_usage_count m;
     core_freq_mhz := core_freq_mhz m; core_freq_count := core_freq_count m;
     spd_temps_c := spd_temps_c m; spd_temps_count := spd_temps_count m |}.

Definition set_core_voltages_count (v : Z) (m : smu_metrics_t) : smu_metrics_t :=
  {| package_power_w := package_power_w m; ppt_w := ppt_w m;
     package_current_a := package_current_a m; vcore := vcore m;
     vsoc := vsoc m; vddp := vddp m; vddg_ccd := vddg_ccd m;
     vddg_iod := vddg_iod m; vdd_misc := vdd_misc m;
     cpu_vddio := cpu_vddio m; mem_vdd := mem_vdd m; mem_vddq := mem_vddq m;
     mem_vpp := mem_vpp m; vid := vid m; core_clock_mhz := core_clock_mhz m;
     bclk_mhz := bclk_mhz m; fclk_mhz := fclk_mhz m; uclk_mhz := uclk_mhz m;
     mclk_mhz := mclk_mhz m; memory_clock_mhz := memory_clock_mhz m;
     core_clocks_ghz := core_clocks_ghz m;
     core_clocks_count := core_clocks_count m; cpu_temp_c := cpu_temp_c m;
     core_temps_c := core_temps_c m; core_temps_count := core_temps_count m;
     tdie_c := tdie_c m; has_tdie := has_tdie m; tctl_c := tctl_c m;
     has_tctl := has_tctl m; tccd1_c := tccd1_c m; has_tccd1 := has_tccd1 m;
     tccd2_c := tccd2_c m; has_tccd2 := has_tccd2 m;
     iod_hotspot_c := iod_hotspot_c m; has_iod_hotspot := has_iod_hotspot m;
     core_voltages := core_voltages m; core_voltages_count := v;
     core_usage_pct := core_usage_pct m;
     core_usage_count := core_usage_count m;
     core_freq_mhz := core_freq_mhz m; core_freq_count := core_freq_count m;
     spd_temps_c := spd_temps_c m; spd_temps_count := spd_temps_count m |}.

(** The record after [memset (out, 0, sizeof *out)]. *)
Definition zeros (n : Z) : list float := repeat zero (Z.to_nat n).

Definition smu_zero : smu_metrics_t :=
  {| package_power_w := zero; ppt_w := zero; package_current_a := zero;
     vcore := zero; vsoc := zero; vddp := zero; vddg_ccd := zero;
     vddg_iod := zero; vdd_misc := zero; cpu_vddio := zero; mem_vdd := zero;
     mem_vddq := zero; mem_vpp := zero; vid := zero; core_clock_mhz := zero;
     bclk_mhz := zero; fclk_mhz := zero; uclk_mhz := zero; mclk_mhz := zero;
     memory_clock_mhz := zero;
     core_clocks_ghz := zeros MAX_CORES; core_clocks_count := 0;
     cpu_temp_c := zero;
     core_temps_c := zeros MAX_CORES; core_temps_count := 0;
     tdie_c := zero; has_tdie := false; tctl_c := zero; has_tctl := false;
     tccd1_c := zero; has_tccd1 := false; tccd2_c := zero; has_tccd2 := false;
     iod_hotspot_c := zero; has_iod_hotspot := false;
     core_voltages := zeros MAX_CORES; core_voltages_count := 0;
     core_usage_pct := zeros MAX_CORES; core_usage_count := 0;
     core_freq_mhz := zeros MAX_CORES; core_freq_count := 0;
     spd_temps_c := zeros MAX_MODULES; spd_temps_count := 0 |}.

(** *** Memory accesses *)

(** The load [a[i]] from an array field or from the table.  The sources
    guard each such load by a comparison with [count]; outside the list the
    C load has no defined value and the model reads [+0.0]. *)
Definition load (a : list float) (i : Z) : float :=
  if i <? 0 then zero else nth (Z.to_nat i) a zero.

(** The loop [for (int i = 0; i < n; i++) dst[i] = t[start + i];], which
    occurs five times in the file: [copy_from k i] runs the [k] iterations
    that start at index [i]. *)
Fixpoint copy_from (k : nat) (i : Z) (t : list float) (start : Z)
         (dst : list float) : option (list float) :=
  match k with
  | O => Some dst
  | S k' =>
      dst' <- store dst i (load t (start + i)) ;;
      copy_from k' (i + 1) t start dst'
  end.

Definition copy_cores (n : Z) (t : list float) (start : Z)
           (dst : list float) : option (list float) :=
  copy_from (Z.to_nat n) 0 t start dst.

(** *** Family maps *)

Inductive pm_field : Type :=
| F_FCLK | F_UCLK | F_MCLK | F_VSOC | F_VDDP | F_VDDG_IOD | F_VDDG_CCD
| F_VDD_MISC | F_VCORE | F_IOD_HOTSPOT.

Record pm_entry_t : Type := Build_pm_entry {
  index : Z;
  field_offset : pm_field
}.

Record pm_family_map_t : Type := Build_pm_family_map {
  named : list pm_entry_t;  (* pm_entry_t [12] *)
  named_count : Z;
  vid_idx : Z;
  ppt_idx : Z;
  socket_power_idx : Z;
  core_voltage_start : Z;
  core_temp_start : Z;
  max_cores : Z
}.

(** An element of [named] that the initializer leaves out is zero:
    index 0 and the first enumerator. *)
Definition named_pad : pm_entry_t := Build_pm_entry 0 F_FCLK.

Definition E (i : Z) (f : pm_field) : pm_entry_t := Build_pm_entry i f.

Definition GRANITE_RIDGE : pm_family_map_t :=
  {| named := [E 11 F_IOD_HOTSPOT; E 58 F_VDD_MISC; E 71 F_FCLK; E 75 F_UCLK;
               E 79 F_MCLK; E 83 F_VSOC; E 259 F_VDDG_IOD; E 261 F_VDDG_CCD;
               E 269 F_VDDP; E 271 F_VCORE];
     named_count := 10;
     vid_idx := 275; ppt_idx := 3; socket_power_idx := 29;
     core_voltage_start := 309; core_temp_start := 317; max_cores := 8 |}.

Definition VERMEER_380804 : pm_family_map_t :=
  {| named := [E 11 F_IOD_HOTSPOT; E 48 F_FCLK; E 50 F_UCLK; E 51 F_MCLK;
               E 44 F_VSOC; E 137 F_VDDP; E 138 F_VDDG_IOD; E 139 F_VDDG_CCD;
               E 40 F_VCORE];
     named_count := 9;
     vid_idx := 10; ppt_idx := 1; socket_power_idx := 29;
     core_voltage_start := 185; core_temp_start := 201; max_cores := 16 |}.

Definition VERMEER_380805 : pm_family_map_t :=
  {| named := [E 11 F_IOD_HOTSPOT; E 48 F_FCLK; E 50 F_UCLK; E 51 F_MCLK;
               E 44 F_VSOC; E 137 F_VDDP; E 138 F_VDDG_IOD; E 139 F_VDDG_CCD;
               E 39 F_VCORE];
     named_count := 9;
     vid_idx := 10; ppt_idx := 1; socket_power_idx := 29;
     core_voltage_start := 188; core_temp_start := 204; max_cores := 16 |}.

Definition VERMEER_380904 : pm_family_map_t :=
  {| named := [E 11 F_IOD_HOTSPOT; E 48 F_FCLK; E 50 F_UCLK; E 51 F_MCLK;
               E 44 F_VSOC; E 137 F_VDDP; E 138 F_VDDG_IOD; E 139 F_VDDG_CCD;
               E 40 F_VCORE];
     named_count := 9;
     vid_idx := 10; ppt_idx := 1; socket_power_idx := 29;
     core_voltage_start := 177; core_temp_start := 185; max_cores := 8 |}.

Definition VERMEER_380905 : pm_family_map_t :=
  {| named := [E 11 F_IOD_HOTSPOT; E 48 F_FCLK; E 50 F_UCLK; E 51 F_MCLK;
               E 44 F_VSOC; E 137 F_VDDP; E 138 F_VDDG_IOD; E 139 F_VDDG_CCD;
               E 39 F_VCORE];
     named_count := 9;
     vid_idx := 10; ppt_idx := 1; socket_power_idx := 29;
     core_voltage_start := 180; core_temp_start := 188; max_cores := 8 |}.

Definition CEZANNE_400005 : pm_family_map_t :=
  {| named := [E 29 F_IOD_HOTSPOT; E 409 F_FCLK; E 410 F_UCLK; E 411 F_MCLK;
               E 102 F_VSOC; E 565 F_VDDP; E 98 F_VCORE];
     named_count := 7;
     vid_idx := 28; ppt_idx := 5; socket_power_idx := 38;
     core_voltage_start := 208; core_temp_start := 216; max_cores := 8 |}.

Definition MATISSE_240903 : pm_family_map_t :=
  {| named := [E 11 F_IOD_HOTSPOT; E 48 F_FCLK; E 50 F_UCLK; E 51 F_MCLK;
               E 44 F_VSOC; E 125 F_VDDP; E 126 F_VDDG_IOD; E 39 F_VCORE];
     named_count := 8;
     vid_idx := 10; ppt_idx := 1; socket_power_idx := 29;
     core_voltage_start := 155; core_temp_start := 163; max_cores := 8 |}.

Definition MATISSE_240803 : pm_family_map_t :=
  {| named := [E 11 F_IOD_HOTSPOT; E 48 F_FCLK; E 50 F_UCLK; E 51 F_MCLK;
               E 44 F_VSOC; E 125 F_VDDP; E 126 F_VDDG_IOD; E 40 F_VCORE];
     named_count := 8;
     vid_idx := 10; ppt_idx := 1; socket_power_idx := 29;
     core_voltage_start := 163; core_temp_start := 179; max_cores := 16 |}.

Definition RENOIR_370003 : pm_family_map_t :=
  {| named := [E 29 F_IOD_HOTSPOT; E 371 F_FCLK; E 372 F_UCLK; E 373 F_MCLK;
               E 101 F_VSOC; E 527 F_VDDP; E 97 F_VCORE];
     named_count := 7;
     vid_idx := 28; ppt_idx := 5; socket_power_idx := 38;
     core_voltage_start := 200; core_temp_start := 208; max_cores := 8 |}.

Definition RENOIR_370005 : pm_family_map_t :=
  {| named := [E 29 F_IOD_HOTSPOT; E 378 F_FCLK; E 379 F_UCLK; E 380 F_MCLK;
               E 101 F_VSOC; E 534 F_VDDP; E 97 F_VCORE];
     named_count := 7;
     vid_idx := 28; ppt_idx := 5; socket_power_idx := 38;
     core_voltage_start := 207; core_temp_start := 215; max_cores := 8 |}.

Definition RAVEN_1E0004 : pm_family_map_t :=
  {| named := [E 61 F_IOD_HOTSPOT; E 166 F_FCLK; E 167 F_UCLK; E 168 F_MCLK;
               E 65 F_VSOC; E 60 F_VDDP; E 61 F_VCORE];
     named_count := 7;
     vid_idx := 57; ppt_idx := 5; socket_power_idx := 38;
     core_voltage_start := 104; core_temp_start := 108; max_cores := 4 |}.

(** The [switch] of [get_family_map], case by case. *)
Definition get_family_map (version : Z) : pm_family_map_t :=
  if version =? 0x380804 then VERMEER_380804
  else if version =? 0x380805 then VERMEER_380805
  else if version =? 0x380904 then VERMEER_380904
  else if version =? 0x380905 then VERMEER_380905
  else if version =? 0x400005 then CEZANNE_400005
  else if version =? 0x240903 then MATISSE_240903
  else if version =? 0x240803 then MATISSE_240803
  else if version =? 0x370003 then RENOIR_370003
  else if version =? 0x370005 then RENOIR_370005
  else if version =? 0x1E0004 then RAVEN_1E0004
  else GRANITE_RIDGE.

(** *** The decoder *)

Definition safe_get (t : list float) (count idx : Z) : float :=
  if (0 <=? idx) && (idx <? count) then load t idx else zero.

(** One iteration of the loop of [apply_named]. *)
Definition apply_entry (t : list float) (count : Z) (e : pm_entry_t)
           (m : smu_metrics_t) : smu_metrics_t :=
  let v := safe_get t count (index e) in
  match field_offset e with
  | F_FCLK => set_fclk_mhz v m
  | F_UCLK => set_uclk_mhz v m
  | F_MCLK => set_mclk_mhz v m
  | F_VSOC => set_vsoc v m
  | F_VDDP => set_vddp v m
  | F_VDDG_IOD => set_vddg_iod v m
  | F_VDDG_CCD => set_vddg_ccd v m
  | F_VDD_MISC => set_vdd_misc v m
  | F_VCORE => set_vcore v m
  | F_IOD_HOTSPOT =>
      if ge v c1 && le v c150
      then set_has_iod_hotspot true (set_iod_hotspot_c v m)
      else m
  end.

Fixpoint apply_named_from (k : nat) (i : Z) (map : pm_family_map_t)
         (t : list float) (count : Z) (m : smu_metrics_t) : smu_metrics_t :=
  match k with
  | O => m
  | S k' =>
      apply_named_from k' (i + 1) map t count
        (apply_entry t count (nth (Z.to_nat i) (named map) named_pad) m)
  end.

Definition apply_named (map : pm_family_map_t) (t : list float) (count : Z)
           (m : smu_metrics_t) : smu_metrics_t :=
  apply_named_from (Z.to_nat (named_count map)) 0 map t count m.

Definition read_granite_ridge_offsets (t : list float) (count : Z)
           (m : smu_metrics_t) : smu_metrics_t :=
  let m := set_fclk_mhz (safe_get t count (0x11C / 4)) m in
  let m := set_uclk_mhz (safe_get t count (0x12C / 4)) m in
  let m := set_mclk_mhz (safe_get t count (0x13C / 4)) m in
  let m := set_vsoc (safe_get t count (0x14C / 4)) m in
  let m := set_vddp (safe_get t count (0x434 / 4)) m in
  let m := set_vddg_iod (safe_get t count (0x40C / 4)) m in
  let m := set_vddg_ccd (safe_get t count (0x414 / 4)) m in
  let m := set_vdd_misc (safe_get t count (0xE8 / 4)) m in
  set_vcore (safe_get t count (0x43C / 4)) m.

(** The loop shared by [try_plausible_power], [try_plausible_current] and
    [try_plausible_temp]: the first candidate within [lo, hi], else 0. *)
Fixpoint try_plausible (lo hi : float) (t : list float) (count : Z)
         (candidates : list Z) : float :=
  match candidates with
  | [] => zero
  | c :: rest =>
      let v := safe_get t count c in
      if ge v lo && le v hi then v
      else try_plausible lo hi t count rest
  end.

Definition try_plausible_power (t : list float) (count : Z) : float :=
  try_plausible c0_5 c400 t count [29; 1; 13; 38; 5; 220; 187; 42; 0].

Definition try_plausible_current (t : list float) (count : Z) : float :=
  try_plausible c0_5 c200 t count [41; 46; 3; 10; 11; 4].

Definition try_plausible_temp (t : list float) (count : Z) : float :=
  try_plausible c1 c150 t count [1; 448; 449].

(** *** [read_known_indices], block by block *)

(** The PPT loop: the first plausible candidate is stored and the loop is
    left. *)
Fixpoint ppt_scan (t : list float) (count : Z) (cands : list Z)
         (m : smu_metrics_t) : smu_metrics_t :=
  match cands with
  | [] => m
  | c :: rest =>
      let v := safe_get t count c in
      if ge v c0_5 && le v c400 then set_ppt_w v m
      else ppt_scan t count rest m
  end.

(* PPT: try several candidates *)
Definition known_ppt (t : list float) (count : Z) (m : smu_metrics_t)
  : smu_metrics_t :=
  ppt_scan t count [3; 1; 13; 29; 5; 38] m.

(* Core temps (indices 317-324) *)
Definition known_core_temps (t : list float) (count : Z) (m : smu_metrics_t)
  : option smu_metrics_t :=
  if 324 <? count then
    let m := set_core_temps_count 8 m in
    a <- copy_cores 8 t 317 (core_temps_c m) ;;
    Some (set_core_temps_c a m)
  else Some m.

(* Tdie (indices 448-449) *)
Definition read_tdie (t : list float) (count : Z) (m : smu_metrics_t)
  : smu_metrics_t :=
  if 449 <? count then
    let a := load t 448 in
    let b := load t 449 in
    if ge a c1 && le a c150 then set_has_tdie true (set_tdie_c a m)
    else if ge b c1 && le b c150 then set_has_tdie true (set_tdie_c b m)
    else if gt a zero && gt b zero
         then set_has_tdie true (set_tdie_c (mul (add a b) c0_5) m)
         else m
  else m.

(* Core clocks GHz (indices 325-340) *)
Definition known_core_clocks (t : list float) (count : Z) (m : smu_metrics_t)
  : option smu_metrics_t :=
  if 340 <? count then
    let m := set_core_clocks_count 16 m in
    a <- copy_cores 16 t 325 (core_clocks_ghz m) ;;
    Some (set_core_clocks_ghz a m)
  else Some m.

(* VID (index 275) *)
Definition known_vid (t : list float) (count : Z) (m : smu_metrics_t)
  : smu_metrics_t :=
  if 275 <? count then set_vid (load t 275) m else m.

(* Core voltages (indices 309-316) *)
Definition known_core_voltages (t : list float) (count : Z)
           (m : smu_metrics_t) : option smu_metrics_t :=
  if 316 <? count then
    let m := set_core_voltages_count 8 m in
    a <- copy_cores 8 t 309 (core_voltages m) ;;
    Some (set_core_voltages a m)
  else Some m.

(* IOD hotspot (index 11) *)
Definition known_iod_hotspot (t : list float) (count : Z)
           (m : smu_metrics_t) : smu_metrics_t :=
  if 11 <? count then
    let v := load t 11 in
    if ge v c1 && le v c150
    then set_has_iod_hotspot true (set_iod_hotspot_c v m)
    else m
  else m.

Definition read_known_indices (t : list float) (count : Z)
           (m : smu_metrics_t) : option smu_metrics_t :=
  let m := known_ppt t count m in
  m <- known_core_temps t count m ;;
  let m := read_tdie t count m in
  m <- known_core_clocks t count m ;;
  let m := known_vid t count m in
  m <- known_core_voltages t count m ;;
  Some (known_iod_hotspot t count m).

(** *** [pm_table_read] *)

(** The loop [for (i = 0; i < n; i++) if (a[i] > max) max = a[i];]. *)
Fixpoint max_from (k : nat) (i : Z) (a : list float) (max_ghz : float)
  : float :=
  match k with
  | O => max_ghz
  | S k' =>
      max_from k' (i + 1) a
        (if gt (load a i) max_ghz then load a i else max_ghz)
  end.

Definition max_core_clock (m : smu_metrics_t) : float :=
  max_from (Z.to_nat (core_clocks_count m)) 0 (core_clocks_ghz m) zero.

(* Core clock: use max from per-core clocks if available *)
Definition derive_core_clock (out : smu_metrics_t) : smu_metrics_t :=
  if 0 <? core_clocks_count out then
    let max_ghz := max_core_clock out in
    if ge max_ghz c0_5 && le max_ghz c6_5
    then set_core_clock_mhz (mul max_ghz c1000) out
    else out
  else out.

Definition derive_cpu_temp (table : list float) (count : Z)
           (out : smu_metrics_t) : smu_metrics_t :=
  if has_tdie out && gt (tdie_c out) zero
  then set_cpu_temp_c (tdie_c out) out
  else set_cpu_temp_c (try_plausible_temp table count) out.

(** The branch [codename_index == 23]. *)
Definition pm_table_granite (table : list float) (count : Z)
           (out : smu_metrics_t) : option smu_metrics_t :=
  let out := read_granite_ridge_offsets table count out in
  out <- read_known_indices table count out ;;
  let out := set_package_power_w (try_plausible_power table count) out in
  let out := set_package_current_a (try_plausible_current table count) out in
  let out := derive_core_clock out in
  Some (derive_cpu_temp table count out).

(** [int nc = map->max_cores; if (nc > MAX_CORES) nc = MAX_CORES;] *)
Definition clamp_cores (map : pm_family_map_t) : Z :=
  if MAX_CORES <? max_cores map then MAX_CORES else max_cores map.

(* Per-family core temps and voltages *)
Definition family_core_temps (map : pm_family_map_t) (table : list float)
           (count : Z) (out : smu_metrics_t) : option smu_metrics_t :=
  let nc := clamp_cores map in
  if core_temp_start map + nc <=? count then
    let out := set_core_temps_count nc out in
    a <- copy_cores nc table (core_temp_start map) (core_temps_c out) ;;
    Some (set_core_temps_c a out)
  else Some out.

Definition family_core_voltages (map : pm_family_map_t) (table : list float)
           (count : Z) (out : smu_metrics_t) : option smu_metrics_t :=
  let nc := clamp_cores map in
  if core_voltage_start map + nc <=? count then
    let out := set_core_voltages_count nc out in
    a <- copy_cores nc table (core_voltage_start map) (core_voltages out) ;;
    Some (set_core_voltages a out)
  else Some out.

(** The scalar fields of the generic branch: VID, PPT, package power and
    current, CPU temperature. *)
Definition family_scalars (map : pm_family_map_t) (table : list float)
           (count : Z) (out : smu_metrics_t) : smu_metrics_t :=
  let v := safe_get table count (vid_idx map) in
  let out := if gt v zero then set_vid v out else out in
  let ppt_v := safe_get table count (ppt_idx map) in
  let out := if ge ppt_v c0_5 && le ppt_v c400
             then set_ppt_w ppt_v out else out in
  let sp := safe_get table count (socket_power_idx map) in
  let out := if ge sp c0_5 && le sp c400
             then set_package_power_w sp out
             else set_package_power_w (try_plausible_power table count) out in
  let out := set_package_current_a (try_plausible_current table count) out in
  set_cpu_temp_c (try_plausible_temp table count) out.

(** The family-map pass of the [else] branch, for the family map [map]
    (the source binds [map] to [get_family_map(version)]). *)
Definition family_pass (map : pm_family_map_t) (table : list float)
           (count : Z) (out : smu_metrics_t) : option smu_metrics_t :=
  let out := apply_named map table count out in
  out <- family_core_temps map table count out ;;
  out <- family_core_voltages map table count out ;;
  Some (family_scalars map table count out).

(** The [else] branch: the family-map pass, then
    [read_known_indices(table, count, out)]. *)
Definition pm_table_generic (map : pm_family_map_t) (table : list float)
           (count : Z) (out : smu_metrics_t) : option smu_metrics_t :=
  out <- family_pass map table count out ;;
  (* IOD hotspot from known indices *)
  read_known_indices table count out.

(** [pm_table_read]: [table] is [None] for the null pointer; [out] is the
    record the caller passes, whose contents the first statement clears. *)
Definition pm_table_read (version : Z) (table : option (list float))
           (count : Z) (codename_index : Z) (out : smu_metrics_t)
  : option smu_metrics_t :=
  let out := smu_zero in
  match table with
  | None => Some out
  | Some t =>
      if count <? 4 then Some out
      else if codename_index =? 23 then pm_table_granite t count out
      else pm_table_generic (get_family_map version) t count out
  end.

End PmTable.

(** ** [dram.c] *)

Module Dram.
Import Util F32 Mem.

(** [dram_timings_t], field by field in the order of [types.h]. *)
Record dram_timings_t : Type := Build_dram_timings {
  tcl : Z;
  trcd_rd : Z;
  trcd_wr : Z;
  trp : Z;
  tras : Z;
  trc : Z;
  trrds : Z;
  trrdl : Z;
  tfaw : Z;
  twr : Z;
  tcwl : Z;
  rtp : Z;
  wtrs : Z;
  wtrl : Z;
  rdwr : Z;
  wrrd : Z;
  rdrd_scl : Z;
  wrwr_scl : Z;
  rdrd_sc : Z;
  rdrd_sd : Z;
  rdrd_dd : Z;
  wrwr_sc : Z;
  wrwr_sd : Z;
  wrwr_dd : Z;
  refi : Z;
  wrpre : Z;
  rdpre : Z;
  trc_page : Z;
  mod_ : Z;  (* [mod] in the source *)
  mod_pda : Z;
  mrd : Z;
  mrd_pda : Z;
  stag : Z;
  stag_sb : Z;
  cke : Z;
  xp : Z;
  phy_wrd : Z;
  phy_wrl : Z;
  phy_rdl : Z;
  phy_rdl_per_channel : list Z;  (* uint32_t [MAX_MODULES] *)
  phy_rdl_channel_count : Z;
  rfc : Z;
  rfc2 : Z;
  rfcsb : Z;
  trefi_ns : float;
  trfc_ns : float;
  trfc2_ns : float;
  trfcsb_ns : float;
  gdm_enabled : bool;
  power_down_enabled : bool;
  cmd2t : list byte;  (* char [4] *)
  frequency_hint_mhz : float
}.

Definition set_rfc (v : Z) (d : dram_timings_t) : dram_timings_t :=
  {| tcl := tcl d; trcd_rd := trcd_rd d; trcd_wr := trcd_wr d; trp := trp d;
     tras := tras d; trc := trc d; trrds := trrds d; trrdl := trrdl d;
     tfaw := tfaw d; twr := twr d; tcwl := tcwl d; rtp := rtp d;
     wtrs := wtrs d; wtrl := wtrl d; rdwr := rdwr d; wrrd := wrrd d;
     rdrd_scl := rdrd_scl d; wrwr_scl := wrwr_scl d; rdrd_sc := rdrd_sc d;
     rdrd_sd := rdrd_sd d; rdrd_dd := rdrd_dd d; wrwr_sc := wrwr_sc d;
     wrwr_sd := wrwr_sd d; wrwr_dd := wrwr_dd d; refi := refi d;
     wrpre := wrpre d; rdpre := rdpre d; trc_page := trc_page d;
     mod_ := mod_ d; mod_pda := mod_pda d; mrd := mrd d;
     mrd_pda := mrd_pda d; stag := stag d; stag_sb := stag_sb d;
     cke := cke d; xp := xp d; phy_wrd := phy_wrd d; phy_wrl := phy_wrl d;
     phy_rdl := phy_rdl d; phy_rdl_per_channel := phy_rdl_per_channel d;
     phy_rdl_channel_count := phy_rdl_channel_count d; rfc := v;
     rfc2 := rfc2 d; rfcsb := rfcsb d; trefi_ns := trefi_ns d;
     trfc_ns := trfc_ns d; trfc2_ns := trfc2_ns d; trfcsb_ns := trfcsb_ns d;
     gdm_enabled := gdm_enabled d;
     power_down_enabled := power_down_enabled d; cmd2t := cmd2t d;
     frequency_hint_mhz := frequency_hint_mhz d |}.

Definition set_rfc2 (v : Z) (d : dram_timings_t) : dram_timings_t :=
  {| tcl := tcl d; trcd_rd := trcd_rd d; trcd_wr := trcd_wr d; trp := trp d;
     tras := tras d; trc := trc d; trrds := trrds d; trrdl := trrdl d;
     tfaw := tfaw d; twr := twr d; tcwl := tcwl d; rtp := rtp d;
     wtrs := wtrs d; wtrl := wtrl d; rdwr := rdwr d; wrrd := wrrd d;
     rdrd_scl := rdrd_scl d; wrwr_scl := wrwr_scl d; rdrd_sc := rdrd_sc d;
     rdrd_sd := rdrd_sd d; rdrd_dd := rdrd_dd d; wrwr_sc := wrwr_sc d;
     wrwr_sd := wrwr_sd d; wrwr_dd := wrwr_dd d; refi := refi d;
     wrpre := wrpre d; rdpre := rdpre d; trc_page := trc_page d;
     mod_ := mod_ d; mod_pda := mod_pda d; mrd := mrd d;
     mrd_pda := mrd_pda d; stag := stag d; stag_sb := stag_sb d;
     cke := cke d; xp := xp d; phy_wrd := phy_wrd d; phy_wrl := phy_wrl d;
     phy_rdl := phy_rdl d; phy_rdl_per_channel := phy_rdl_per_channel d;
     phy_rdl_channel_count := phy_rdl_channel_count d; rfc := rfc d;
     rfc2 := v; rfcsb := rfcsb d; trefi_ns := trefi_ns d;
     trfc_ns := trfc_ns d; trfc2_ns := trfc2_ns d; trfcsb_ns := trfcsb_ns d;
     gdm_enabled := gdm_enabled d;
     power_down_enabled := power_down_enabled d; cmd2t := cmd2t d;
     frequency_hint_mhz := frequency_hint_mhz d |}.

Definition set_rfcsb (v : Z) (d : dram_timings_t) : dram_timings_t :=
  {| tcl := tcl d; trcd_rd := trcd_rd d; trcd_wr := trcd_wr d; trp := trp d;
     tras := tras d; trc := trc d; trrds := trrds d; trrdl := trrdl d;
     tfaw := tfaw d; twr := twr d; tcwl := tcwl d; rtp := rtp d;
     wtrs := wtrs d; wtrl := wtrl d; rdwr := rdwr d; wrrd := wrrd d;
     rdrd_scl := rdrd_scl d; wrwr_scl := wrwr_scl d; rdrd_sc := rdrd_sc d;
     rdrd_sd := rdrd_sd d; rdrd_dd := rdrd_dd d; wrwr_sc := wrwr_sc d;
     wrwr_sd := wrwr_sd d; wrwr_dd := wrwr_dd d; refi := refi d;
     wrpre := wrpre d; rdpre := rdpre d; trc_page := trc_page d;
     mod_ := mod_ d; mod_pda := mod_pda d; mrd := mrd d;
     mrd_pda := mrd_pda d; stag := stag d; stag_sb := stag_sb d;
     cke := cke d; xp := xp d; phy_wrd := phy_wrd d; phy_wrl := phy_wrl d;
     phy_rdl := phy_rdl d; phy_rdl_per_channel := phy_rdl_per_channel d;
     phy_rdl_channel_count := phy_rdl_channel_count d; rfc := rfc d;
     rfc2 := rfc2 d; rfcsb := v; trefi_ns := trefi_ns d;
     trfc_ns := trfc_ns d; trfc2_ns := trfc2_ns d; trfcsb_ns := trfcsb_ns d;
     gdm_enabled := gdm_enabled d;
     power_down_enabled := power_down_enabled d; cmd2t := cmd2t d;
     frequency_hint_mhz := frequency_hint_mhz d |}.

Definition set_trefi_ns (v : float) (d : dram_timings_t) : dram_timings_t :=
  {| tcl := tcl d; trcd_rd := trcd_rd d; trcd_wr := trcd_wr d; trp := trp d;
     tras := tras d; trc := trc d; trrds := trrds d; trrdl := trrdl d;
     tfaw := tfaw d; twr := twr d; tcwl := tcwl d; rtp := rtp d;
     wtrs := wtrs d; wtrl := wtrl d; rdwr := rdwr d; wrrd := wrrd d;
     rdrd_scl := rdrd_scl d; wrwr_scl := wrwr_scl d; rdrd_sc := rdrd_sc d;
     rdrd_sd := rdrd_sd d; rdrd_dd := rdrd_dd d; wrwr_sc := wrwr_sc d;
     wrwr_sd := wrwr_sd d; wrwr_dd := wrwr_dd d; refi := refi d;
     wrpre := wrpre d; rdpre := rdpre d; trc_page := trc_page d;
     mod_ := mod_ d; mod_pda := mod_pda d; mrd := mrd d;
     mrd_pda := mrd_pda d; stag := stag d; stag_sb := stag_sb d;
     cke := cke d; xp := xp d; phy_wrd := phy_wrd d; phy_wrl := phy_wrl d;
     phy_rdl := phy_rdl d; phy_rdl_per_channel := phy_rdl_per_channel d;
     phy_rdl_channel_count := phy_rdl_channel_count d; rfc := rfc d;
     rfc2 := rfc2 d; rfcsb := rfcsb d; trefi_ns := v; trfc_ns := trfc_ns d;
     trfc2_ns := trfc2_ns d; trfcsb_ns := trfcsb_ns d;
     gdm_enabled := gdm_enabled d;
     power_down_enabled := power_down_enabled d; cmd2t := cmd2t d;
     frequency_hint_mhz := frequency_hint_mhz d |}.

Definition set_trfc_ns (v : float) (d : dram_timings_t) : dram_timings_t :=
  {| tcl := tcl d; trcd_rd := trcd_rd d; trcd_wr := trcd_wr d; trp := trp d;
     tras := tras d; trc := trc d; trrds := trrds d; trrdl := trrdl d;
     tfaw := tfaw d; twr := twr d; tcwl := tcwl d; rtp := rtp d;
     wtrs := wtrs d; wtrl := wtrl d; rdwr := rdwr d; wrrd := wrrd d;
     rdrd_scl := rdrd_scl d; wrwr_scl := wrwr_scl d; rdrd_sc := rdrd_sc d;
     rdrd_sd := rdrd_sd d; rdrd_dd := rdrd_dd d; wrwr_sc := wrwr_sc d;
     wrwr_sd := wrwr_sd d; wrwr_dd := wrwr_dd d; refi := refi d;
     wrpre := wrpre d; rdpre := rdpre d; trc_page := trc_page d;
     mod_ := mod_ d; mod_pda := mod_pda d; mrd := mrd d;
     mrd_pda := mrd_pda d; stag := stag d; stag_sb := stag_sb d;
     cke := cke d; xp := xp d; phy_wrd := phy_wrd d; phy_wrl := phy_wrl d;
     phy_rdl := phy_rdl d; phy_rdl_per_channel := phy_rdl_per_channel d;
     phy_rdl_channel_count := phy_rdl_channel_count d; rfc := rfc d;
     rfc2 := rfc2 d; rfcsb := rfcsb d; trefi_ns := trefi_ns d; trfc_ns := v;
     trfc2_ns := trfc2_ns d; trfcsb_ns := trfcsb_ns d;
     gdm_enabled := gdm_enabled d;
     power_down_enabled := power_down_enabled d; cmd2t := cmd2t d;
     frequency_hint_mhz := frequency_hint_mhz d |}.

Definition set_trfc2_ns (v : float) (d : dram_timings_t) : dram_timings_t :=
  {| tcl := tcl d; trcd_rd := trcd_rd d; trcd_wr := trcd_wr d; trp := trp d;
     tras := tras d; trc := trc d; trrds := trrds d; trrdl := trrdl d;
     tfaw := tfaw d; twr := twr d; tcwl := tcwl d; rtp := rtp d;
     wtrs := wtrs d; wtrl := wtrl d; rdwr := rdwr d; wrrd := wrrd d;
     rdrd_scl := rdrd_scl d; wrwr_scl := wrwr_scl d; rdrd_sc := rdrd_sc d;
     rdrd_sd := rdrd_sd d; rdrd_dd := rdrd_dd d; wrwr_sc := wrwr_sc d;
     wrwr_sd := wrwr_sd d; wrwr_dd := wrwr_dd d; refi := refi d;
     wrpre := wrpre d; rdpre := rdpre d; trc_page := trc_page d;
     mod_ := mod_ d; mod_pda := mod_pda d; mrd := mrd d;
     mrd_pda := mrd_pda d; stag := stag d; stag_sb := stag_sb d;
     cke := cke d; xp := xp d; phy_wrd := phy_wrd d; phy_wrl := phy_wrl d;
     phy_rdl := phy_rdl d; phy_rdl_per_channel := phy_rdl_per_channel d;
     phy_rdl_channel_count := phy_rdl_channel_count d; rfc := rfc d;
     rfc2 := rfc2 d; rfcsb := rfcsb d; trefi_ns := trefi_ns d;
     trfc_ns := trfc_ns d; trfc2_ns := v; trfcsb_ns := trfcsb_ns d;
     gdm_enabled := gdm_enabled d;
     power_down_enabled := power_down_enabled d; cmd2t := cmd2t d;
     frequency_hint_mhz := frequency_hint_mhz d |}.

Definition set_trfcsb_ns (v : float) (d : dram_timings_t) : dram_timings_t :=
  {| tcl := tcl d; trcd_rd := trcd_rd d; trcd_wr := trcd_wr d; trp := trp d;
     tras := tras d; trc := trc d; trrds := trrds d; trrdl := trrdl d;
     tfaw := tfaw d; twr := twr d; tcwl := tcwl d; rtp := rtp d;
     wtrs := wtrs d; wtrl := wtrl d; rdwr := rdwr d; wrrd := wrrd d;
     rdrd_scl := rdrd_scl d; wrwr_scl := wrwr_scl d; rdrd_sc := rdrd_sc d;
     rdrd_sd := rdrd_sd d; rdrd_dd := rdrd_dd d; wrwr_sc := wrwr_sc d;
     wrwr_sd := wrwr_sd d; wrwr_dd := wrwr_dd d; refi := refi d;
     wrpre := wrpre d; rdpre := rdpre d; trc_page := trc_page d;
     mod_ := mod_ d; mod_pda := mod_pda d; mrd := mrd d;
     mrd_pda := mrd_pda d; stag := stag d; stag_sb := stag_sb d;
     cke := cke d; xp := xp d; phy_wrd := phy_wrd d; phy_wrl := phy_wrl d;
     phy_rdl := phy_rdl d; phy_rdl_per_channel := phy_rdl_per_channel d;
     phy_rdl_channel_count := phy_rdl_channel_count d; rfc := rfc d;
     rfc2 := rfc2 d; rfcsb := rfcsb d; trefi_ns := trefi_ns d;
     trfc_ns := trfc_ns d; trfc2_ns := trfc2_ns d; trfcsb_ns := v;
     gdm_enabled := gdm_enabled d;
     power_down_enabled := power_down_enabled d; cmd2t := cmd2t d;
     frequency_hint_mhz := frequency_hint_mhz d |}.

Definition set_gdm_enabled (v : bool) (d : dram_timings_t) : dram_timings_t :=
  {| tcl := tcl d; trcd_rd := trcd_rd d; trcd_wr := trcd_wr d; trp := trp d;
     tras := tras d; trc := trc d; trrds := trrds d; trrdl := trrdl d;
     tfaw := tfaw d; twr := twr d; tcwl := tcwl d; rtp := rtp d;
     wtrs := wtrs d; wtrl := wtrl d; rdwr := rdwr d; wrrd := wrrd d;
     rdrd_scl := rdrd_scl d; wrwr_scl := wrwr_scl d; rdrd_sc := rdrd_sc d;
     rdrd_sd := rdrd_sd d; rdrd_dd := rdrd_dd d; wrwr_sc := wrwr_sc d;
     wrwr_sd := wrwr_sd d; wrwr_dd := wrwr_dd d; refi := refi d;
     wrpre := wrpre d; rdpre := rdpre d; trc_page := trc_page d;
     mod_ := mod_ d; mod_pda := mod_pda d; mrd := mrd d;
     mrd_pda := mrd_pda d; stag := stag d; stag_sb := stag_sb d;
     cke := cke d; xp := xp d; phy_wrd := phy_wrd d; phy_wrl := phy_wrl d;
     phy_rdl := phy_rdl d; phy_rdl_per_channel := phy_rdl_per_channel d;
     phy_rdl_channel_count := phy_rdl_channel_count d; rfc := rfc d;
     rfc2 := rfc2 d; rfcsb := rfcsb d; trefi_ns := trefi_ns d;
     trfc_ns := trfc_ns d; trfc2_ns := trfc2_ns d; trfcsb_ns := trfcsb_ns d;
     gdm_enabled := v; power_down_enabled := power_down_enabled d;
     cmd2t := cmd2t d; frequency_hint_mhz := frequency_hint_mhz d |}.

Definition set_power_down_enabled (v : bool) (d : dram_timings_t) : dram_timings_t :=
  {| tcl := tcl d; trcd_rd := trcd_rd d; trcd_wr := trcd_wr d; trp := trp d;
     tras := tras d; trc := trc d; trrds := trrds d; trrdl := trrdl d;
     tfaw := tfaw d; twr := twr d; tcwl := tcwl d; rtp := rtp d;
     wtrs := wtrs d; wtrl := wtrl d; rdwr := rdwr d; wrrd := wrrd d;
     rdrd_scl := rdrd_scl d; wrwr_scl := wrwr_scl d; rdrd_sc := rdrd_sc d;
     rdrd_sd := rdrd_sd d; rdrd_dd := rdrd_dd d; wrwr_sc := wrwr_sc d;
     wrwr_sd := wrwr_sd d; wrwr_dd := wrwr_dd d; refi := refi d;
     wrpre := wrpre d; rdpre := rdpre d; trc_page := trc_page d;
     mod_ := mod_ d; mod_pda := mod_pda d; mrd := mrd d;
     mrd_pda := mrd_pda d; stag := stag d; stag_sb := stag_sb d;
     cke := cke d; xp := xp d; phy_wrd := phy_wrd d; phy_wrl := phy_wrl d;
     phy_rdl := phy_rdl d; phy_rdl_per_channel := phy_rdl_per_channel d;
     phy_rdl_channel_count := phy_rdl_channel_count d; rfc := rfc d;
     rfc2 := rfc2 d; rfcsb := rfcsb d; trefi_ns := trefi_ns d;
     trfc_ns := trfc_ns d; trfc2_ns := trfc2_ns d; trfcsb_ns := trfcsb_ns d;
     gdm_enabled := gdm_enabled d; power_down_enabled := v; cmd2t := cmd2t d;
     frequency_hint_mhz := frequency_hint_mhz d |}.

Definition set_cmd2t (v : list byte) (d : dram_timings_t) : dram_timings_t :=
  {| tcl := tcl d; trcd_rd := trcd_rd d; trcd_wr := trcd_wr d; trp := trp d;
     tras := tras d; trc := trc d; trrds := trrds d; trrdl := trrdl d;
     tfaw := tfaw d; twr := twr d; tcwl := tcwl d; rtp := rtp d;
     wtrs := wtrs d; wtrl := wtrl d; rdwr := rdwr d; wrrd := wrrd d;
     rdrd_scl := rdrd_scl d; wrwr_scl := wrwr_scl d; rdrd_sc := rdrd_sc d;
     rdrd_sd := rdrd_sd d; rdrd_dd := rdrd_dd d; wrwr_sc := wrwr_sc d;
     wrwr_sd := wrwr_sd d; wrwr_dd := wrwr_dd d; refi := refi d;
     wrpre := wrpre d; rdpre := rdpre d; trc_page := trc_page d;
     mod_ := mod_ d; mod_pda := mod_pda d; mrd := mrd d;
     mrd_pda := mrd_pda d; stag := stag d; stag_sb := stag_sb d;
     cke := cke d; xp := xp d; phy_wrd := phy_wrd d; phy_wrl := phy_wrl d;
     phy_rdl := phy_rdl d; phy_rdl_per_channel := phy_rdl_per_channel d;
     phy_rdl_channel_count := phy_rdl_channel_count d; rfc := rfc d;
     rfc2 := rfc2 d; rfcsb := rfcsb d; trefi_ns := trefi_ns d;
     trfc_ns := trfc_ns d; trfc2_ns := trfc2_ns d; trfcsb_ns := trfcsb_ns d;
     gdm_enabled := gdm_enabled d;
     power_down_enabled := power_down_enabled d; cmd2t := v;
     frequency_hint_mhz := frequency_hint_mhz d |}.

Definition set_frequency_hint_mhz (v : float) (d : dram_timings_t) : dram_timings_t :=
  {| tcl := tcl d; trcd_rd := trcd_rd d; trcd_wr := trcd_wr d; trp := trp d;
     tras := tras d; trc := trc d; trrds := trrds d; trrdl := trrdl d;
     tfaw := tfaw d; twr := twr d; tcwl := tcwl d; rtp := rtp d;
     wtrs := wtrs d; wtrl := wtrl d; rdwr := rdwr d; wrrd := wrrd d;
     rdrd_scl := rdrd_scl d; wrwr_scl := wrwr_scl d; rdrd_sc := rdrd_sc d;
     rdrd_sd := rdrd_sd d; rdrd_dd := rdrd_dd d; wrwr_sc := wrwr_sc d;
     wrwr_sd := wrwr_sd d; wrwr_dd := wrwr_dd d; refi := refi d;
     wrpre := wrpre d; rdpre := rdpre d; trc_page := trc_page d;
     mod_ := mod_ d; mod_pda := mod_pda d; mrd := mrd d;
     mrd_pda := mrd_pda d; stag := stag d; stag_sb := stag_sb d;
     cke := cke d; xp := xp d; phy_wrd := phy_wrd d; phy_wrl := phy_wrl d;
     phy_rdl := phy_rdl d; phy_rdl_per_channel := phy_rdl_per_channel d;
     phy_rdl_channel_count := phy_rdl_channel_count d; rfc := rfc d;
     rfc2 := rfc2 d; rfcsb := rfcsb d; trefi_ns := trefi_ns d;
     trfc_ns := trfc_ns d; trfc2_ns := trfc2_ns d; trfcsb_ns := trfcsb_ns d;
     gdm_enabled := gdm_enabled d;
     power_down_enabled := power_down_enabled d; cmd2t := cmd2t d;
     frequency_hint_mhz := v |}.

(** The record after [memset (out, 0, sizeof *out)]. *)
Definition dram_zero : dram_timings_t :=
  {| tcl := 0; trcd_rd := 0; trcd_wr := 0; trp := 0; tras := 0; trc := 0;
     trrds := 0; trrdl := 0; tfaw := 0; twr := 0; tcwl := 0;
     rtp := 0; wtrs := 0; wtrl := 0; rdwr := 0; wrrd := 0;
     rdrd_scl := 0; wrwr_scl := 0;
     rdrd_sc := 0; rdrd_sd := 0; rdrd_dd := 0;
     wrwr_sc := 0; wrwr_sd := 0; wrwr_dd := 0;
     refi := 0; wrpre := 0; rdpre := 0;
     trc_page := 0; mod_ := 0; mod_pda := 0; mrd := 0; mrd_pda := 0;
     stag := 0; stag_sb := 0; cke := 0; xp := 0;
     phy_wrd := 0; phy_wrl := 0; phy_rdl := 0;
     phy_rdl_per_channel := [0; 0; 0; 0]; phy_rdl_channel_count := 0;
     rfc := 0; rfc2 := 0; rfcsb := 0;
     trefi_ns := zero; trfc_ns := zero; trfc2_ns := zero; trfcsb_ns := zero;
     gdm_enabled := false; power_down_enabled := false;
     cmd2t := [x00; x00; x00; x00];
     frequency_hint_mhz := zero |}.

(** The C string held by a [char] array: the bytes before the first NUL. *)
Fixpoint c_string (buf : list byte) : list byte :=
  match buf with
  | [] => []
  | b :: r => if Byte.eqb b x00 then [] else b :: c_string r
  end.

(** [snprintf (buf, sizeof buf, "%s", s)]: at most [sizeof buf - 1] bytes
    of [s], then a NUL; the bytes after the NUL keep their value. *)
Definition snprintf_s (buf s : list byte) : list byte :=
  match buf with
  | [] => []
  | _ :: _ =>
      let body := firstn (length buf - 1) s in
      body ++ x00 :: skipn (length body + 1) buf
  end.

(** [static float to_nanoseconds(uint32_t cycles, float freq_mhz)]. *)
Definition to_nanoseconds (cycles : Z) (freq_mhz : float) : float :=
  if le freq_mhz zero then zero
  else
    let ns := div (mul (of_Z cycles) c2000) freq_mhz in
    if gt ns (of_Z cycles) then div ns c2 else ns.

Section Registers.

(** [read_smn]: the value of the SMN register at an address.  Every
    address is read once in a call of [dram_read_timings]. *)
Variable read_smn : Z -> Z.

(** [read_common_timings]: the assignments go to distinct fields, except
    for the two fall-backs, which read a field assigned just before. *)
Definition read_common_timings (offset : Z) (d : dram_timings_t)
  : dram_timings_t :=
  let reg50204 := read_smn (Z.lor offset 0x50204) in
  let reg50208 := read_smn (Z.lor offset 0x50208) in
  let reg5020C := read_smn (Z.lor offset 0x5020C) in
  let reg50210 := read_smn (Z.lor offset 0x50210) in
  let reg50214 := read_smn (Z.lor offset 0x50214) in
  let reg50218 := read_smn (Z.lor offset 0x50218) in
  let reg5021C := read_smn (Z.lor offset 0x5021C) in
  let reg50220 := read_smn (Z.lor offset 0x50220) in
  let reg50224 := read_smn (Z.lor offset 0x50224) in
  let reg50228 := read_smn (Z.lor offset 0x50228) in
  let reg50230 := read_smn (Z.lor offset 0x50230) in
  let reg50234 := read_smn (Z.lor offset 0x50234) in
  let reg50250 := read_smn (Z.lor offset 0x50250) in
  let reg50254 := read_smn (Z.lor offset 0x50254) in
  let reg50258 := read_smn (Z.lor offset 0x50258) in
  let reg502A4 := read_smn (Z.lor offset 0x502A4) in
  let trcd_rd' := bit_slice reg50204 21 16 in
  let trcd_wr' := bit_slice reg50204 29 24 in
  let wtrs' := bit_slice reg50214 12 8 in
  let twr' := bit_slice reg50218 7 0 in
  {| tcl := bit_slice reg50204 5 0;
     trcd_rd := trcd_rd';
     trcd_wr := if trcd_wr' =? 0 then trcd_rd' else trcd_wr';
     tras := bit_slice reg50204 14 8;
     trp := bit_slice reg50208 21 16;
     trc := bit_slice reg50208 7 0;
     trrds := bit_slice reg5020C 4 0;
     trrdl := bit_slice reg5020C 12 8;
     tfaw := bit_slice reg50210 7 0;
     rtp := bit_slice reg5020C 28 24;
     wtrs := wtrs';
     wtrl := bit_slice reg50214 22 16;
     tcwl := bit_slice reg50214 5 0;
     twr := if twr' =? 0 then wtrs' else twr';
     trc_page := bit_slice reg5021C 31 20;
     rdrd_scl := bit_slice reg50220 29 24;
     rdrd_sc := bit_slice reg50220 19 16;
     rdrd_sd := bit_slice reg50220 11 8;
     rdrd_dd := bit_slice reg50220 3 0;
     wrwr_scl := bit_slice reg50224 29 24;
     wrwr_sc := bit_slice reg50224 19 16;
     wrwr_sd := bit_slice reg50224 11 8;
     wrwr_dd := bit_slice reg50224 3 0;
     rdwr := bit_slice reg50228 13 8;
     wrrd := bit_slice reg50228 3 0;
     refi := bit_slice reg50230 15 0;
     mod_pda := bit_slice reg50234 29 24;
     mrd_pda := bit_slice reg50234 21 16;
     mod_ := bit_slice reg50234 13 8;
     mrd := bit_slice reg50234 5 0;
     stag := bit_slice reg50250 26 16;
     stag_sb := bit_slice reg50250 8 0;
     cke := bit_slice reg50254 28 24;
     xp := bit_slice reg50254 5 0;
     phy_wrd := bit_slice reg50258 26 24;
     phy_rdl := bit_slice reg50258 23 16;
     phy_wrl := bit_slice reg50258 15 8;
     wrpre := bit_slice reg502A4 10 8;
     rdpre := bit_slice reg502A4 2 0;
     (* the fields the function leaves alone *)
     phy_rdl_per_channel := phy_rdl_per_channel d;
     phy_rdl_channel_count := phy_rdl_channel_count d;
     rfc := rfc d; rfc2 := rfc2 d; rfcsb := rfcsb d;
     trefi_ns := trefi_ns d; trfc_ns := trfc_ns d;
     trfc2_ns := trfc2_ns d; trfcsb_ns := trfcsb_ns d;
     gdm_enabled := gdm_enabled d;
     power_down_enabled := power_down_enabled d;
     cmd2t := cmd2t d;
     frequency_hint_mhz := frequency_hint_mhz d |}.

(** [for (i = 0; i < 4; i++) if (regs[i] != skip) { reg = regs[i]; break; }]
    with [reg] initially 0. *)
Fixpoint first_other (skip : Z) (regs : list Z) : Z :=
  match regs with
  | [] => 0
  | r :: rest => if negb (r =? skip) then r else first_other skip rest
  end.

(** The [if (trfc_reg) { rfc = ...; rfc2 = ...; }] of both generations. *)
Definition set_rfc_pair (trfc_reg hi1 lo1 hi2 lo2 : Z) (d : dram_timings_t)
  : dram_timings_t :=
  if negb (trfc_reg =? 0)
  then set_rfc2 (bit_slice trfc_reg hi2 lo2)
         (set_rfc (bit_slice trfc_reg hi1 lo1) d)
  else d.

Definition read_ddr5_timings (d : dram_timings_t) : dram_timings_t :=
  let offset := 0 in
  (* Ratio -> frequency *)
  let ratio_reg := read_smn (Z.lor offset 0x50200) in
  let ratio := div (of_Z (bit_slice ratio_reg 15 0)) c100 in
  let mem_freq := mul ratio c200 in
  let d := set_frequency_hint_mhz mem_freq d in
  (* GDM, Cmd2T, PowerDown *)
  let d := set_gdm_enabled (bit_slice ratio_reg 18 18 =? 1) d in
  let cmd2t_bit := bit_slice ratio_reg 17 17 in
  let d := set_cmd2t (snprintf_s (cmd2t d)
                        (if negb (cmd2t_bit =? 0) then [x32; x54]
                         else [x31; x54])) d in
  let refresh_reg := read_smn (Z.lor offset 0x5012C) in
  let d := set_power_down_enabled (bit_slice refresh_reg 28 28 =? 1) d in
  let d := read_common_timings offset d in
  (* RFC - DDR5: choose first non-default from 4 registers *)
  let trfc_regs := [read_smn (Z.lor offset 0x50260);
                    read_smn (Z.lor offset 0x50264);
                    read_smn (Z.lor offset 0x50268);
                    read_smn (Z.lor offset 0x5026C)] in
  let trfc_reg := first_other 0x00C00138 trfc_regs in
  let d := set_rfc_pair trfc_reg 15 0 31 16 d in
  (* RFCsb *)
  let rfcsb_regs := [bit_slice (read_smn (Z.lor offset 0x502C0)) 10 0;
                     bit_slice (read_smn (Z.lor offset 0x502C4)) 10 0;
                     bit_slice (read_smn (Z.lor offset 0x502C8)) 10 0;
                     bit_slice (read_smn (Z.lor offset 0x502CC)) 10 0] in
  let d := if negb (first_other 0 rfcsb_regs =? 0)
           then set_rfcsb (first_other 0 rfcsb_regs) d else d in
  (* Nanosecond conversions *)
  let d := set_trefi_ns (to_nanoseconds (refi d) mem_freq) d in
  let d := set_trfc_ns (to_nanoseconds (rfc d) mem_freq) d in
  let d := set_trfc2_ns (to_nanoseconds (rfc2 d) mem_freq) d in
  set_trfcsb_ns (to_nanoseconds (rfcsb d) mem_freq) d.

Definition read_ddr4_timings (d : dram_timings_t) : dram_timings_t :=
  let offset := 0 in
  let d := read_common_timings offset d in
  (* RFC - DDR4: first non-default from 2 registers *)
  let trfc0 := read_smn (Z.lor offset 0x50260) in
  let trfc1 := read_smn (Z.lor offset 0x50264) in
  let trfc_reg :=
    if negb (trfc0 =? trfc1)
    then (if negb (trfc0 =? 0x21060138) then trfc0 else trfc1)
    else trfc0 in
  let d := set_rfc_pair trfc_reg 10 0 21 11 d in
  let d := set_cmd2t (replace_nth 0 x00 (cmd2t d)) d in
  set_frequency_hint_mhz zero d.

(** The generation a codename index selects in the [switch] of
    [dram_read_timings]. *)
Inductive generation : Type := DDR5 | DDR4 | Unsupported.

Definition generation_of (codename_index : Z) : generation :=
  if codename_index =? 23 then DDR5
  else if (codename_index =? 4) || (codename_index =? 9)
          || (codename_index =? 10) || (codename_index =? 12)
          || (codename_index =? 18) || (codename_index =? 19)
  then DDR4
  else Unsupported.

(** [dram_read_timings]: [out] is the record of the caller, cleared by
    the first statement. *)
Definition dram_read_timings (codename_index : Z) (out : dram_timings_t)
  : dram_timings_t :=
  let out := dram_zero in
  match generation_of codename_index with
  | DDR5 => read_ddr5_timings out
  | DDR4 => read_ddr4_timings out
  | Unsupported => out
  end.

End Registers.

End Dram.

(** ** [aod_voltages.c]: the AML scan *)

Module Aod.

(** [AOD_OEM_ID], the 8 bytes of ["AOD     "]. *)
Definition AOD_OEM_ID : list byte :=
  [x41; x4f; x44; x20; x20; x20; x20; x20].

Definition AOD_REGION_SIZE : Z := 0x24BB.

(** [5B 80] DefOpRegion, [41 4F 44 45] the name AODE, [00] SystemMemory. *)
Definition aode_pattern : list byte :=
  [x5b; x80; x41; x4f; x44; x45; x00].

(** An SSDT as [acpi_get_table] hands it out: the OEM table identifier of
    the header and the AML bytes that follow the header, whose number is
    [hdr->length - sizeof *hdr]. *)
Record ssdt : Type := Build_ssdt {
  oem_table_id : list byte;  (* char [8] *)
  aml : list byte
}.

Fixpoint bytes_eqb (a b : list byte) : bool :=
  match a, b with
  | [], [] => true
  | x :: a', y :: b' => Byte.eqb x y && bytes_eqb a' b'
  | _, _ => false
  end.

(** [memcmp (p + i, pat, sizeof pat) == 0]. *)
Definition memcmp_eq (p : list byte) (i : Z) (pat : list byte) : bool :=
  bytes_eqb (firstn (length pat) (skipn (Z.to_nat i) p)) pat.

(** The integer of a little-endian byte sequence. *)
Fixpoint le_combine (bs : list byte) : Z :=
  match bs with
  | [] => 0
  | b :: r => Z.of_N (Byte.to_N b) + 256 * le_combine r
  end.

(** [memcpy (&x, p + i, n)] into an integer [x] of [n] bytes. *)
Definition read_le (p : list byte) (i : Z) (n : nat) : Z :=
  le_combine (firstn n (skipn (Z.to_nat i) p)).

Definition pattern_len : Z := Z.of_nat (length aode_pattern).

(** The body of the scan loop at index [i]: [Some addr] is the
    [return addr], [None] is a [continue]. *)
Definition scan_at (aml : list byte) (i : Z) : option Z :=
  if negb (memcmp_eq aml i aode_pattern) then None
  else
    let enc := nth (Z.to_nat (i + pattern_len)) aml x00 in
    if Byte.eqb enc x0c then Some (read_le aml (i + pattern_len + 1) 4)
    else if Byte.eqb enc x0e then Some (read_le aml (i + pattern_len + 1) 8)
    else None.

(** [k] iterations of the loop, from index [i] on. *)
Fixpoint scan_from (k : nat) (i : Z) (aml : list byte) : option Z :=
  match k with
  | O => None
  | S k' =>
      match scan_at aml i with
      | Some addr => Some addr
      | None => scan_from k' (i + 1) aml
      end
  end.

(** [for (i = 0; i + sizeof (aode_pattern) + 10 < aml_len; i++)]: the loop
    runs for the indices below [aml_len - 17]. *)
Definition scan_aml (aml : list byte) : option Z :=
  scan_from (Z.to_nat (Z.of_nat (length aml) - pattern_len - 10)) 0 aml.

(** [find_aod_phys] over the SSDTs in the order of their indices; the
    result 0 stands for "not found". *)
Fixpoint find_aod_phys (tables : list ssdt) : Z :=
  match tables with
  | [] => 0
  | hdr :: rest =>
      if negb (bytes_eqb (oem_table_id hdr) AOD_OEM_ID)
      then find_aod_phys rest
      else
        match scan_aml (aml hdr) with
        | Some addr => addr
        | None => find_aod_phys rest
        end
  end.

End Aod.

(** ** Notions of the specification and sample inputs *)

Module Spec.
Import F32 PmTable.

(** *** The all-zero records *)

Definition smu_floats (m : smu_metrics_t) : list float :=
  [package_power_w m; ppt_w m; package_current_a m; vcore m; vsoc m; vddp m;
   vddg_ccd m; vddg_iod m; vdd_misc m; cpu_vddio m; mem_vdd m; mem_vddq m;
   mem_vpp m; vid m; core_clock_mhz m; bclk_mhz m; fclk_mhz m; uclk_mhz m;
   mclk_mhz m; memory_clock_mhz m; cpu_temp_c m; tdie_c m; tctl_c m;
   tccd1_c m; tccd2_c m; iod_hotspot_c m].

Definition smu_arrays (m : smu_metrics_t) : list (list float) :=
  [core_clocks_ghz m; core_temps_c m; core_voltages m; core_usage_pct m;
   core_freq_mhz m; spd_temps_c m].

Definition smu_counts (m : smu_metrics_t) : list Z :=
  [core_clocks_count m; core_temps_count m; core_voltages_count m;
   core_usage_count m; core_freq_count m; spd_temps_count m].

Definition smu_flags (m : smu_metrics_t) : list bool :=
  [has_tdie m; has_tctl m; has_tccd1 m; has_tccd2 m; has_iod_hotspot m].

(** Every numeric field 0, every count 0, every presence flag false. *)
Definition smu_all_zero (m : smu_metrics_t) : Prop :=
  Forall (eq zero) (smu_floats m)
  /\ Forall (Forall (eq zero)) (smu_arrays m)
  /\ Forall (eq 0) (smu_counts m)
  /\ Forall (eq false) (smu_flags m).

Definition dram_words (d : Dram.dram_timings_t) : list Z :=
  [Dram.tcl d; Dram.trcd_rd d; Dram.trcd_wr d; Dram.trp d; Dram.tras d;
   Dram.trc d; Dram.trrds d; Dram.trrdl d; Dram.tfaw d; Dram.twr d;
   Dram.tcwl d; Dram.rtp d; Dram.wtrs d; Dram.wtrl d; Dram.rdwr d;
   Dram.wrrd d; Dram.rdrd_scl d; Dram.wrwr_scl d; Dram.rdrd_sc d;
   Dram.rdrd_sd d; Dram.rdrd_dd d; Dram.wrwr_sc d; Dram.wrwr_sd d;
   Dram.wrwr_dd d; Dram.refi d; Dram.wrpre d; Dram.rdpre d; Dram.trc_page d;
   Dram.mod_ d; Dram.mod_pda d; Dram.mrd d; Dram.mrd_pda d; Dram.stag d;
   Dram.stag_sb d; Dram.cke d; Dram.xp d; Dram.phy_wrd d; Dram.phy_wrl d;
   Dram.phy_rdl d; Dram.phy_rdl_channel_count d; Dram.rfc d; Dram.rfc2 d;
   Dram.rfcsb d].

(** Every field zero, the flags false and the string bytes NUL. *)
Definition dram_all_zero (d : Dram.dram_timings_t) : Prop :=
  Forall (eq 0) (dram_words d)
  /\ Forall (eq 0) (Dram.phy_rdl_per_channel d)
  /\ Forall (eq zero)
       [Dram.trefi_ns d; Dram.trfc_ns d; Dram.trfc2_ns d; Dram.trfcsb_ns d;
        Dram.frequency_hint_mhz d]
  /\ Dram.gdm_enabled d = false
  /\ Dram.power_down_enabled d = false
  /\ Forall (eq x00) (Dram.cmd2t d).

(** *** Per-core arrays *)

(** The four per-core arrays have their [MAX_CORES] slots. *)
Definition arrays_ok (m : smu_metrics_t) : Prop :=
  length (core_temps_c m) = 16%nat
  /\ length (core_voltages m) = 16%nat
  /\ length (core_clocks_ghz m) = 16%nat
  /\ length (core_usage_pct m) = 16%nat.

(** The table values [t[start + i]] for [i] from [i0] on, [k] of them. *)
Definition copied (t : list float) (start : Z) (i0 k : nat) : list float :=
  List.map (fun j => load t (start + Z.of_nat j)) (seq i0 k).

(** The array [a] after [n] table values from [start] on were stored at
    its head. *)
Definition filled (t : list float) (start n : Z) (a : list float)
  : list float :=
  copied t start 0 (Z.to_nat n) ++ skipn (Z.to_nat n) a.

(** An observation [obs] of the record that a setter does not change. *)
Definition ignores {X V : Type} (obs : smu_metrics_t -> X)
           (set : V -> smu_metrics_t -> smu_metrics_t) : Prop :=
  forall v m, obs (set v m) = obs m.

(** ...and one that none of the setters of [apply_named] and
    [read_granite_ridge_offsets] changes. *)
Definition ignores_named {X : Type} (obs : smu_metrics_t -> X) : Prop :=
  ignores obs set_fclk_mhz /\ ignores obs set_uclk_mhz
  /\ ignores obs set_mclk_mhz /\ ignores obs set_vsoc
  /\ ignores obs set_vddp /\ ignores obs set_vddg_iod
  /\ ignores obs set_vddg_ccd /\ ignores obs set_vdd_misc
  /\ ignores obs set_vcore.

(** *** IOD hotspot *)

(** The effect of one candidate value on the pair (flag, field). *)
Definition iod_step (acc : bool * float) (v : float) : bool * float :=
  if in_range c1 c150 v then (true, v) else acc.

Definition iod_state (m : smu_metrics_t) : bool * float :=
  (has_iod_hotspot m, iod_hotspot_c m).

Definition is_iod (e : pm_entry_t) : bool :=
  match field_offset e with
  | F_IOD_HOTSPOT => true
  | _ => false
  end.

(** The entries that the loop of [apply_named] visits. *)
Definition named_entries (map : pm_family_map_t) : list pm_entry_t :=
  List.map (fun j => nth j (named map) named_pad)
           (seq 0 (Z.to_nat (named_count map))).

(** The candidate values of the family map for the IOD hotspot. *)
Definition named_iod_values (map : pm_family_map_t) (t : list float)
           (count : Z) : list float :=
  List.map (fun e => safe_get t count (index e))
           (filter is_iod (named_entries map)).

(** What [read_known_indices] does to the fields under study. *)
Definition known_post (t : list float) (count : Z)
           (m m' : smu_metrics_t) : Prop :=
  arrays_ok m'
  /\ core_temps_count m' = (if 324 <? count then 8 else core_temps_count m)
  /\ core_temps_c m'
     = (if 324 <? count then filled t 317 8 (core_temps_c m)
        else core_temps_c m)
  /\ core_clocks_count m'
     = (if 340 <? count then 16 else core_clocks_count m)
  /\ core_clocks_ghz m'
     = (if 340 <? count then filled t 325 16 (core_clocks_ghz m)
        else core_clocks_ghz m)
  /\ core_voltages_count m'
     = (if 316 <? count then 8 else core_voltages_count m)
  /\ core_voltages m'
     = (if 316 <? count then filled t 309 8 (core_voltages m)
        else core_voltages m)
  /\ vid m' = (if 275 <? count then load t 275 else vid m)
  /\ iod_state m'
     = (if 11 <? count then iod_step (iod_state m) (load t 11)
        else iod_state m)
  /\ core_usage_pct m' = core_usage_pct m
  /\ core_usage_count m' = core_usage_count m
  /\ core_clock_mhz m' = core_clock_mhz m.

(** What the family-map pass does to them. *)
Definition family_post (map : pm_family_map_t) (t : list float) (count : Z)
           (m m' : smu_metrics_t) : Prop :=
  let nc := clamp_cores map in
  arrays_ok m'
  /\ core_temps_count m'
     = (if core_temp_start map + nc <=? count then nc
        else core_temps_count m)
  /\ core_temps_c m'
     = (if core_temp_start map + nc <=? count
        then filled t (core_temp_start map) nc (core_temps_c m)
        else core_temps_c m)
  /\ core_voltages_count m'
     = (if core_voltage_start map + nc <=? count then nc
        else core_voltages_count m)
  /\ core_voltages m'
     = (if core_voltage_start map + nc <=? count
        then filled t (core_voltage_start map) nc (core_voltages m)
        else core_voltages m)
  /\ core_clocks_count m' = core_clocks_count m
  /\ core_clocks_ghz m' = core_clocks_ghz m
  /\ vid m'
     = (if gt (safe_get t count (vid_idx map)) zero
        then safe_get t count (vid_idx map) else vid m)
  /\ iod_state m'
     = fold_left iod_step (named_iod_values map t count) (iod_state m)
  /\ core_usage_pct m' = core_usage_pct m
  /\ core_usage_count m' = core_usage_count m
  /\ core_clock_mhz m' = core_clock_mhz m.

(** The candidate values [pm_table_read] reads for the IOD hotspot, in the
    order it reads them: the entries of the family map that name the field
    (generic branch only), then index 11 of the table. *)
Definition iod_candidates (version : Z) (table : option (list float))
           (count codename_index : Z) : list float :=
  match table with
  | None => []
  | Some t =>
      if count <? 4 then []
      else
        (if codename_index =? 23 then []
         else List.map (fun e => safe_get t count (index e))
                       (filter is_iod (named (get_family_map version))))
        ++ (if 11 <? count then [load t 11] else [])
  end.

(** The pair (flag, field) is consistent: a set flag comes with a value in
    [1, 150], a clear flag with the zero of [memset]. *)
Definition iod_consistent (s : bool * float) : Prop :=
  (fst s = true -> in_range c1 c150 (snd s) = true)
  /\ (fst s = false -> snd s = zero).

(** *** Sample inputs *)

(** The table whose element of index [i] is the float [i]. *)
Definition table_of_indices (n : nat) : list float :=
  List.map (fun i => of_Z (Z.of_nat i)) (seq 0 n).

(** The register file of a machine whose SMN reads all return the DDR5
    refresh default. *)
Definition sample_smn (address : Z) : Z := 0x00C00138.

(** A table of [n] floats, each 4.0. *)
Definition table_of_fours (n : nat) : list float := repeat (of_Z 4) n.

(** A family map that asks for 20 cores. *)
Definition twenty_cores : pm_family_map_t :=
  {| named := [E 11 F_IOD_HOTSPOT]; named_count := 1;
     vid_idx := 10; ppt_idx := 1; socket_power_idx := 29;
     core_voltage_start := 100; core_temp_start := 200; max_cores := 20 |}.

(** The AODE signature, the DWord tag and the address bytes [00 10 00 00]. *)
Definition aode_dword_1000 : list byte :=
  Aod.aode_pattern ++ [x0c; x00; x10; x00; x00].

Definition aod_table (aml : list byte) : Aod.ssdt :=
  Aod.Build_ssdt Aod.AOD_OEM_ID aml.

End Spec.

(** ** [dram.c]: the blocks of the two decoders *)

Module DramBlocks.
Import Util F32 Dram.

(** Every integer field is a 16-bit value. *)
Definition words_fit (d : dram_timings_t) : Prop :=
  Forall (fun x => 0 <= x < 2 ^ 16) (Spec.dram_words d).

(** An observation of the record that a setter does not change. *)
Definition dram_ignores {X V : Type} (obs : dram_timings_t -> X)
           (set : V -> dram_timings_t -> dram_timings_t) : Prop :=
  forall v d, obs (set v d) = obs d.

(** [r] is what the loop [for (i = 0; i < 4; i++) if (regs[i] != skip)
    { reg = regs[i]; break; }] leaves in [reg]: the first element that
    differs from [skip], or the initial 0 when there is none. *)
Definition first_not (skip : Z) (regs : list Z) (r : Z) : Prop :=
  (exists pre post,
      regs = pre ++ r :: post /\ Forall (eq skip) pre /\ r <> skip)
  \/ (Forall (eq skip) regs /\ r = 0).

Section Registers.
Variable read_smn : Z -> Z.

(** [mem_freq] of [read_ddr5_timings]. *)
Definition ddr5_mem_freq : float :=
  mul (div (of_Z (bit_slice (read_smn 0x50200) 15 0)) c100) c200.

(** Ratio -> frequency; GDM, Cmd2T, PowerDown. *)
Definition ddr5_mode (d : dram_timings_t) : dram_timings_t :=
  let ratio_reg := read_smn 0x50200 in
  let d := set_frequency_hint_mhz ddr5_mem_freq d in
  let d := set_gdm_enabled (bit_slice ratio_reg 18 18 =? 1) d in
  let d := set_cmd2t (snprintf_s (cmd2t d)
                        (if negb (bit_slice ratio_reg 17 17 =? 0)
                         then [x32; x54] else [x31; x54])) d in
  set_power_down_enabled (bit_slice (read_smn 0x5012C) 28 28 =? 1) d.

Definition ddr5_trfc_regs : list Z :=
  [read_smn 0x50260; read_smn 0x50264; read_smn 0x50268; read_smn 0x5026C].

(** RFC - DDR5: choose first non-default from 4 registers. *)
Definition ddr5_rfc (d : dram_timings_t) : dram_timings_t :=
  set_rfc_pair (first_other 0x00C00138 ddr5_trfc_regs) 15 0 31 16 d.

Definition ddr5_rfcsb_regs : list Z :=
  [bit_slice (read_smn 0x502C0) 10 0; bit_slice (read_smn 0x502C4) 10 0;
   bit_slice (read_smn 0x502C8) 10 0; bit_slice (read_smn 0x502CC) 10 0].

(** RFCsb. *)
Definition ddr5_rfcsb (d : dram_timings_t) : dram_timings_t :=
  if negb (first_other 0 ddr5_rfcsb_regs =? 0)
  then set_rfcsb (first_other 0 ddr5_rfcsb_regs) d else d.

(** Nanosecond conversions. *)
Definition ddr5_ns (d : dram_timings_t) : dram_timings_t :=
  let d := set_trefi_ns (to_nanoseconds (refi d) ddr5_mem_freq) d in
  let d := set_trfc_ns (to_nanoseconds (rfc d) ddr5_mem_freq) d in
  let d := set_trfc2_ns (to_nanoseconds (rfc2 d) ddr5_mem_freq) d in
  set_trfcsb_ns (to_nanoseconds (rfcsb d) ddr5_mem_freq) d.

(** The register [read_ddr4_timings] takes [rfc] and [rfc2] from. *)
Definition ddr4_trfc_reg : Z :=
  let trfc0 := read_smn 0x50260 in
  let trfc1 := read_smn 0x50264 in
  if negb (trfc0 =? trfc1)
  then (if negb (trfc0 =? 0x21060138) then trfc0 else trfc1)
  else trfc0.

(** RFC - DDR4: first non-default from 2 registers. *)
Definition ddr4_rfc (d : dram_timings_t) : dram_timings_t :=
  set_rfc_pair ddr4_trfc_reg 10 0 21 11 d.

Definition ddr4_reset (d : dram_timings_t) : dram_timings_t :=
  set_frequency_hint_mhz zero (set_cmd2t (Mem.replace_nth 0 x00 (cmd2t d)) d).

End Registers.

End DramBlocks.

(** ** [dram.c]: the byte layout of an SMN access *)

Module Smn.
Import Util.

(** The cast [(uint8_t) x]. *)
Definition u8 (x : Z) : Z := x mod 2 ^ 8.

(** The four bytes [read_smn] writes for [address]. *)
Definition address_bytes (address : Z) : list Z :=
  [u8 address; u8 (Z.shiftr address 8); u8 (Z.shiftr address 16);
   u8 (Z.shiftr address 24)].

(** The value [read_smn] returns for the four bytes read back:
    [buf[0] | buf[1] << 8 | buf[2] << 16 | buf[3] << 24] in [uint32_t]. *)
Definition value_of_bytes (buf : list Z) : Z :=
  Z.lor (Z.lor (Z.lor (u32 (nth 0 buf 0))
                      (u32 (Z.shiftl (u32 (nth 1 buf 0)) 8)))
               (u32 (Z.shiftl (u32 (nth 2 buf 0)) 16)))
        (u32 (Z.shiftl (u32 (nth 3 buf 0)) 24)).

(** The SMN file of the driver: [None] when [fopen] fails; otherwise the
    answer to the four bytes written, [None] when [fwrite] or [fread] does
    not transfer four bytes. *)
Definition smn_file : Type := option (list Z -> option (list Z)).

(** [static uint32_t read_smn(uint32_t address)]. *)
Definition read_smn (f : smn_file) (address : Z) : Z :=
  match f with
  | None => 0
  | Some exchange =>
      match exchange (address_bytes address) with
      | None => 0
      | Some buf => value_of_bytes buf
      end
  end.

End Smn.

(** ** [backend.c]: the memory type and the memory frequency *)

Module Backend.
Import F32 Mem.

(** [mem_type_t]. *)
Inductive mem_type_t : Type :=
| MEM_UNKNOWN | MEM_DDR4 | MEM_DDR5 | MEM_LPDDR4 | MEM_LPDDR5.

(** The [switch] of [mem_type_for_codename]. *)
Definition mem_type_for_codename (idx : Z) : mem_type_t :=
  if idx =? 23 then MEM_DDR5
  else if (idx =? 4) || (idx =? 9) || (idx =? 10) || (idx =? 12)
          || (idx =? 18) || (idx =? 19)
  then MEM_DDR4
  else MEM_UNKNOWN.

Definition is_ddr4 (ty : mem_type_t) : bool :=
  match ty with
  | MEM_DDR4 => true
  | _ => false
  end.

(** The memory frequency of [backend_read_summary]:
    [mem_freq = out->dram.frequency_hint_mhz;
     if (mem_freq == 0 && out->memory.type == MEM_DDR4
         && out->metrics.mclk_mhz > 0) mem_freq = out->metrics.mclk_mhz;]. *)
Definition summary_memory_frequency (frequency_hint_mhz : float)
           (type : mem_type_t) (mclk_mhz : float) : float :=
  let mem_freq := frequency_hint_mhz in
  if SFeqb mem_freq zero && is_ddr4 type && gt mclk_mhz zero
  then mclk_mhz else mem_freq.

(** [out->memory.frequency] as [backend_read_summary] computes it from the
    codename index, the SMN registers and the metrics read before. *)
Definition backend_memory_frequency (read_smn : Z -> Z) (codename_idx : Z)
           (metrics : PmTable.smu_metrics_t) : float :=
  let dram := Dram.dram_read_timings read_smn codename_idx Dram.dram_zero in
  let type := mem_type_for_codename codename_idx in
  summary_memory_frequency (Dram.frequency_hint_mhz dram) type
    (PmTable.mclk_mhz metrics).

(** The body of the inner loop of [apply_per_core_temps_hwmon] for a label
    ["Core N"]: [core] is [atoi (label + 5)] and [c] the value of
    [read_temp_input (dir, idx)]. *)
Definition apply_core_temp (core : Z) (c : float)
           (m : PmTable.smu_metrics_t) : option PmTable.smu_metrics_t :=
  if (core <? 0) || (PmTable.MAX_CORES <=? core) then Some m
  else if ge c zero then
    a <- store (PmTable.core_temps_c m) core c ;;
    let m := PmTable.set_core_temps_c a m in
    Some (if PmTable.core_temps_count m <=? core
          then PmTable.set_core_temps_count (core + 1) m else m)
  else Some m.

(** [apply_per_core_temps_hwmon] over the labels ["Core N"] of the hwmon
    directories, in the order [readdir] yields them. *)
Fixpoint apply_per_core_temps_hwmon (labels : list (Z * float))
         (m : PmTable.smu_metrics_t) : option PmTable.smu_metrics_t :=
  match labels with
  | [] => Some m
  | (core, c) :: rest =>
      m <- apply_core_temp core c m ;;
      apply_per_core_temps_hwmon rest m
  end.

End Backend.

(** ** [pm_table.c]: notions for the decoded values *)

Module PmProps.
Import F32 PmTable.


(** A value left by a plausibility filter: the 0 of [memset] or of the
    final [return 0.0f], or a value within [lo, hi]. *)
Definition plausible (lo hi v : float) : Prop :=
  v = zero \/ in_range lo hi v = true.

(** [v] is what a candidate loop returns: the table value of the first
    candidate within [lo, hi], or 0 when no candidate is. *)
Definition first_plausible (lo hi : float) (t : list float) (count : Z)
           (candidates : list Z) (v : float) : Prop :=
  (exists pre c post,
      candidates = pre ++ c :: post
      /\ Forall (fun c' => in_range lo hi (safe_get t count c') = false) pre
      /\ v = safe_get t count c
      /\ in_range lo hi v = true)
  \/ (Forall (fun c' => in_range lo hi (safe_get t count c') = false)
             candidates
      /\ v = zero).

(** An observation of the record that no block storing into a per-core
    array changes. *)
Definition ignores_arrays {X : Type} (obs : smu_metrics_t -> X) : Prop :=
  Spec.ignores obs set_core_temps_count /\ Spec.ignores obs set_core_temps_c
  /\ Spec.ignores obs set_core_clocks_count
  /\ Spec.ignores obs set_core_clocks_ghz
  /\ Spec.ignores obs set_core_voltages_count
  /\ Spec.ignores obs set_core_voltages.

(** ...and one that nothing in [read_known_indices] after the PPT loop
    changes. *)
Definition ignores_known {X : Type} (obs : smu_metrics_t -> X) : Prop :=
  ignores_arrays obs
  /\ Spec.ignores obs set_tdie_c /\ Spec.ignores obs set_has_tdie
  /\ Spec.ignores obs set_vid
  /\ Spec.ignores obs set_iod_hotspot_c
  /\ Spec.ignores obs set_has_iod_hotspot.

(** The nine fields that [apply_named] and [read_granite_ridge_offsets]
    assign. *)
Definition named_fields (m : smu_metrics_t) : list float :=
  [fclk_mhz m; uclk_mhz m; mclk_mhz m; vsoc m; vddp m; vddg_iod m;
   vddg_ccd m; vdd_misc m; vcore m].

(** The versions that [get_family_map] knows. *)
Definition known_versions : list Z :=
  [0x380804; 0x380805; 0x380904; 0x380905; 0x400005; 0x240903; 0x240803;
   0x370003; 0x370005; 0x1E0004].

End PmProps.

(** ** [util.c]: files and commands *)

Module UtilIo.
Import Dram.

(** ['\n'], ['\r'] or [' ']: the test of the stripping loop. *)
Definition is_trailing_space (b : byte) : bool :=
  Byte.eqb b x0a || Byte.eqb b x0d || Byte.eqb b x20.

(** [fgets (buf, n + 1, f)]: the characters stored before the NUL, at most
    [n], up to and including the first newline of the stream. *)
Fixpoint fgets (n : nat) (stream : list byte) : list byte :=
  match n, stream with
  | O, _ => []
  | _, [] => []
  | S k, b :: r => if Byte.eqb b x0a then [b] else b :: fgets k r
  end.

(** [while (len > 0 && (buf[len-1] == '\n' || ...)) buf[--len] = '\0';]
    returns the final [len].  The loop stores at indices from the final
    [len] on only, so every test reads a character of the initial
    string. *)
Fixpoint strip_trailing (len : nat) (buf : list byte) : nat :=
  match len with
  | O => O
  | S k =>
      if is_trailing_space (nth k buf x00) then strip_trailing k buf
      else S k
  end.

(** [int read_file_string(const char *path, char *buf, size_t sz)] for
    [sz >= 2]: [file] is the contents of the file, [None] when [fopen]
    fails; the result is the string left in [buf] when the function
    returns 1, and [None] when it returns 0. *)
Definition read_file_string (file : option (list byte)) (sz : nat)
  : option (list byte) :=
  match file with
  | None => None
  | Some [] => None
  | Some stream =>
      let s := c_string (fgets (sz - 1) stream) in
      Some (firstn (strip_trailing (length s) s) s)
  end.

(** The loop of [run_command]: [buf] holds the [len] bytes read so far,
    [rest] is what the pipe still has, and [fread] transfers as many bytes
    as were asked for unless the pipe ends before; [realloc_ok cap] tells
    whether the [realloc] to [cap] bytes succeeds.  The result is the
    buffer when the loop is left and the size of its allocation ([cap] is
    an integer here, not reduced modulo [2^64]); [None] stands for a loop
    that has not ended within [fuel] iterations. *)
Fixpoint run_command_loop (fuel : nat) (realloc_ok : Z -> bool) (cap : Z)
         (buf rest : list byte) : option (list byte * Z) :=
  match fuel with
  | O => None
  | S fuel' =>
      let len := Z.of_nat (length buf) in
      let n := Z.min (cap - len - 1) (Z.of_nat (length rest)) in
      if n <=? 0 then Some (buf, cap)
      else
        let buf := buf ++ firstn (Z.to_nat n) rest in
        let rest := skipn (Z.to_nat n) rest in
        let len := len + n in
        if cap <=? len + 1 then
          if realloc_ok (cap * 2)
          then run_command_loop fuel' realloc_ok (cap * 2) buf rest
          else Some (buf, cap)
        else run_command_loop fuel' realloc_ok cap buf rest
  end.

(** The outcome of [run_command]: [NULL], or the buffer returned, given by
    the bytes before its final NUL and the size of its allocation. *)
Inductive command_output : Type :=
| Null
| Buffer (bytes : list byte) (cap : Z).

(** [char *run_command(const char *cmd)]: [pipe] is the output of the
    command, [None] when [popen] fails. *)
Definition run_command (fuel : nat) (pipe : option (list byte))
           (malloc_ok : bool) (realloc_ok : Z -> bool)
  : option command_output :=
  match pipe with
  | None => Some Null
  | Some data =>
      if malloc_ok
      then match run_command_loop fuel realloc_ok 4096 [] data with
           | Some (buf, cap) => Some (Buffer buf cap)
           | None => None
           end
      else Some Null
  end.

End UtilIo.

(** ** [backend.c]: the AGESA version string *)

Module Agesa.

Section Locale.

(** [isalnum] of the current locale. *)
Variable isalnum : byte -> bool.

(** ["AGESA!V9"]. *)
Definition marker : list byte := [x41; x47; x45; x53; x41; x21; x56; x39].

(** [static int agesa_allowed(unsigned char c)]. *)
Definition agesa_allowed (c : byte) : bool :=
  isalnum c || Byte.eqb c x20 || Byte.eqb c x2e || Byte.eqb c x2d.

(** [while (start < len && !agesa_allowed(buf[start])) start++;] on the
    bytes from [start] on. *)
Fixpoint skip_disallowed (l : list byte) : list byte :=
  match l with
  | [] => []
  | b :: r => if negb (agesa_allowed b) then skip_disallowed r else l
  end.

(** [while (end < len && agesa_allowed(buf[end])) end++;]: the bytes from
    [start] up to [end]. *)
Fixpoint take_allowed (l : list byte) : list byte :=
  match l with
  | [] => []
  | b :: r => if agesa_allowed b then b :: take_allowed r else []
  end.

(** The body of the loop after a match of the marker, on the bytes that
    follow the marker; [outsz >= 1]. *)
Definition version_after (rest : list byte) (outsz : nat)
  : option (list byte) :=
  match take_allowed (skip_disallowed rest) with
  | [] => None
  | ver => Some (firstn (outsz - 1) ver)
  end.

(** [k] iterations of the loop over [i], on the bytes from [i] on. *)
Fixpoint find_from (k : nat) (l : list byte) (outsz : nat)
  : option (list byte) :=
  match k with
  | O => None
  | S k' =>
      if Aod.bytes_eqb (firstn (length marker) l) marker
      then version_after (skipn (length marker) l) outsz
      else find_from k' (tl l) outsz
  end.

(** [static int find_agesa_in_buf(const uint8_t *buf, size_t len,
    char *out, size_t outsz)]: the string stored in [out] when the
    function returns 1, [None] when it returns 0. *)
Definition find_agesa_in_buf (buf : list byte) (outsz : nat)
  : option (list byte) :=
  if (length buf <? length marker)%nat then None
  else find_from (length buf - length marker + 1) buf outsz.

End Locale.

End Agesa.

(** * Verification *)

(** *** [bit_slice] *)

Section BitSlice.
Import Util.

Lemma u32_small x : 0 <= x < 2 ^ 32 -> u32 x = x.
Proof. intros H. unfold u32. now apply Z.mod_small. Qed.

Lemma mask_small width :
  0 < width < 32 -> 0 <= Z.shiftl 1 width - 1 < 2 ^ 32.
Proof.
  intros H. rewrite Z.shiftl_1_l.
  assert (0 < 2 ^ width) by (apply Z.pow_pos_nonneg; lia).
  assert (2 ^ width < 2 ^ 32) by (apply Z.pow_lt_mono_r; lia).
  lia.
Qed.

Lemma int32_small x : - 2 ^ 31 <= x < 2 ^ 31 -> int32 x = x.
Proof. intros H. unfold int32. rewrite Z.mod_small; lia. Qed.

(** Without overflow of [int], [width] is [hi - lo + 1]. *)
Lemma width_exact hi lo :
  - 2 ^ 31 <= hi - lo < 2 ^ 31 - 1 ->
  int32 (int32 (hi - lo) + 1) = hi - lo + 1.
Proof. intros H. rewrite (int32_small (hi - lo)), int32_small; lia. Qed.

Lemma bit_slice_in_range val hi lo :
  0 <= lo <= hi -> hi <= 31 ->
  bit_slice val hi lo = Z.land (Z.shiftr val lo) (Z.shiftl 1 (hi - lo + 1) - 1).
Proof.
  intros Hlo Hhi. unfold bit_slice. cbv zeta.
  rewrite width_exact by lia. rewrite (Z.mod_small lo 32) by lia.
  destruct (Z.leb_spec (hi - lo + 1) 0); [lia|].
  destruct (Z.ltb_spec 32 (hi - lo + 1)); [lia|]. cbn [orb].
  destruct (Z.eqb_spec (hi - lo + 1) 32) as [E|E].
  - rewrite E. reflexivity.
  - rewrite u32_small by (apply mask_small; lia). reflexivity.
Qed.


(** The slice is the field [word / 2^lo mod 2^width], hence below [2^width]. *)
Lemma bit_slice_div_mod val hi lo :
  0 <= lo <= hi -> hi <= 31 ->
  bit_slice val hi lo = (val / 2 ^ lo) mod 2 ^ (hi - lo + 1).
Proof.
  intros Hlo Hhi. rewrite bit_slice_in_range by assumption.
  rewrite Z.shiftl_1_l, Z.sub_1_r, <- Z.ones_equiv, Z.land_ones by lia.
  now rewrite Z.shiftr_div_pow2 by lia.
Qed.




End BitSlice.

(** *** [dram.c] *)

Section DramFacts.
Import F32 Dram.

Variable read_smn : Z -> Z.

(** The three arms of the [switch]. *)
Lemma generation_of_ddr4 codename_index :
  In codename_index [4; 9; 10; 12; 18; 19] ->
  generation_of codename_index = DDR4.
Proof.
  cbn [In]. intros H.
  repeat (destruct H as [<- | H]; [reflexivity|]). contradiction.
Qed.

Lemma generation_of_other codename_index :
  codename_index <> 23 ->
  ~ In codename_index [4; 9; 10; 12; 18; 19] ->
  generation_of codename_index = Unsupported.
Proof.
  cbn [In]. intros H23 H. unfold generation_of.
  repeat match goal with
         | |- context [?a =? ?b] =>
             destruct (Z.eqb_spec a b); [subst; exfalso; tauto|]
         end.
  reflexivity.
Qed.

Lemma dram_zero_all_zero : Spec.dram_all_zero dram_zero.
Proof.
  unfold Spec.dram_all_zero. repeat split; cbn; repeat constructor.
Qed.

(** C6. [to_nanoseconds cycles freq_mhz] is 0 when [freq_mhz <= 0];
    otherwise it is [cycles * 2000 / freq_mhz], halved if and only if that
    value exceeds the cycle count.  [to_nanoseconds 800 3200] is 500.0 and
    is not halved. *)
Theorem to_nanoseconds_contract (cycles : Z) (freq_mhz : float) :
  (le freq_mhz zero = true -> to_nanoseconds cycles freq_mhz = zero)
  /\ (le freq_mhz zero = false ->
      let ns := div (mul (of_Z cycles) c2000) freq_mhz in
      (gt ns (of_Z cycles) = true ->
         to_nanoseconds cycles freq_mhz = div ns c2)
      /\ (gt ns (of_Z cycles) = false ->
         to_nanoseconds cycles freq_mhz = ns))
  /\ to_nanoseconds 800 (of_Z 3200) = of_Z 500
  /\ gt (div (mul (of_Z 800) c2000) (of_Z 3200)) (of_Z 800) = false.
Proof.
  unfold to_nanoseconds. split; [|split; [|split; reflexivity]].
  - intros ->. reflexivity.
  - intros Hpos. cbv zeta. rewrite Hpos.
    split; intros ->; reflexivity.
Qed.

Lemma to_nanoseconds_contract_witness :
  to_nanoseconds 800 (of_Z 3200) = of_Z 500
  /\ to_nanoseconds 800 (of_Z 1000) = of_Z 800
  /\ to_nanoseconds 800 (of_Z (-1)) = zero.
Proof.
  split; [|split].
  - destruct (to_nanoseconds_contract 800 (of_Z 3200)) as (_ & H & _).
    destruct (H eq_refl) as [_ Hkeep]. rewrite (Hkeep eq_refl).
    reflexivity.
  - destruct (to_nanoseconds_contract 800 (of_Z 1000)) as (_ & H & _).
    destruct (H eq_refl) as [Hhalf _]. rewrite (Hhalf eq_refl).
    reflexivity.
  - destruct (to_nanoseconds_contract 800 (of_Z (-1))) as (H & _).
    exact (H eq_refl).
Defined.

(** C7. [dram_read_timings] decodes index 23 on the DDR5 path, each of the
    indices 4, 9, 10, 12, 18, 19 on the DDR4 path, and returns the all-zero
    record for every other index. *)
Theorem dram_read_timings_dispatch (codename_index : Z)
        (out : dram_timings_t) :
  (codename_index = 23 ->
     dram_read_timings read_smn codename_index out
     = read_ddr5_timings read_smn dram_zero)
  /\ (In codename_index [4; 9; 10; 12; 18; 19] ->
     dram_read_timings read_smn codename_index out
     = read_ddr4_timings read_smn dram_zero)
  /\ (codename_index <> 23 ->
      ~ In codename_index [4; 9; 10; 12; 18; 19] ->
      dram_read_timings read_smn codename_index out = dram_zero
      /\ Spec.dram_all_zero
           (dram_read_timings read_smn codename_index out)).
Proof.
  unfold dram_read_timings. split; [|split].
  - intros ->. reflexivity.
  - intros H. now rewrite generation_of_ddr4.
  - intros H1 H2. rewrite generation_of_other by assumption.
    split; [reflexivity | apply dram_zero_all_zero].
Qed.

(** C10. On the DDR4 path the frequency hint is 0, [cmd2t] is the empty
    string, both mode flags are false and the four nanosecond fields are 0. *)
Theorem ddr4_leaves_derived_fields (codename_index : Z)
        (out : dram_timings_t) :
  In codename_index [4; 9; 10; 12; 18; 19] ->
  let d := dram_read_timings read_smn codename_index out in
  frequency_hint_mhz d = zero
  /\ c_string (cmd2t d) = []
  /\ cmd2t d = [x00; x00; x00; x00]
  /\ gdm_enabled d = false
  /\ power_down_enabled d = false
  /\ trefi_ns d = zero /\ trfc_ns d = zero
  /\ trfc2_ns d = zero /\ trfcsb_ns d = zero.
Proof.
  intros H. unfold dram_read_timings. rewrite generation_of_ddr4 by exact H.
  unfold read_ddr4_timings, set_rfc_pair. cbv zeta.
  match goal with |- context [if negb (?r =? 0) then _ else _] =>
    destruct (negb (r =? 0)) end;
    repeat split; reflexivity.
Qed.

End DramFacts.

Lemma dram_read_timings_dispatch_witness :
  Dram.dram_read_timings Spec.sample_smn 23 Dram.dram_zero
  = Dram.read_ddr5_timings Spec.sample_smn Dram.dram_zero
  /\ Dram.dram_read_timings Spec.sample_smn 12 Dram.dram_zero
     = Dram.read_ddr4_timings Spec.sample_smn Dram.dram_zero
  /\ Dram.dram_read_timings Spec.sample_smn 20 Dram.dram_zero = Dram.dram_zero.
Proof.
  destruct (dram_read_timings_dispatch Spec.sample_smn 23 Dram.dram_zero)
    as (H5 & _ & _).
  destruct (dram_read_timings_dispatch Spec.sample_smn 12 Dram.dram_zero)
    as (_ & H4 & _).
  destruct (dram_read_timings_dispatch Spec.sample_smn 20 Dram.dram_zero)
    as (_ & _ & H0).
  split; [|split].
  - apply H5. reflexivity.
  - apply H4. cbn [In]. tauto.
  - apply H0; [discriminate|]. cbn [In]. intros H.
    repeat (destruct H as [H | H]; [discriminate H|]). exact H.
Defined.

Lemma ddr4_leaves_derived_fields_witness :
  Dram.frequency_hint_mhz (Dram.dram_read_timings Spec.sample_smn 12 Dram.dram_zero)
  = F32.zero
  /\ Dram.c_string
       (Dram.cmd2t (Dram.dram_read_timings Spec.sample_smn 12 Dram.dram_zero)) = []
  /\ Dram.trfc_ns (Dram.dram_read_timings Spec.sample_smn 12 Dram.dram_zero)
     = F32.zero.
Proof.
  assert (H : In 12 [4; 9; 10; 12; 18; 19]) by (cbn [In]; tauto).
  destruct (ddr4_leaves_derived_fields Spec.sample_smn 12 Dram.dram_zero H)
    as (Hf & Hs & _ & _ & _ & _ & Hn & _).
  split; [exact Hf | split; [exact Hs | exact Hn]].
Defined.

(** *** Array fields *)

Section MemFacts.
Import Mem.
Context {A : Type}.
Implicit Types (l a : list A) (v : A).

Lemma replace_nth_length n v l : length (replace_nth n v l) = length l.
Proof.
  revert n. induction l as [|x l IH]; intros [|n]; cbn; auto.
Qed.

Lemma firstn_replace_nth n v l :
  (n < length l)%nat ->
  firstn (S n) (replace_nth n v l) = firstn n l ++ [v].
Proof.
  revert l. induction n as [|n IH]; intros [|x l] H; cbn in *; try lia.
  - reflexivity.
  - f_equal. apply IH. lia.
Qed.

Lemma skipn_replace_nth n k v l :
  skipn (S n + k) (replace_nth n v l) = skipn (S n + k) l.
Proof.
  revert l. induction n as [|n IH]; intros [|x l]; cbn; auto.
  apply IH.
Qed.

Lemma store_inside a i v :
  0 <= i < Z.of_nat (length a) ->
  store a i v = Some (replace_nth (Z.to_nat i) v a).
Proof.
  intros H. unfold store.
  destruct (Z.leb_spec 0 i); [|lia].
  destruct (Z.ltb_spec i (Z.of_nat (length a))); [|lia].
  reflexivity.
Qed.

Lemma store_outside a i v :
  i < 0 \/ Z.of_nat (length a) <= i -> store a i v = None.
Proof.
  intros H. unfold store.
  destruct (Z.leb_spec 0 i); [|reflexivity].
  destruct (Z.ltb_spec i (Z.of_nat (length a))); [lia|].
  reflexivity.
Qed.

End MemFacts.

(** *** The copy loop *)

Section CopyFacts.
Import F32 Mem PmTable Spec.

Variables (t : list float) (start : Z).

Lemma copied_length i0 k : length (copied t start i0 k) = k.
Proof. unfold copied. now rewrite length_map, length_seq. Qed.

(** The loop stores [k] table values from index [i] on and touches nothing
    else, provided the [k] slots exist. *)
Lemma copy_from_inside k :
  forall (i : nat) dst,
    (i + k <= length dst)%nat ->
    copy_from k (Z.of_nat i) t start dst
    = Some (firstn i dst ++ copied t start i k ++ skipn (i + k) dst).
Proof.
  induction k as [|k IH]; intros i dst H.
  - cbn. now rewrite Nat.add_0_r, firstn_skipn.
  - cbn [copy_from]. rewrite store_inside by lia. cbn [bind].
    rewrite Nat2Z.id.
    replace (Z.of_nat i + 1) with (Z.of_nat (S i)) by lia.
    rewrite IH by (rewrite replace_nth_length; lia).
    rewrite firstn_replace_nth by lia.
    replace (i + S k)%nat with (S i + k)%nat by lia.
    rewrite skipn_replace_nth. rewrite <- app_assoc. reflexivity.
Qed.

(** A loop that runs past the capacity of the array stores outside it. *)
Lemma copy_from_overflow k :
  forall (i : nat) dst,
    (i <= length dst < i + k)%nat ->
    copy_from k (Z.of_nat i) t start dst = None.
Proof.
  induction k as [|k IH]; intros i dst H; [lia|].
  cbn [copy_from].
  destruct (Nat.eq_dec i (length dst)) as [E|E].
  - rewrite store_outside by lia. reflexivity.
  - rewrite store_inside by lia. cbn [bind].
    replace (Z.of_nat i + 1) with (Z.of_nat (S i)) by lia.
    apply IH. rewrite replace_nth_length. lia.
Qed.

Lemma copy_cores_inside n dst :
  (Z.to_nat n <= length dst)%nat ->
  copy_cores n t start dst
  = Some (copied t start 0 (Z.to_nat n) ++ skipn (Z.to_nat n) dst).
Proof.
  intros H. unfold copy_cores.
  change 0 with (Z.of_nat 0). now rewrite copy_from_inside.
Qed.

Lemma copy_cores_overflow n dst :
  (length dst < Z.to_nat n)%nat -> copy_cores n t start dst = None.
Proof.
  intros H. unfold copy_cores. change 0 with (Z.of_nat 0).
  apply copy_from_overflow. lia.
Qed.

(** Inside the table the copied values are a segment of the table. *)
Lemma copied_segment (s k : nat) :
  start = Z.of_nat s -> (s + k <= length t)%nat ->
  copied t start 0 k = firstn k (skipn s t).
Proof.
  intros -> H. unfold copied.
  apply nth_ext with (d := zero) (d' := zero).
  - rewrite length_map, length_seq, length_firstn, length_skipn. lia.
  - rewrite length_map, length_seq. intros n Hn.
    rewrite (nth_indep _ zero (load t (Z.of_nat s + Z.of_nat 0)))
      by (rewrite length_map, length_seq; exact Hn).
    rewrite (map_nth (fun j => load t (Z.of_nat s + Z.of_nat j))).
    rewrite seq_nth by exact Hn. cbn [Nat.add].
    rewrite nth_firstn.
    destruct (Nat.ltb_spec n k); [|lia].
    rewrite nth_skipn. unfold load.
    destruct (Z.ltb_spec (Z.of_nat s + Z.of_nat n) 0); [lia|].
    f_equal. lia.
Qed.

End CopyFacts.

(** *** [pm_table.c]: what each block leaves alone *)

Section PmFrames.
Import F32 Mem PmTable Spec.

Context {X : Type} (obs : smu_metrics_t -> X).
Variables (t : list float) (count : Z).

Lemma ppt_scan_frame cands m :
  ignores obs set_ppt_w -> obs (ppt_scan t count cands m) = obs m.
Proof.
  intros H. induction cands as [|c rest IH]; cbn [ppt_scan]; [reflexivity|].
  destruct (ge _ _ && le _ _); [apply H | exact IH].
Qed.

Lemma known_ppt_frame m :
  ignores obs set_ppt_w -> obs (known_ppt t count m) = obs m.
Proof. apply ppt_scan_frame. Qed.

Lemma read_tdie_frame m :
  ignores obs set_tdie_c -> ignores obs set_has_tdie ->
  obs (read_tdie t count m) = obs m.
Proof.
  intros H1 H2. unfold read_tdie. cbv zeta.
  repeat match goal with
         | |- context [if ?c then _ else _] => destruct c
         end; rewrite ?H2, ?H1; reflexivity.
Qed.

Lemma known_vid_frame m :
  ignores obs set_vid -> obs (known_vid t count m) = obs m.
Proof.
  intros H. unfold known_vid. destruct (275 <? count); [apply H|reflexivity].
Qed.

Lemma known_iod_hotspot_frame m :
  ignores obs set_iod_hotspot_c -> ignores obs set_has_iod_hotspot ->
  obs (known_iod_hotspot t count m) = obs m.
Proof.
  intros H1 H2. unfold known_iod_hotspot. cbv zeta.
  repeat match goal with
         | |- context [if ?c then _ else _] => destruct c
         end; rewrite ?H2, ?H1; reflexivity.
Qed.

Lemma apply_entry_frame e m :
  ignores_named obs ->
  ignores obs set_iod_hotspot_c -> ignores obs set_has_iod_hotspot ->
  obs (apply_entry t count e m) = obs m.
Proof.
  intros (F1 & F2 & F3 & F4 & F5 & F6 & F7 & F8 & F9) H1 H2.
  unfold apply_entry. cbv zeta.
  destruct (field_offset e); auto.
  destruct (ge _ _ && le _ _); [|reflexivity].
  now rewrite H2, H1.
Qed.

Lemma apply_named_frame map m :
  ignores_named obs ->
  ignores obs set_iod_hotspot_c -> ignores obs set_has_iod_hotspot ->
  obs (apply_named map t count m) = obs m.
Proof.
  intros F H1 H2. unfold apply_named.
  generalize 0 as i. revert m.
  induction (Z.to_nat (named_count map)) as [|k IH]; intros m i;
    cbn [apply_named_from]; [reflexivity|].
  rewrite IH. now apply apply_entry_frame.
Qed.

Lemma read_granite_ridge_offsets_frame m :
  ignores_named obs -> obs (read_granite_ridge_offsets t count m) = obs m.
Proof.
  intros (F1 & F2 & F3 & F4 & F5 & F6 & F7 & F8 & F9).
  unfold read_granite_ridge_offsets. cbv zeta.
  now rewrite F9, F8, F7, F6, F5, F4, F3, F2, F1.
Qed.

Lemma family_scalars_frame map m :
  ignores obs set_vid -> ignores obs set_ppt_w ->
  ignores obs set_package_power_w -> ignores obs set_package_current_a ->
  ignores obs set_cpu_temp_c ->
  obs (family_scalars map t count m) = obs m.
Proof.
  intros H1 H2 H3 H4 H5. unfold family_scalars. cbv zeta.
  rewrite H5, H4.
  repeat match goal with
         | |- context [if ?c then _ else _] => destruct c
         end; rewrite ?H3, ?H2, ?H1; reflexivity.
Qed.

Lemma derive_core_clock_frame m :
  ignores obs set_core_clock_mhz -> obs (derive_core_clock m) = obs m.
Proof.
  intros H. unfold derive_core_clock. cbv zeta.
  repeat match goal with
         | |- context [if ?c then _ else _] => destruct c
         end; rewrite ?H; reflexivity.
Qed.

Lemma derive_cpu_temp_frame m :
  ignores obs set_cpu_temp_c -> obs (derive_cpu_temp t count m) = obs m.
Proof.
  intros H. unfold derive_cpu_temp.
  destruct (has_tdie m && gt (tdie_c m) zero); apply H.
Qed.

End PmFrames.

(** Side conditions of the frame lemmas, and the rewriting that moves an
    observation through the blocks that leave it alone. *)
Ltac ign :=
  solve [ intros ? ?; reflexivity
        | unfold Spec.ignores_named; repeat split; intros ? ?; reflexivity ].

Ltac frame_step :=
  match goal with
  | |- context [?f (PmTable.known_iod_hotspot ?t ?c ?m)] =>
      rewrite (known_iod_hotspot_frame f t c m) by ign
  | |- context [?f (PmTable.known_vid ?t ?c ?m)] =>
      rewrite (known_vid_frame f t c m) by ign
  | |- context [?f (PmTable.read_tdie ?t ?c ?m)] =>
      rewrite (read_tdie_frame f t c m) by ign
  | |- context [?f (PmTable.known_ppt ?t ?c ?m)] =>
      rewrite (known_ppt_frame f t c m) by ign
  | |- context [?f (PmTable.apply_named ?map ?t ?c ?m)] =>
      rewrite (apply_named_frame f t c map m) by ign
  | |- context [?f (PmTable.read_granite_ridge_offsets ?t ?c ?m)] =>
      rewrite (read_granite_ridge_offsets_frame f t c m) by ign
  | |- context [?f (PmTable.family_scalars ?map ?t ?c ?m)] =>
      rewrite (family_scalars_frame f t c map m) by ign
  | |- context [?f (PmTable.derive_core_clock ?m)] =>
      rewrite (derive_core_clock_frame f m) by ign
  | |- context [?f (PmTable.derive_cpu_temp ?t ?c ?m)] =>
      rewrite (derive_cpu_temp_frame f t c m) by ign
  end.

Ltac frames := repeat first [ frame_step | progress unfold Spec.iod_state | progress cbn [
  PmTable.package_power_w PmTable.ppt_w PmTable.package_current_a
  PmTable.vcore PmTable.vsoc PmTable.vddp PmTable.vddg_ccd PmTable.vddg_iod
  PmTable.vdd_misc PmTable.cpu_vddio PmTable.mem_vdd PmTable.mem_vddq
  PmTable.mem_vpp PmTable.vid PmTable.core_clock_mhz PmTable.bclk_mhz
  PmTable.fclk_mhz PmTable.uclk_mhz PmTable.mclk_mhz PmTable.memory_clock_mhz
  PmTable.core_clocks_ghz PmTable.core_clocks_count PmTable.cpu_temp_c
  PmTable.core_temps_c PmTable.core_temps_count PmTable.tdie_c
  PmTable.has_tdie PmTable.tctl_c PmTable.has_tctl PmTable.tccd1_c
  PmTable.has_tccd1 PmTable.tccd2_c PmTable.has_tccd2 PmTable.iod_hotspot_c
  PmTable.has_iod_hotspot PmTable.core_voltages PmTable.core_voltages_count
  PmTable.core_usage_pct PmTable.core_usage_count PmTable.core_freq_mhz
  PmTable.core_freq_count PmTable.spd_temps_c PmTable.spd_temps_count
  PmTable.set_package_power_w PmTable.set_ppt_w PmTable.set_package_current_a
  PmTable.set_vcore PmTable.set_vsoc PmTable.set_vddp PmTable.set_vddg_ccd
  PmTable.set_vddg_iod PmTable.set_vdd_misc PmTable.set_vid
  PmTable.set_core_clock_mhz PmTable.set_fclk_mhz PmTable.set_uclk_mhz
  PmTable.set_mclk_mhz PmTable.set_core_clocks_ghz
  PmTable.set_core_clocks_count PmTable.set_cpu_temp_c PmTable.set_core_temps_c
  PmTable.set_core_temps_count PmTable.set_tdie_c PmTable.set_has_tdie
  PmTable.set_iod_hotspot_c PmTable.set_has_iod_hotspot
  PmTable.set_core_voltages PmTable.set_core_voltages_count
  PmTable.smu_zero ] ].

(** *** [pm_table.c]: the blocks that store into the per-core arrays *)

Section PmBlocks.
Import F32 Mem PmTable Spec.

Variables (t : list float) (count : Z).

Lemma smu_zero_arrays_ok : arrays_ok smu_zero.
Proof. repeat split. Qed.

Lemma filled_length start n a :
  (Z.to_nat n <= length a)%nat -> length (filled t start n a) = length a.
Proof.
  intros H. unfold filled.
  rewrite length_app, copied_length, length_skipn. lia.
Qed.

Lemma known_core_temps_ok m :
  length (core_temps_c m) = 16%nat ->
  known_core_temps t count m
  = Some (if 324 <? count
          then set_core_temps_c (filled t 317 8 (core_temps_c m))
                 (set_core_temps_count 8 m)
          else m).
Proof.
  intros H. unfold known_core_temps. destruct (324 <? count); [|reflexivity].
  cbv zeta. frames. rewrite copy_cores_inside by (rewrite H; cbn; lia).
  reflexivity.
Qed.

Lemma known_core_clocks_ok m :
  length (core_clocks_ghz m) = 16%nat ->
  known_core_clocks t count m
  = Some (if 340 <? count
          then set_core_clocks_ghz (filled t 325 16 (core_clocks_ghz m))
                 (set_core_clocks_count 16 m)
          else m).
Proof.
  intros H. unfold known_core_clocks. destruct (340 <? count); [|reflexivity].
  cbv zeta. frames. rewrite copy_cores_inside by (rewrite H; cbn; lia).
  reflexivity.
Qed.

Lemma known_core_voltages_ok m :
  length (core_voltages m) = 16%nat ->
  known_core_voltages t count m
  = Some (if 316 <? count
          then set_core_voltages (filled t 309 8 (core_voltages m))
                 (set_core_voltages_count 8 m)
          else m).
Proof.
  intros H. unfold known_core_voltages.
  destruct (316 <? count); [|reflexivity].
  cbv zeta. frames. rewrite copy_cores_inside by (rewrite H; cbn; lia).
  reflexivity.
Qed.

(** The clamp keeps the number of cores within the capacity. *)
Lemma clamp_cores_bound map : clamp_cores map <= 16.
Proof.
  unfold clamp_cores, MAX_CORES.
  destruct (Z.ltb_spec 16 (max_cores map)); lia.
Qed.

Lemma clamp_cores_min map : clamp_cores map = Z.min (max_cores map) 16.
Proof.
  unfold clamp_cores, MAX_CORES.
  destruct (Z.ltb_spec 16 (max_cores map)); lia.
Qed.

Lemma family_core_temps_ok map m :
  length (core_temps_c m) = 16%nat ->
  family_core_temps map t count m
  = Some (if core_temp_start map + clamp_cores map <=? count
          then set_core_temps_c
                 (filled t (core_temp_start map) (clamp_cores map)
                    (core_temps_c m))
                 (set_core_temps_count (clamp_cores map) m)
          else m).
Proof.
  intros H. unfold family_core_temps. cbv zeta.
  destruct (_ <=? count); [|reflexivity].
  frames. pose proof (clamp_cores_bound map).
  rewrite copy_cores_inside by (rewrite H; lia). reflexivity.
Qed.

Lemma family_core_voltages_ok map m :
  length (core_voltages m) = 16%nat ->
  family_core_voltages map t count m
  = Some (if core_voltage_start map + clamp_cores map <=? count
          then set_core_voltages
                 (filled t (core_voltage_start map) (clamp_cores map)
                    (core_voltages m))
                 (set_core_voltages_count (clamp_cores map) m)
          else m).
Proof.
  intros H. unfold family_core_voltages. cbv zeta.
  destruct (_ <=? count); [|reflexivity].
  frames. pose proof (clamp_cores_bound map).
  rewrite copy_cores_inside by (rewrite H; lia). reflexivity.
Qed.

(** *** The IOD hotspot through the blocks *)

Lemma known_iod_hotspot_state m :
  iod_state (known_iod_hotspot t count m)
  = (if 11 <? count then iod_step (iod_state m) (load t 11)
     else iod_state m).
Proof.
  unfold known_iod_hotspot, iod_step, in_range. cbv zeta.
  destruct (11 <? count); [|reflexivity].
  destruct (ge _ _ && le _ _); reflexivity.
Qed.

Lemma apply_entry_state e m :
  iod_state (apply_entry t count e m)
  = (if is_iod e then iod_step (iod_state m) (safe_get t count (index e))
     else iod_state m).
Proof.
  unfold apply_entry, is_iod, iod_step, in_range. cbv zeta.
  destruct (field_offset e); try reflexivity.
  destruct (ge _ _ && le _ _); reflexivity.
Qed.

Lemma apply_named_from_state map k :
  forall (i : nat) m,
    iod_state (apply_named_from k (Z.of_nat i) map t count m)
    = fold_left iod_step
        (List.map (fun e => safe_get t count (index e))
           (filter is_iod
              (List.map (fun j => nth j (named map) named_pad) (seq i k))))
        (iod_state m).
Proof.
  induction k as [|k IH]; intros i m; [reflexivity|].
  cbn [apply_named_from seq List.map filter].
  replace (Z.of_nat i + 1) with (Z.of_nat (S i)) by lia.
  rewrite IH, apply_entry_state, Nat2Z.id.
  destruct (is_iod _); reflexivity.
Qed.

Lemma apply_named_state map m :
  iod_state (apply_named map t count m)
  = fold_left iod_step (named_iod_values map t count) (iod_state m).
Proof.
  unfold apply_named. change 0 with (Z.of_nat 0).
  apply apply_named_from_state.
Qed.

End PmBlocks.

(** *** [pm_table.c]: the two passes *)

Section PmPasses.
Import F32 Mem PmTable Spec.

Variables (t : list float) (count : Z).

(** [read_known_indices] completes on a record with well-formed arrays, and
    its effect on the fields under study is [known_post]. *)
Lemma read_known_indices_effect m :
  arrays_ok m ->
  exists m', read_known_indices t count m = Some m' /\ known_post t count m m'.
Proof.
  intros (Ht & Hv & Hc & Hu). unfold read_known_indices. cbv zeta.
  rewrite known_core_temps_ok by (frames; exact Ht). cbn [bind].
  rewrite known_core_clocks_ok
    by (destruct (324 <? count); frames; exact Hc).
  cbn [bind].
  rewrite known_core_voltages_ok
    by (destruct (324 <? count), (340 <? count); frames; exact Hv).
  cbn [bind].
  eexists. split; [reflexivity|].
  unfold known_post, arrays_ok.
  rewrite known_iod_hotspot_state.
  destruct (324 <? count), (340 <? count), (316 <? count);
    frames; rewrite ?filled_length by (rewrite ?Ht, ?Hv, ?Hc; cbn; lia);
    repeat split; try assumption; try reflexivity;
    unfold known_vid; destruct (275 <? count); frames; reflexivity.
Qed.

(** The family-map pass completes too, for every family map. *)
Lemma family_pass_effect map m :
  arrays_ok m ->
  exists m', family_pass map t count m = Some m'
             /\ family_post map t count m m'.
Proof.
  intros (Ht & Hv & Hc & Hu). unfold family_pass. cbv zeta.
  pose proof (clamp_cores_bound map) as Hnc.
  rewrite family_core_temps_ok by (frames; exact Ht). cbn [bind].
  rewrite family_core_voltages_ok
    by (destruct (_ <=? count); frames; exact Hv).
  cbn [bind].
  eexists. split; [reflexivity|].
  unfold family_post, arrays_ok. cbv zeta.
  rewrite <- (apply_named_state t count map m).
  destruct (core_temp_start map + clamp_cores map <=? count),
           (core_voltage_start map + clamp_cores map <=? count);
    frames; rewrite ?filled_length by (rewrite ?Ht, ?Hv; lia);
    repeat split; try assumption; try reflexivity;
    unfold family_scalars; cbv zeta; frames;
    destruct (gt (safe_get t count (vid_idx map)) zero);
    repeat match goal with
           | |- context [if ?c then _ else _] => destruct c
           end; frames; reflexivity.
Qed.

End PmPasses.

(** *** [pm_table_read], branch by branch *)

Section PmRead.
Import F32 Mem PmTable Spec.

Variables (version : Z) (t : list float) (count : Z).

Lemma pm_table_read_short table codename_index out :
  table = None \/ count < 4 ->
  pm_table_read version table count codename_index out = Some smu_zero.
Proof.
  intros H. unfold pm_table_read. cbv zeta.
  destruct table as [t'|]; [|reflexivity].
  destruct H as [H|H]; [discriminate H|].
  destruct (Z.ltb_spec count 4); [reflexivity | lia].
Qed.

Lemma pm_table_read_granite out :
  4 <= count ->
  pm_table_read version (Some t) count 23 out
  = pm_table_granite t count smu_zero.
Proof.
  intros H. unfold pm_table_read. cbv zeta.
  destruct (Z.ltb_spec count 4); [lia | reflexivity].
Qed.

Lemma pm_table_read_generic codename_index out :
  4 <= count -> codename_index <> 23 ->
  pm_table_read version (Some t) count codename_index out
  = pm_table_generic (get_family_map version) t count smu_zero.
Proof.
  intros H H23. unfold pm_table_read. cbv zeta.
  destruct (Z.ltb_spec count 4); [lia|].
  destruct (Z.eqb_spec codename_index 23); [contradiction | reflexivity].
Qed.

(** The generic branch: the family-map pass, then the fixed-index pass. *)
Lemma pm_table_generic_effect map m :
  arrays_ok m ->
  exists m1 m',
    family_pass map t count m = Some m1
    /\ read_known_indices t count m1 = Some m'
    /\ pm_table_generic map t count m = Some m'
    /\ family_post map t count m m1
    /\ known_post t count m1 m'.
Proof.
  intros Hm.
  destruct (family_pass_effect t count map m Hm) as (m1 & E1 & P1).
  assert (Hm1 : arrays_ok m1) by apply P1.
  destruct (read_known_indices_effect t count m1 Hm1) as (m' & E2 & P2).
  exists m1, m'. unfold pm_table_generic. rewrite E1. cbn [bind].
  auto.
Qed.

(** The branch of codename index 23. *)
Lemma pm_table_granite_effect m :
  arrays_ok m ->
  exists m1,
    read_known_indices t count (read_granite_ridge_offsets t count m)
    = Some m1
    /\ known_post t count (read_granite_ridge_offsets t count m) m1
    /\ pm_table_granite t count m
       = Some (derive_cpu_temp t count
                 (derive_core_clock
                    (set_package_current_a (try_plausible_current t count)
                       (set_package_power_w (try_plausible_power t count)
                          m1)))).
Proof.
  intros (Ht & Hv & Hc & Hu).
  assert (H0 : arrays_ok (read_granite_ridge_offsets t count m))
    by (unfold arrays_ok; frames; auto).
  destruct (read_known_indices_effect t count _ H0) as (m1 & E & P).
  exists m1. unfold pm_table_granite. cbv zeta. rewrite E. cbn [bind].
  auto.
Qed.

End PmRead.

(** *** The guard of [pm_table_read] *)

Section PmGuard.
Import F32 Mem PmTable Spec.

Lemma smu_zero_all_zero : smu_all_zero smu_zero.
Proof.
  unfold smu_all_zero. repeat split; cbn; repeat constructor.
Qed.

(** C2. A null table pointer or [count < 4] leaves the all-zero record in
    [out], whatever the version, the family hint and the previous contents
    of [out]; so does every table of length 3. *)
Theorem pm_table_read_guard (version codename_index : Z)
        (out : smu_metrics_t) :
  (forall table count,
      table = None \/ count < 4 ->
      exists out',
        pm_table_read version table count codename_index out = Some out'
        /\ smu_all_zero out')
  /\ (forall t,
      length t = 3%nat ->
      exists out',
        pm_table_read version (Some t) (Z.of_nat (length t))
          codename_index out = Some out'
        /\ smu_all_zero out').
Proof.
  split.
  - intros table count H. exists smu_zero.
    split; [now apply pm_table_read_short | apply smu_zero_all_zero].
  - intros t H. exists smu_zero.
    split; [apply pm_table_read_short; right; lia | apply smu_zero_all_zero].
Qed.

Lemma pm_table_read_guard_witness :
  (exists out',
      pm_table_read 0x380805 None 600 12 smu_zero = Some out'
      /\ smu_all_zero out')
  /\ (exists out',
      pm_table_read 0x380805 (Some (table_of_fours 3)) 3 23 smu_zero
      = Some out'
      /\ smu_all_zero out').
Proof.
  destruct (pm_table_read_guard 0x380805 12 smu_zero) as [Hnull _].
  destruct (pm_table_read_guard 0x380805 23 smu_zero) as [_ Hshort].
  split.
  - apply Hnull. left. reflexivity.
  - apply (Hshort (table_of_fours 3)). reflexivity.
Defined.

End PmGuard.

(** *** The per-core arrays *)

Section PmArrays.
Import F32 Mem PmTable Spec.

Lemma skipn_filled t start n a :
  skipn (Z.to_nat n) (filled t start n a) = skipn (Z.to_nat n) a.
Proof.
  unfold filled.
  rewrite skipn_app, copied_length, Nat.sub_diag, skipn_O.
  rewrite skipn_all2 by (rewrite copied_length; lia).
  reflexivity.
Qed.

(** The whole decoder completes, which in this model means that every
    store hit a slot of its array, and the counts stay within 16. *)
Lemma pm_table_read_arrays version table count codename_index out :
  exists out',
    pm_table_read version table count codename_index out = Some out'
    /\ arrays_ok out'
    /\ core_temps_count out' <= 16
    /\ core_voltages_count out' <= 16
    /\ core_clocks_count out' <= 16
    /\ core_usage_count out' = 0
    /\ core_usage_pct out' = zeros MAX_CORES.
Proof.
  destruct table as [t|].
  2:{ exists smu_zero. split; [reflexivity|].
      split; [apply smu_zero_arrays_ok|]. cbn. repeat split; lia. }
  destruct (Z.lt_ge_cases count 4) as [Hc|Hc].
  { exists smu_zero. split; [apply pm_table_read_short; now right|].
    split; [apply smu_zero_arrays_ok|]. cbn. repeat split; lia. }
  destruct (Z.eq_dec codename_index 23) as [->|H23].
  - rewrite pm_table_read_granite by lia.
    destruct (pm_table_granite_effect t count smu_zero smu_zero_arrays_ok)
      as (m1 & _ & P & ->).
    destruct P as ((Ht & Hv & Hk & Hu) & Etc & _ & Ecc & _ & Evc & _ & _
                   & _ & Eu & Euc & _).
    eexists. split; [reflexivity|]. unfold arrays_ok.
    revert Etc Ecc Evc Eu Euc. frames. intros Etc Ecc Evc Eu Euc.
    rewrite Etc, Ecc, Evc, Eu, Euc.
    destruct (324 <? count), (340 <? count), (316 <? count);
      repeat split; auto; lia.
  - rewrite pm_table_read_generic by assumption.
    destruct (pm_table_generic_effect t count (get_family_map version)
                smu_zero smu_zero_arrays_ok)
      as (m1 & m' & _ & _ & -> & P1 & P2).
    pose proof (clamp_cores_bound (get_family_map version)) as Hnc.
    destruct P1 as (_ & Etc1 & _ & Evc1 & _ & Ecc1 & _ & _ & _ & Eu1
                    & Euc1 & _).
    destruct P2 as (Hok & Etc & _ & Ecc & _ & Evc & _ & _ & _ & Eu & Euc
                    & _).
    revert Etc1 Evc1 Ecc1 Eu1 Euc1. cbv zeta. frames.
    intros Etc1 Evc1 Ecc1 Eu1 Euc1.
    eexists. split; [reflexivity|]. split; [exact Hok|].
    rewrite Etc, Ecc, Evc, Eu, Euc, Etc1, Evc1, Ecc1, Eu1, Euc1.
    repeat match goal with
           | |- context [if ?c then _ else _] => destruct c
           end; repeat split; auto; lia.
Qed.

(** C3 (amended). Every store of [pm_table_read] into a per-core array
    hits one of its 16 slots: the call completes for every input, with the
    arrays at their capacity and every count at most 16.  The family-map
    pass, for every family map, stores at most [min (max_cores, 16)]
    entries into the temperature and the voltage array, leaves the entries
    from that index on as they were and does not touch the clock and usage
    arrays; so a map with [max_cores = 20] stores nothing past index 15,
    and the generic branch completes for it. *)
Theorem per_core_stores_bounded :
  (forall version table count codename_index out,
      exists out',
        pm_table_read version table count codename_index out = Some out'
        /\ arrays_ok out'
        /\ core_temps_count out' <= 16
        /\ core_voltages_count out' <= 16
        /\ core_clocks_count out' <= 16
        /\ core_usage_count out' = 0
        /\ core_usage_pct out' = zeros MAX_CORES)
  /\ (forall map t count m,
      arrays_ok m ->
      let nc := Z.min (max_cores map) 16 in
      (exists m1,
          family_pass map t count m = Some m1
          /\ arrays_ok m1
          /\ skipn (Z.to_nat nc) (core_temps_c m1)
             = skipn (Z.to_nat nc) (core_temps_c m)
          /\ skipn (Z.to_nat nc) (core_voltages m1)
             = skipn (Z.to_nat nc) (core_voltages m)
          /\ (core_temps_count m1 = nc
              \/ core_temps_count m1 = core_temps_count m)
          /\ (core_voltages_count m1 = nc
              \/ core_voltages_count m1 = core_voltages_count m)
          /\ core_clocks_ghz m1 = core_clocks_ghz m
          /\ core_usage_pct m1 = core_usage_pct m)
      /\ (exists m',
             pm_table_generic map t count m = Some m' /\ arrays_ok m')).
Proof.
  split; [exact pm_table_read_arrays|].
  intros map t count m Hm nc.
  destruct (pm_table_generic_effect t count map m Hm)
    as (m1 & m' & E1 & _ & E & P1 & P2).
  split; [|exists m'; split; [exact E | apply P2]].
  exists m1. split; [exact E1|].
  destruct P1 as (Hok & Etc & Et & Evc & Ev & _ & Ec & _ & _ & Eu & _).
  revert Etc Et Evc Ev. cbv zeta. rewrite clamp_cores_min. fold nc.
  intros Etc Et Evc Ev.
  split; [exact Hok|]. rewrite Etc, Et, Evc, Ev.
  destruct (core_temp_start map + nc <=? count),
           (core_voltage_start map + nc <=? count);
    rewrite ?skipn_filled; auto 10.
Qed.

Lemma per_core_stores_bounded_witness :
  exists m',
    pm_table_generic twenty_cores (table_of_fours 400) 400 smu_zero
    = Some m'
    /\ arrays_ok m'.
Proof.
  destruct per_core_stores_bounded as [_ H].
  destruct (H twenty_cores (table_of_fours 400) 400 smu_zero) as [_ H'].
  - repeat split.
  - exact H'.
Defined.

(** Without the clamp the copy loop of a 20-core map would store at index
    16, which the model reports. *)
Lemma unclamped_copy_overflows t start dst :
  length dst = 16%nat -> copy_cores 20 t start dst = None.
Proof.
  intros H. apply copy_cores_overflow. rewrite H. cbn. lia.
Qed.

(** C3 as stated fails: the number of entries that [pm_table_read] stores
    is not bounded by [min (family.max_cores, 16)].  In the branch of
    codename index 23 a table of 341 floats gets its 16 per-core clocks
    stored, while the map of the version has [max_cores = 8]. *)
Lemma per_core_count_not_bounded_by_family :
  ~ (forall version t count codename_index out out',
        pm_table_read version (Some t) count codename_index out = Some out' ->
        let nc := Z.min (max_cores (get_family_map version)) 16 in
        core_temps_count out' <= nc
        /\ core_voltages_count out' <= nc
        /\ core_clocks_count out' <= nc).
Proof.
  intros H.
  assert (E : exists out',
             pm_table_read 0 (Some (table_of_fours 341)) 341 23 smu_zero
             = Some out'
             /\ core_clocks_count out' = 16
             /\ core_clocks_ghz out' = repeat (of_Z 4) 16).
  { eexists. split; [vm_compute; reflexivity|]. split; reflexivity. }
  destruct E as (out' & E & Hc & _).
  destruct (H _ _ _ _ _ _ E) as (_ & _ & Hk).
  rewrite Hc in Hk. vm_compute in Hk. apply Hk. reflexivity.
Qed.

(** The same happens in the generic branch: for the Raven Ridge map
    ([max_cores = 4]) and a table of 325 floats the fixed-index pass stores
    8 core temperatures. *)
Lemma raven_long_table_core_temps :
  exists out',
    pm_table_read 0x1E0004 (Some (table_of_fours 325)) 325 7 smu_zero
    = Some out'
    /\ max_cores (get_family_map 0x1E0004) = 4
    /\ core_temps_count out' = 8
    /\ firstn 8 (core_temps_c out') = repeat (of_Z 4) 8.
Proof.
  eexists. split; [vm_compute; reflexivity|]. repeat split.
Qed.

End PmArrays.

(** *** The IOD hotspot *)

Section PmIod.
Import F32 Mem PmTable Spec.

Lemma fold_iod_flag cands :
  forall acc,
    fst (fold_left iod_step cands acc)
    = fst acc || existsb (in_range c1 c150) cands.
Proof.
  induction cands as [|v cands IH]; intros acc; cbn [fold_left existsb].
  - now rewrite orb_false_r.
  - rewrite IH. unfold iod_step.
    destruct (in_range c1 c150 v); cbn [fst orb];
      [now rewrite orb_true_r | reflexivity].
Qed.

Lemma fold_iod_consistent cands :
  forall acc,
    iod_consistent acc -> iod_consistent (fold_left iod_step cands acc).
Proof.
  induction cands as [|v cands IH]; intros acc H; cbn [fold_left];
    [exact H|].
  apply IH. unfold iod_step.
  destruct (in_range c1 c150 v) eqn:E; [|exact H].
  split; cbn [fst snd]; [intros _; exact E | discriminate].
Qed.

(** For the maps of the registry the loop of [apply_named] visits exactly
    the initialized entries. *)
Lemma named_entries_registry version :
  named_entries (get_family_map version) = named (get_family_map version).
Proof.
  unfold get_family_map.
  repeat match goal with
         | |- context [if ?c then _ else _] => destruct c
         end; reflexivity.
Qed.

Lemma pm_table_read_iod_state version table count codename_index out :
  exists out',
    pm_table_read version table count codename_index out = Some out'
    /\ iod_state out'
       = fold_left iod_step
           (iod_candidates version table count codename_index)
           (false, zero).
Proof.
  unfold iod_candidates.
  destruct table as [t|]; [|exists smu_zero; split; reflexivity].
  destruct (Z.ltb_spec count 4) as [Hc|Hc].
  { exists smu_zero. split; [apply pm_table_read_short; now right|].
    reflexivity. }
  destruct (Z.eqb_spec codename_index 23) as [->|H23].
  - rewrite pm_table_read_granite by lia.
    destruct (pm_table_granite_effect t count smu_zero smu_zero_arrays_ok)
      as (m1 & _ & P & ->).
    destruct P as (_ & _ & _ & _ & _ & _ & _ & _ & Ei & _).
    eexists. split; [reflexivity|].
    revert Ei. frames. intros Ei.
    unfold iod_state in Ei. rewrite Ei.
    destruct (11 <? count); reflexivity.
  - rewrite pm_table_read_generic by assumption.
    destruct (pm_table_generic_effect t count (get_family_map version)
                smu_zero smu_zero_arrays_ok)
      as (m1 & m' & _ & _ & -> & P1 & P2).
    destruct P1 as (_ & _ & _ & _ & _ & _ & _ & _ & Ei1 & _).
    destruct P2 as (_ & _ & _ & _ & _ & _ & _ & _ & Ei & _).
    eexists. split; [reflexivity|].
    rewrite Ei, Ei1, fold_left_app.
    unfold named_iod_values. rewrite named_entries_registry.
    destruct (11 <? count); reflexivity.
Qed.

(** C5. After every call of [pm_table_read]: a set [has_iod_hotspot]
    comes with [iod_hotspot_c] in [1, 150]; the flag is set exactly when
    one of the candidate values read is in [1, 150]; a candidate outside
    the range sets neither the field nor the flag, which then keep the
    values of [memset].  The pair is the result of running the candidates
    in order, each in-range one replacing the pair. *)
Theorem iod_hotspot_presence version table count codename_index out :
  exists out',
    pm_table_read version table count codename_index out = Some out'
    /\ (has_iod_hotspot out' = true ->
        in_range c1 c150 (iod_hotspot_c out') = true)
    /\ has_iod_hotspot out'
       = existsb (in_range c1 c150)
           (iod_candidates version table count codename_index)
    /\ (has_iod_hotspot out' = false -> iod_hotspot_c out' = zero)
    /\ (has_iod_hotspot out', iod_hotspot_c out')
       = fold_left iod_step
           (iod_candidates version table count codename_index)
           (false, zero).
Proof.
  destruct (pm_table_read_iod_state version table count codename_index out)
    as (out' & E & Hs).
  exists out'. split; [exact E|].
  pose proof (fold_iod_flag
                (iod_candidates version table count codename_index)
                (false, zero)) as Hf.
  assert (Hc0 : iod_consistent (false, zero))
    by (split; [discriminate | reflexivity]).
  pose proof (fold_iod_consistent
                (iod_candidates version table count codename_index)
                (false, zero) Hc0) as [Hc1 Hc2].
  rewrite <- Hs in Hf, Hc1, Hc2. cbn [iod_state fst snd orb] in Hf, Hc1, Hc2.
  auto.
Qed.

Lemma iod_hotspot_presence_witness :
  exists out',
    pm_table_read 0x380805 (Some (table_of_fours 12)) 12 12 smu_zero
    = Some out'
    /\ has_iod_hotspot out' = true
    /\ in_range c1 c150 (iod_hotspot_c out') = true.
Proof.
  destruct (iod_hotspot_presence 0x380805 (Some (table_of_fours 12)) 12 12
              smu_zero) as (out' & E & Hin & Hflag & _).
  exists out'. split; [exact E|].
  assert (Hset : has_iod_hotspot out' = true)
    by (rewrite Hflag; reflexivity).
  split; [exact Hset | exact (Hin Hset)].
Defined.

End PmIod.

(** *** The fixed-index pass in the generic branch *)

Section PmKnown.
Import F32 Mem PmTable Spec.

Lemma filled_head (t : list float) (s n : nat) (a : list float) :
  (s + n <= length t)%nat ->
  firstn n (filled t (Z.of_nat s) (Z.of_nat n) a) = firstn n (skipn s t).
Proof.
  intros H. unfold filled. rewrite Nat2Z.id.
  rewrite firstn_app, copied_length, Nat.sub_diag, firstn_O, app_nil_r.
  rewrite firstn_all2 by (rewrite copied_length; lia).
  now apply copied_segment.
Qed.

Lemma load_inside (t : list float) (i : nat) :
  (i < length t)%nat -> nth_error t i = Some (load t (Z.of_nat i)).
Proof.
  intros H. unfold load.
  destruct (Z.ltb_spec (Z.of_nat i) 0); [lia|].
  rewrite Nat2Z.id. now apply nth_error_nth'.
Qed.

(** C9. For a codename index other than 23 the fixed Granite Ridge pass
    runs after the family-map pass.  Whenever the table is long enough the
    output holds the table values of the fixed indices: core temperatures
    317-324 with count 8, core voltages 309-316 with count 8, VID 275 and
    core clocks 325-340 with count 16, whatever the family map stored. *)
Theorem generic_branch_known_indices version t count codename_index out :
  codename_index <> 23 ->
  count <= Z.of_nat (length t) ->
  exists out',
    pm_table_read version (Some t) count codename_index out = Some out'
    /\ (4 <= count ->
        exists m1,
          family_pass (get_family_map version) t count smu_zero = Some m1
          /\ read_known_indices t count m1 = Some out')
    /\ (324 < count ->
        core_temps_count out' = 8
        /\ firstn 8 (core_temps_c out') = firstn 8 (skipn 317 t))
    /\ (316 < count ->
        core_voltages_count out' = 8
        /\ firstn 8 (core_voltages out') = firstn 8 (skipn 309 t))
    /\ (275 < count -> nth_error t 275 = Some (vid out'))
    /\ (340 < count ->
        core_clocks_count out' = 16
        /\ core_clocks_ghz out' = firstn 16 (skipn 325 t)).
Proof.
  intros H23 Hlen.
  destruct (Z.lt_ge_cases count 4) as [Hc|Hc].
  { exists smu_zero. split; [apply pm_table_read_short; now right|].
    repeat split; intros; lia. }
  rewrite pm_table_read_generic by assumption.
  destruct (pm_table_generic_effect t count (get_family_map version)
              smu_zero smu_zero_arrays_ok)
    as (m1 & m' & E1 & E2 & -> & P1 & P2).
  exists m'. split; [reflexivity|].
  split; [intros _; exists m1; auto|].
  destruct P1 as ((Ht1 & Hv1 & Hk1 & _) & _).
  destruct P2 as ((Ht & Hv & Hk & _) & Etc & Et & Ecc & Ek & Evc & Ev
                  & Evid & _).
  rewrite Etc, Et, Ecc, Ek, Evc, Ev, Evid.
  split; [|split; [|split]].
  - intros H. destruct (Z.ltb_spec 324 count); [|lia].
    split; [reflexivity|].
    apply (filled_head t 317 8). lia.
  - intros H. destruct (Z.ltb_spec 316 count); [|lia].
    split; [reflexivity|].
    apply (filled_head t 309 8). lia.
  - intros H. destruct (Z.ltb_spec 275 count); [|lia].
    apply (load_inside t 275). lia.
  - intros H. destruct (Z.ltb_spec 340 count); [|lia].
    split; [reflexivity|].
    rewrite <- (filled_head t 325 16 (core_clocks_ghz m1)) by lia.
    symmetry. apply firstn_all2.
    rewrite filled_length; rewrite Hk1; cbn; lia.
Qed.

Lemma generic_branch_known_indices_witness :
  exists out',
    pm_table_read 0x380805 (Some (table_of_indices 400)) 400 12 smu_zero
    = Some out'
    /\ core_temps_count out' = 8
    /\ firstn 8 (core_temps_c out')
       = firstn 8 (skipn 317 (table_of_indices 400))
    /\ nth_error (table_of_indices 400) 275 = Some (vid out')
    /\ core_clocks_count out' = 16.
Proof.
  destruct (generic_branch_known_indices 0x380805 (table_of_indices 400)
              400 12 smu_zero)
    as (out' & E & _ & Ht & _ & Hvid & Hk).
  - discriminate.
  - vm_compute. discriminate.
  - exists out'. split; [exact E|].
    destruct Ht as [Htc Hte]; [reflexivity|].
    destruct Hk as [Hkc _]; [reflexivity|].
    split; [exact Htc|]. split; [exact Hte|].
    split; [apply Hvid; reflexivity | exact Hkc].
Defined.

End PmKnown.

(** *** The order of binary32 values *)

Section FloatOrder.
Import F32.

Ltac cmp_cases :=
  repeat match goal with
         | H : context [Z.compare ?a ?b] |- _ =>
             destruct (Z.compare_spec a b); subst
         | |- context [Z.compare ?a ?b] =>
             destruct (Z.compare_spec a b); subst
         | H : context [Pos.compare_cont Eq ?a ?b] |- _ =>
             change (Pos.compare_cont Eq a b) with (Pos.compare a b) in *;
             destruct (Pos.compare_spec a b); subst
         | |- context [Pos.compare_cont Eq ?a ?b] =>
             change (Pos.compare_cont Eq a b) with (Pos.compare a b) in *;
             destruct (Pos.compare_spec a b); subst
         end;
  cbn in *; try discriminate; try reflexivity; try lia.

Lemma lt_not_nan a b : lt a b = true -> a <> S754_nan /\ b <> S754_nan.
Proof.
  unfold lt, SFltb. destruct a, b; cbn; intros H; try discriminate H;
    split; discriminate.
Qed.

Lemma lt_trans a b c : lt a b = true -> lt b c = true -> lt a c = true.
Proof.
  unfold lt, SFltb, SFcompare.
  destruct a as [[]|[]| |[] ma ea], b as [[]|[]| |[] mb eb],
           c as [[]|[]| |[] mc ec];
    intros H1 H2; try discriminate H1; try discriminate H2;
    try reflexivity; cmp_cases.
Qed.

(** An ordered value [b] lies on one side of every strict comparison. *)
Lemma lt_split a b c :
  b <> S754_nan -> lt a c = true -> lt a b = true \/ lt b c = true.
Proof.
  unfold lt, SFltb, SFcompare.
  destruct a as [[]|[]| |[] ma ea], b as [[]|[]| |[] mb eb],
           c as [[]|[]| |[] mc ec];
    intros Hb H; try discriminate H; try (now left); try (now right);
    try (exfalso; apply Hb; reflexivity);
    cmp_cases; try (now left); try (now right).
Qed.

End FloatOrder.

(** *** The maximum loop *)

Section MaxLoop.
Import F32 PmTable.

Variable a : list float.

Lemma max_from_source k :
  forall (i : nat) acc,
    max_from k (Z.of_nat i) a acc = acc
    \/ exists j, (i <= j < i + k)%nat
                 /\ max_from k (Z.of_nat i) a acc = load a (Z.of_nat j).
Proof.
  induction k as [|k IH]; intros i acc; [now left|].
  cbn [max_from]. replace (Z.of_nat i + 1) with (Z.of_nat (S i)) by lia.
  destruct (IH (S i)
              (if gt (load a (Z.of_nat i)) acc then load a (Z.of_nat i)
               else acc)) as [E|(j & Hj & E)].
  - rewrite E. destruct (gt (load a (Z.of_nat i)) acc); [|now left].
    right. exists i. split; [lia | reflexivity].
  - right. exists j. split; [lia | exact E].
Qed.

Lemma max_from_bounds k :
  forall (i : nat) acc,
    acc <> S754_nan ->
    let r := max_from k (Z.of_nat i) a acc in
    r <> S754_nan
    /\ lt r acc = false
    /\ forall j, (i <= j < i + k)%nat -> gt (load a (Z.of_nat j)) r = false.
Proof.
  induction k as [|k IH]; intros i acc Hacc; cbn zeta.
  - cbn [max_from]. split; [exact Hacc|]. split; [|intros j Hj; lia].
    unfold lt. destruct (SFltb acc acc) eqn:E; [|reflexivity].
    exfalso. destruct acc as [[]|[]| |[] m e]; cbn in E; try discriminate E;
      try (now apply Hacc);
      rewrite Z.compare_refl in E;
      change (Pos.compare_cont Eq m m) with (Pos.compare m m) in E;
      rewrite Pos.compare_refl in E; discriminate E.
  - cbn [max_from]. replace (Z.of_nat i + 1) with (Z.of_nat (S i)) by lia.
    set (x := load a (Z.of_nat i)).
    destruct (gt x acc) eqn:Hx.
    + (* the maximum moves to [x] *)
      unfold gt in Hx. destruct (lt_not_nan _ _ Hx) as [_ Hxn].
      destruct (IH (S i) x Hxn) as (Hr & Hlow & Hup).
      split; [exact Hr|]. split.
      * unfold lt in *.
        destruct (SFltb (max_from k (Z.of_nat (S i)) a x) acc) eqn:E;
          [|reflexivity].
        pose proof (lt_trans _ _ _ E Hx) as E'. unfold lt in E'.
        rewrite E' in Hlow. discriminate Hlow.
      * intros j Hj. destruct (Nat.eq_dec j i) as [->|Hne].
        -- exact Hlow.
        -- apply Hup. lia.
    + (* the maximum stays *)
      destruct (IH (S i) acc Hacc) as (Hr & Hlow & Hup).
      split; [exact Hr|]. split; [exact Hlow|].
      intros j Hj. destruct (Nat.eq_dec j i) as [->|Hne].
      * fold x. unfold gt, lt in *.
        destruct (SFltb (max_from k (Z.of_nat (S i)) a acc) x) eqn:E;
          [|reflexivity].
        destruct (lt_split _ acc _ Hacc E) as [E'|E']; unfold lt in E'.
        -- rewrite E' in Hlow. discriminate Hlow.
        -- rewrite E' in Hx. discriminate Hx.
      * apply Hup. lia.
Qed.

End MaxLoop.

(** *** The derived core clock *)

Section PmCoreClock.
Import F32 Mem PmTable Spec.

(** [max_core_clock] is an upper bound of the valid per-core clocks, and is
    one of them unless it is the initial 0. *)
Lemma max_core_clock_is_max m :
  (forall i, 0 <= i < core_clocks_count m ->
             gt (load (core_clocks_ghz m) i) (max_core_clock m) = false)
  /\ (max_core_clock m = zero
      \/ exists i, 0 <= i < core_clocks_count m
                   /\ max_core_clock m = load (core_clocks_ghz m) i).
Proof.
  unfold max_core_clock. change 0 with (Z.of_nat 0) at 3 5.
  split.
  - intros i Hi.
    assert (Hz : zero <> S754_nan) by discriminate.
    destruct (max_from_bounds (core_clocks_ghz m)
                (Z.to_nat (core_clocks_count m)) 0 zero Hz) as (_ & _ & H).
    specialize (H (Z.to_nat i)). rewrite Z2Nat.id in H by lia.
    apply H. lia.
  - destruct (max_from_source (core_clocks_ghz m)
                (Z.to_nat (core_clocks_count m)) 0 zero)
      as [E|(j & Hj & E)]; [now left|].
    right. exists (Z.of_nat j). split; [lia | exact E].
Qed.

(** The branch of codename index 23 does what C4 says, whatever the
    version: the per-core clock array is available exactly when the table
    has more than 340 elements; [core_clock_mhz] is then 1000 times the
    maximum of the per-core clocks if that maximum lies in [0.5, 6.5], and
    stays 0 otherwise; without the array it stays 0. *)
Theorem core_clock_derived_for_granite version table count out :
  exists out',
    pm_table_read version table count 23 out = Some out'
    /\ (0 < core_clocks_count out'
        <-> exists t, table = Some t /\ 340 < count)
    /\ (0 < core_clocks_count out' ->
        let max_ghz := max_core_clock out' in
        (in_range c0_5 c6_5 max_ghz = true ->
           core_clock_mhz out' = mul max_ghz c1000)
        /\ (in_range c0_5 c6_5 max_ghz = false ->
           core_clock_mhz out' = zero)
        /\ (forall i, 0 <= i < core_clocks_count out' ->
              gt (load (core_clocks_ghz out') i) max_ghz = false)
        /\ (max_ghz = zero
            \/ exists i, 0 <= i < core_clocks_count out'
                         /\ max_ghz = load (core_clocks_ghz out') i))
    /\ (core_clocks_count out' <= 0 -> core_clock_mhz out' = zero).
Proof.
  assert (Hzero : forall t c, (t = None \/ c < 4) ->
            exists out',
              pm_table_read version t c 23 out = Some out'
              /\ core_clocks_count out' = 0 /\ core_clock_mhz out' = zero).
  { intros t c H. exists smu_zero.
    split; [now apply pm_table_read_short | split; reflexivity]. }
  destruct table as [t|].
  2:{ destruct (Hzero None count) as (o & E & Hc & Hm); [now left|].
      exists o. split; [exact E|]. rewrite Hc.
      split; [split; [lia | intros (t & Ht & _); discriminate Ht]|].
      split; [lia | intros _; exact Hm]. }
  destruct (Z.lt_ge_cases count 4) as [Hlt|Hge].
  { destruct (Hzero (Some t) count) as (o & E & Hc & Hm); [now right|].
    exists o. split; [exact E|]. rewrite Hc.
    split; [split; [lia | intros (t' & _ & Ht); lia]|].
    split; [lia | intros _; exact Hm]. }
  rewrite pm_table_read_granite by assumption.
  destruct (pm_table_granite_effect t count smu_zero smu_zero_arrays_ok)
    as (m1 & _ & P & ->).
  destruct P as (_ & _ & _ & Ecc & _ & _ & _ & _ & _ & _ & _ & Eclk).
  revert Ecc Eclk. frames. intros Ecc Eclk.
  eexists. split; [reflexivity|].
  set (m2 := set_package_current_a _ (set_package_power_w _ m1)).
  assert (Hc2 : core_clocks_count m2 = core_clocks_count m1)
    by reflexivity.
  assert (Hk2 : core_clock_mhz m2 = zero) by exact Eclk.
  assert (Hmax : max_core_clock (derive_cpu_temp t count
                                   (derive_core_clock m2))
                 = max_core_clock m2)
    by (unfold max_core_clock; frames; reflexivity).
  rewrite Hmax. frames. fold m2. rewrite Hc2, Ecc.
  assert (Hd : core_clock_mhz (derive_core_clock m2)
               = if 0 <? core_clocks_count m2
                 then if in_range c0_5 c6_5 (max_core_clock m2)
                      then mul (max_core_clock m2) c1000 else zero
                 else zero).
  { unfold derive_core_clock, in_range. cbv zeta.
    destruct (0 <? core_clocks_count m2); [|exact Hk2].
    destruct (ge _ _ && le _ _); [reflexivity | exact Hk2]. }
  rewrite Hd, Hc2, Ecc.
  destruct (max_core_clock_is_max m2) as [Hub Hsrc].
  rewrite Hc2, Ecc in Hub, Hsrc.
  destruct (Z.ltb_spec 340 count) as [H340|H340]; cbn [Z.ltb Z.compare].
  - split; [split; [intros _; exists t; auto | lia]|].
    split; [|lia]. intros _. cbv zeta.
    split; [intros ->; reflexivity|].
    split; [intros ->; reflexivity|].
    split; [exact Hub | exact Hsrc].
  - split; [split; [lia | intros (t' & _ & Ht); lia]|].
    split; [lia | reflexivity].
Qed.

Lemma core_clock_derived_for_granite_witness :
  exists out',
    pm_table_read 0 (Some (table_of_fours 341)) 341 23 smu_zero = Some out'
    /\ core_clock_mhz out' = of_Z 4000.
Proof.
  destruct (core_clock_derived_for_granite 0 (Some (table_of_fours 341))
              341 smu_zero) as (out' & E & Hav & Hmain & _).
  exists out'. split; [exact E|].
  assert (Hpos : 0 < core_clocks_count out').
  { apply Hav. exists (table_of_fours 341). split; reflexivity. }
  destruct (Hmain Hpos) as (Hin & _).
  assert (X : exists o,
             pm_table_read 0 (Some (table_of_fours 341)) 341 23 smu_zero
             = Some o
             /\ in_range c0_5 c6_5 (max_core_clock o) = true
             /\ mul (max_core_clock o) c1000 = of_Z 4000).
  { eexists. split; [vm_compute; reflexivity|].
    split; vm_compute; reflexivity. }
  destruct X as (o & Eo & Hr & Hv).
  rewrite E in Eo. injection Eo as <-.
  rewrite (Hin Hr). exact Hv.
Defined.

(** So C4 as stated fails for the other codename indices: the generic
    branch fills the per-core clocks from a table of 341 floats but never
    derives [core_clock_mhz]. *)
Lemma core_clock_not_derived_elsewhere :
  ~ (forall version table count codename_index out out',
        pm_table_read version table count codename_index out = Some out' ->
        0 < core_clocks_count out' ->
        in_range c0_5 c6_5 (max_core_clock out') = true ->
        core_clock_mhz out' = mul (max_core_clock out') c1000).
Proof.
  intros H.
  assert (X : exists o,
             pm_table_read 0x380805 (Some (table_of_fours 341)) 341 12
               smu_zero = Some o
             /\ core_clocks_count o = 16
             /\ in_range c0_5 c6_5 (max_core_clock o) = true
             /\ core_clock_mhz o = zero
             /\ mul (max_core_clock o) c1000 = of_Z 4000).
  { eexists. split; [vm_compute; reflexivity|].
    repeat split; vm_compute; reflexivity. }
  destruct X as (o & E & Hc & Hr & Hz & Hm).
  specialize (H _ _ _ _ _ _ E). rewrite Hc, Hz, Hm in H.
  specialize (H eq_refl Hr). discriminate H.
Qed.

(** C4. The generic branch, which its comment announces as "fallback
    heuristics for power/temp/clock", never assigns [core_clock_mhz]: for
    every codename index other than 23 the field is the 0 of [memset],
    also when the fixed-index pass has filled the per-core clocks.  For
    version 0x380805, codename index 12 and a table of 341 floats 4.0 the
    result has 16 per-core clocks with maximum 4.0, within [0.5, 6.5], and
    [core_clock_mhz] 0, where C4 asks for 4000; the same table with
    codename index 23 gives 4000. *)
Theorem core_clock_missing_in_generic_branch :
  (forall version table count codename_index out,
      codename_index <> 23 ->
      exists out',
        pm_table_read version table count codename_index out = Some out'
        /\ core_clock_mhz out' = zero)
  /\ (exists o,
        pm_table_read 0x380805 (Some (table_of_fours 341)) 341 12 smu_zero
        = Some o
        /\ core_clocks_count o = 16
        /\ max_core_clock o = of_Z 4
        /\ in_range c0_5 c6_5 (max_core_clock o) = true
        /\ mul (max_core_clock o) c1000 = of_Z 4000
        /\ core_clock_mhz o = zero)
  /\ (exists o,
        pm_table_read 0x380805 (Some (table_of_fours 341)) 341 23 smu_zero
        = Some o
        /\ core_clock_mhz o = of_Z 4000).
Proof.
  split; [|split].
  - intros version table count codename_index out H23.
    destruct table as [t|];
      [|exists smu_zero; split; [now apply pm_table_read_short; left
                                | reflexivity]].
    destruct (Z.lt_ge_cases count 4) as [Hc|Hc];
      [exists smu_zero; split; [now apply pm_table_read_short; right
                               | reflexivity]|].
    rewrite pm_table_read_generic by assumption.
    destruct (pm_table_generic_effect t count (get_family_map version)
                smu_zero smu_zero_arrays_ok)
      as (m1 & m' & _ & _ & E & P1 & P2).
    exists m'. split; [exact E|].
    destruct P1 as (_ & _ & _ & _ & _ & _ & _ & _ & _ & _ & _ & K1).
    destruct P2 as (_ & _ & _ & _ & _ & _ & _ & _ & _ & _ & _ & K2).
    rewrite K2, K1. reflexivity.
  - eexists. split; [vm_compute; reflexivity|].
    repeat split; vm_compute; reflexivity.
  - eexists. split; [vm_compute; reflexivity|].
    vm_compute; reflexivity.
Qed.

End PmCoreClock.

(** *** [aod_voltages.c]: the AML scan *)

Section AodFacts.
Import Aod Spec.

(** The tag byte decides the outcome at an index where the signature
    matches. *)
Lemma scan_at_match aml i :
  memcmp_eq aml i aode_pattern = true ->
  let enc := nth (Z.to_nat (i + pattern_len)) aml x00 in
  (enc = x0c -> scan_at aml i = Some (read_le aml (i + pattern_len + 1) 4))
  /\ (enc = x0e ->
      scan_at aml i = Some (read_le aml (i + pattern_len + 1) 8))
  /\ (enc <> x0c -> enc <> x0e -> scan_at aml i = None).
Proof.
  intros Hm enc. unfold scan_at. fold enc. rewrite Hm. cbn [negb].
  split; [|split].
  - intros ->. reflexivity.
  - intros ->. reflexivity.
  - intros H1 H2.
    destruct (Byte.eqb enc x0c) eqn:E1;
      [apply Byte.byte_dec_bl in E1; contradiction|].
    destruct (Byte.eqb enc x0e) eqn:E2;
      [apply Byte.byte_dec_bl in E2; contradiction|].
    reflexivity.
Qed.

(** Indices that the body rejects are passed over. *)
Lemma scan_from_skip aml (j : nat) :
  forall (k : nat) i,
    (j <= k)%nat ->
    (forall j', (j' < j)%nat -> scan_at aml (i + Z.of_nat j') = None) ->
    scan_from k i aml = scan_from (k - j) (i + Z.of_nat j) aml.
Proof.
  induction j as [|j IH]; intros k i Hk Hnone.
  - now rewrite Nat.sub_0_r, Z.add_0_r.
  - destruct k as [|k]; [lia|]. cbn [scan_from].
    generalize (Hnone 0%nat ltac:(lia)). rewrite Z.add_0_r. intros ->.
    rewrite (IH k (i + 1)) by
      (try lia; intros j' Hj';
       replace (i + 1 + Z.of_nat j') with (i + Z.of_nat (S j')) by lia;
       apply Hnone; lia).
    cbn [Nat.sub]. f_equal. lia.
Qed.

(** The scan reaches every index below [aml_len - 17] that no earlier index
    has answered. *)
Lemma scan_aml_reaches aml i :
  0 <= i -> i + pattern_len + 10 < Z.of_nat (length aml) ->
  (forall j, 0 <= j < i -> scan_at aml j = None) ->
  scan_aml aml
  = match scan_at aml i with
    | Some addr => Some addr
    | None =>
        scan_from
          (Z.to_nat (Z.of_nat (length aml) - pattern_len - 10 - (i + 1)))
          (i + 1) aml
    end.
Proof.
  intros Hi Hlen Hnone. unfold scan_aml.
  rewrite (scan_from_skip aml (Z.to_nat i)).
  - rewrite Z2Nat.id, Z.add_0_l by lia.
    replace (Z.to_nat (Z.of_nat (length aml) - pattern_len - 10)
             - Z.to_nat i)%nat
      with (S (Z.to_nat (Z.of_nat (length aml) - pattern_len - 10
                         - (i + 1)))) by lia.
    reflexivity.
  - lia.
  - intros j' Hj'. rewrite Z.add_0_l. apply Hnone. lia.
Qed.

(** C8 (amended). At every index [i] with [i + 17 < aml_len] where the
    7-byte signature matches and before which the scan has returned
    nothing, the byte after the signature decides: tag 0x0C returns the
    address of the next 4 little-endian bytes, tag 0x0E that of the next 8,
    and any other tag makes the scan go on with index [i + 1].  A buffer
    that starts with the signature, tag 0x0C and bytes 00 10 00 00 and is
    at least 18 bytes long yields address 0x1000; the region size is the
    constant 0x24BB. *)
Theorem aode_scan_operand aml i :
  0 <= i -> i + pattern_len + 10 < Z.of_nat (length aml) ->
  memcmp_eq aml i aode_pattern = true ->
  (forall j, 0 <= j < i -> scan_at aml j = None) ->
  let enc := nth (Z.to_nat (i + pattern_len)) aml x00 in
  let operand := i + pattern_len + 1 in
  (enc = x0c ->
     scan_aml aml = Some (read_le aml operand 4)
     /\ forall rest,
         find_aod_phys (aod_table aml :: rest) = read_le aml operand 4)
  /\ (enc = x0e ->
     scan_aml aml = Some (read_le aml operand 8)
     /\ forall rest,
         find_aod_phys (aod_table aml :: rest) = read_le aml operand 8)
  /\ (enc <> x0c -> enc <> x0e ->
      scan_at aml i = None
      /\ scan_aml aml
         = scan_from
             (Z.to_nat (Z.of_nat (length aml) - pattern_len - 10 - (i + 1)))
             (i + 1) aml)
  /\ (forall pad,
         (6 <= length pad)%nat ->
         find_aod_phys [aod_table (aode_dword_1000 ++ pad)] = 0x1000)
  /\ AOD_REGION_SIZE = 0x24BB.
Proof.
  intros Hi Hlen Hm Hnone enc operand.
  pose proof (scan_aml_reaches aml i Hi Hlen Hnone) as Hscan.
  destruct (scan_at_match aml i Hm) as (H4 & H8 & Hother).
  fold enc in H4, H8, Hother. fold operand in H4, H8.
  split; [|split; [|split; [|split]]].
  - intros E. rewrite (H4 E) in Hscan. split; [exact Hscan|].
    intros rest. cbn [find_aod_phys aod_table oem_table_id Aod.aml].
    now rewrite Hscan.
  - intros E. rewrite (H8 E) in Hscan. split; [exact Hscan|].
    intros rest. cbn [find_aod_phys aod_table oem_table_id Aod.aml].
    now rewrite Hscan.
  - intros E1 E2. rewrite (Hother E1 E2) in Hscan.
    split; [now apply Hother | exact Hscan].
  - intros pad Hpad.
    assert (Hl : 0 + pattern_len + 10
                 < Z.of_nat (length (aode_dword_1000 ++ pad))).
    { rewrite length_app. cbn. lia. }
    assert (Hn : forall j, 0 <= j < 0 ->
                           scan_at (aode_dword_1000 ++ pad) j = None)
      by (intros j Hj; lia).
    cbn [find_aod_phys aod_table oem_table_id Aod.aml].
    rewrite (scan_aml_reaches _ 0 (Z.le_refl 0) Hl Hn).
    reflexivity.
  - reflexivity.
Qed.

Lemma aode_scan_operand_witness :
  find_aod_phys
    [aod_table ([x10; x5b] ++ aode_dword_1000 ++ repeat x00 8)] = 0x1000
  /\ find_aod_phys [aod_table (aode_dword_1000 ++ repeat xff 6)] = 0x1000.
Proof.
  set (aml := [x10; x5b] ++ aode_dword_1000 ++ repeat x00 8).
  assert (Hnone : forall j, 0 <= j < 2 -> scan_at aml j = None).
  { intros j Hj.
    assert (E : j = 0 \/ j = 1) by lia.
    destruct E as [-> | ->]; reflexivity. }
  destruct (aode_scan_operand aml 2) as (H4 & _ & _ & Hex & _);
    [lia | cbn; lia | reflexivity | exact Hnone |].
  split.
  - destruct H4 as [_ Hfind]; [reflexivity|].
    rewrite (Hfind []). reflexivity.
  - apply Hex. cbn. lia.
Defined.

(** C8 as stated fails at a signature that sits in the last 17 bytes of
    the buffer: the 12-byte buffer made of the signature, tag 0x0C and
    bytes 00 10 00 00 is not scanned at all, and the result is "not
    found". *)
Lemma aode_scan_misses_tail :
  ~ (forall aml i,
        0 <= i ->
        i + pattern_len + 5 <= Z.of_nat (length aml) ->
        memcmp_eq aml i aode_pattern = true ->
        nth (Z.to_nat (i + pattern_len)) aml x00 = x0c ->
        find_aod_phys [aod_table aml]
        = read_le aml (i + pattern_len + 1) 4).
Proof.
  intros H.
  specialize (H aode_dword_1000 0).
  assert (E : find_aod_phys [aod_table aode_dword_1000] = 0)
    by reflexivity.
  assert (A : read_le aode_dword_1000 (0 + pattern_len + 1) 4 = 0x1000)
    by reflexivity.
  rewrite E, A in H.
  assert (X : 0 = 0x1000); [|discriminate X].
  apply H; [lia | cbn; lia | reflexivity | reflexivity].
Qed.

End AodFacts.

(** * Further properties *)

(** *** [bit_slice]: range and composition *)

Section BitSliceMore.
Import Util.

(** A slice of [width] bits is below [2^width], whatever the word. *)
Lemma bit_slice_range val hi lo :
  0 <= lo <= hi -> hi <= 31 ->
  0 <= bit_slice val hi lo < 2 ^ (hi - lo + 1).
Proof.
  intros Hlo Hhi. rewrite bit_slice_div_mod by assumption.
  apply Z.mod_pos_bound. apply Z.pow_pos_nonneg; lia.
Qed.

(** X1. Two adjacent slices make up the slice of their union: for
    [lo <= mid < hi <= 31], the slice [hi..lo] is the slice [hi..mid+1]
    shifted left by the width of the slice [mid..lo], plus that slice. *)
Theorem bit_slice_adjacent val hi mid lo :
  0 <= lo <= mid -> mid < hi -> hi <= 31 ->
  bit_slice val hi lo
  = bit_slice val hi (mid + 1) * 2 ^ (mid + 1 - lo) + bit_slice val mid lo.
Proof.
  intros Hlo Hmid Hhi.
  rewrite !bit_slice_div_mod by lia.
  replace (hi - lo + 1) with ((mid + 1 - lo) + (hi - (mid + 1) + 1)) by lia.
  replace (mid - lo + 1) with (mid + 1 - lo) by lia.
  set (a := mid + 1 - lo). set (b := hi - (mid + 1) + 1).
  assert (Ha : 0 < 2 ^ a) by (apply Z.pow_pos_nonneg; lia).
  assert (Hb : 0 < 2 ^ b) by (apply Z.pow_pos_nonneg; unfold b; lia).
  rewrite Z.pow_add_r by (unfold a, b; lia).
  rewrite Z.rem_mul_r by lia.
  replace (2 ^ (mid + 1)) with (2 ^ lo * 2 ^ a)
    by (rewrite <- Z.pow_add_r by (unfold a; lia); f_equal; unfold a; lia).
  rewrite <- Z.div_div by (try lia; apply Z.pow_pos_nonneg; lia).
  lia.
Qed.

(** A one-bit slice is the bit. *)
Lemma bit_slice_bit val n :
  0 <= n <= 31 -> bit_slice val n n = Z.b2z (Z.testbit val n).
Proof.
  intros H. rewrite bit_slice_div_mod by lia.
  replace (n - n + 1) with 1 by lia. rewrite Z.pow_1_r.
  now rewrite Z.testbit_spec' by lia.
Qed.

Lemma bit_slice_zero hi lo : bit_slice 0 hi lo = 0.
Proof.
  unfold bit_slice. cbv zeta. destruct (_ || _); [reflexivity|].
  now rewrite Z.shiftr_0_l, Z.land_0_l.
Qed.

End BitSliceMore.

Lemma bit_slice_adjacent_witness :
  Util.bit_slice 0xABCD1234 31 0
  = Util.bit_slice 0xABCD1234 31 16 * 2 ^ 16 + Util.bit_slice 0xABCD1234 15 0.
Proof. apply (bit_slice_adjacent 0xABCD1234 31 15 0); lia. Defined.

(** *** [dram.c]: the two decoders, block by block *)

Ltac dram_fields :=
  cbn [Dram.tcl Dram.trcd_rd Dram.trcd_wr Dram.trp Dram.tras Dram.trc
       Dram.trrds Dram.trrdl Dram.tfaw Dram.twr Dram.tcwl Dram.rtp Dram.wtrs
       Dram.wtrl Dram.rdwr Dram.wrrd Dram.rdrd_scl Dram.wrwr_scl Dram.rdrd_sc
       Dram.rdrd_sd Dram.rdrd_dd Dram.wrwr_sc Dram.wrwr_sd Dram.wrwr_dd
       Dram.refi Dram.wrpre Dram.rdpre Dram.trc_page Dram.mod_ Dram.mod_pda
       Dram.mrd Dram.mrd_pda Dram.stag Dram.stag_sb Dram.cke Dram.xp
       Dram.phy_wrd Dram.phy_wrl Dram.phy_rdl Dram.phy_rdl_per_channel
       Dram.phy_rdl_channel_count Dram.rfc Dram.rfc2 Dram.rfcsb Dram.trefi_ns
       Dram.trfc_ns Dram.trfc2_ns Dram.trfcsb_ns Dram.gdm_enabled
       Dram.power_down_enabled Dram.cmd2t Dram.frequency_hint_mhz
       Dram.set_rfc Dram.set_rfc2 Dram.set_rfcsb Dram.set_trefi_ns
       Dram.set_trfc_ns Dram.set_trfc2_ns Dram.set_trfcsb_ns
       Dram.set_gdm_enabled Dram.set_power_down_enabled Dram.set_cmd2t
       Dram.set_frequency_hint_mhz Dram.dram_zero].

Section DramPaths.
Import Util F32 Dram DramBlocks.

Variable read_smn : Z -> Z.

(** [read_ddr5_timings] is the composition of its blocks. *)
Lemma read_ddr5_timings_blocks d :
  read_ddr5_timings read_smn d
  = ddr5_ns read_smn
      (ddr5_rfcsb read_smn
         (ddr5_rfc read_smn
            (read_common_timings read_smn 0 (ddr5_mode read_smn d)))).
Proof.
  unfold read_ddr5_timings, ddr5_ns, ddr5_rfcsb, ddr5_rfc, ddr5_mode,
    ddr5_mem_freq, ddr5_trfc_regs, ddr5_rfcsb_regs.
  reflexivity.
Qed.

Lemma read_ddr4_timings_blocks d :
  read_ddr4_timings read_smn d
  = ddr4_reset (ddr4_rfc read_smn (read_common_timings read_smn 0 d)).
Proof.
  unfold read_ddr4_timings, ddr4_reset, ddr4_rfc, ddr4_trfc_reg.
  reflexivity.
Qed.

Section Frames.
Context {X : Type} (obs : dram_timings_t -> X).

Lemma ddr5_ns_frame d :
  dram_ignores obs set_trefi_ns -> dram_ignores obs set_trfc_ns ->
  dram_ignores obs set_trfc2_ns -> dram_ignores obs set_trfcsb_ns ->
  obs (ddr5_ns read_smn d) = obs d.
Proof.
  intros H1 H2 H3 H4. unfold ddr5_ns. cbv zeta.
  now rewrite H4, H3, H2, H1.
Qed.

Lemma ddr5_rfcsb_frame d :
  dram_ignores obs set_rfcsb -> obs (ddr5_rfcsb read_smn d) = obs d.
Proof.
  intros H. unfold ddr5_rfcsb. destruct (negb _); [apply H | reflexivity].
Qed.

Lemma set_rfc_pair_frame r hi1 lo1 hi2 lo2 d :
  dram_ignores obs set_rfc -> dram_ignores obs set_rfc2 ->
  obs (set_rfc_pair r hi1 lo1 hi2 lo2 d) = obs d.
Proof.
  intros H1 H2. unfold set_rfc_pair.
  destruct (negb _); [now rewrite H2, H1 | reflexivity].
Qed.

Lemma ddr5_rfc_frame d :
  dram_ignores obs set_rfc -> dram_ignores obs set_rfc2 ->
  obs (ddr5_rfc read_smn d) = obs d.
Proof. apply set_rfc_pair_frame. Qed.

Lemma ddr4_rfc_frame d :
  dram_ignores obs set_rfc -> dram_ignores obs set_rfc2 ->
  obs (ddr4_rfc read_smn d) = obs d.
Proof. apply set_rfc_pair_frame. Qed.

Lemma ddr5_mode_frame d :
  dram_ignores obs set_frequency_hint_mhz -> dram_ignores obs set_gdm_enabled ->
  dram_ignores obs set_cmd2t -> dram_ignores obs set_power_down_enabled ->
  obs (ddr5_mode read_smn d) = obs d.
Proof.
  intros H1 H2 H3 H4. unfold ddr5_mode. cbv zeta.
  now rewrite H4, H3, H2, H1.
Qed.

Lemma ddr4_reset_frame d :
  dram_ignores obs set_frequency_hint_mhz -> dram_ignores obs set_cmd2t ->
  obs (ddr4_reset d) = obs d.
Proof. intros H1 H2. unfold ddr4_reset. now rewrite H1, H2. Qed.

End Frames.

End DramPaths.

Ltac dign := solve [ intros ? ?; reflexivity ].

(** Moves an observation through the blocks that leave it alone. *)
Ltac dram_frames :=
  repeat match goal with
         | |- context [?f (DramBlocks.ddr5_ns ?r ?d)] =>
             rewrite (ddr5_ns_frame r f d) by dign
         | |- context [?f (DramBlocks.ddr5_rfcsb ?r ?d)] =>
             rewrite (ddr5_rfcsb_frame r f d) by dign
         | |- context [?f (DramBlocks.ddr5_rfc ?r ?d)] =>
             rewrite (ddr5_rfc_frame r f d) by dign
         | |- context [?f (DramBlocks.ddr4_rfc ?r ?d)] =>
             rewrite (ddr4_rfc_frame r f d) by dign
         | |- context [?f (DramBlocks.ddr5_mode ?r ?d)] =>
             rewrite (ddr5_mode_frame r f d) by dign
         | |- context [?f (DramBlocks.ddr4_reset ?d)] =>
             rewrite (ddr4_reset_frame f d) by dign
         end.

(** *** [dram.c]: what the decoded record always satisfies *)

Section DramProps.
Import Util F32 Dram DramBlocks.

Variable read_smn : Z -> Z.

(** The fields of [read_common_timings] on the two paths. *)
Lemma common_fall_backs offset d :
  let d' := read_common_timings read_smn offset d in
  (trcd_wr d' = 0 -> trcd_rd d' = 0) /\ (twr d' = 0 -> wtrs d' = 0).
Proof.
  cbv zeta. unfold read_common_timings. cbv zeta. dram_fields.
  split.
  - destruct (Z.eqb_spec (bit_slice (read_smn (Z.lor offset 328196)) 29 24) 0);
      [auto | contradiction].
  - destruct (Z.eqb_spec (bit_slice (read_smn (Z.lor offset 328216)) 7 0) 0);
      [auto | contradiction].
Qed.

(** What [read_common_timings] leaves alone. *)
Lemma common_keeps_refresh offset d :
  let d' := read_common_timings read_smn offset d in
  rfc d' = rfc d /\ rfc2 d' = rfc2 d /\ rfcsb d' = rfcsb d.
Proof. repeat split. Qed.

Lemma common_keeps_mode offset d :
  let d' := read_common_timings read_smn offset d in
  gdm_enabled d' = gdm_enabled d
  /\ power_down_enabled d' = power_down_enabled d
  /\ cmd2t d' = cmd2t d
  /\ frequency_hint_mhz d' = frequency_hint_mhz d.
Proof. repeat split. Qed.

Lemma common_keeps_ns offset d :
  let d' := read_common_timings read_smn offset d in
  trefi_ns d' = trefi_ns d /\ trfc_ns d' = trfc_ns d
  /\ trfc2_ns d' = trfc2_ns d /\ trfcsb_ns d' = trfcsb_ns d.
Proof. repeat split. Qed.

Lemma bit_slice_below_2_16 val hi lo :
  0 <= lo <= hi -> hi <= 31 -> hi - lo < 16 ->
  0 <= bit_slice val hi lo < 2 ^ 16.
Proof.
  intros Hlo Hhi Hw.
  pose proof (bit_slice_range val hi lo Hlo Hhi) as H.
  assert (2 ^ (hi - lo + 1) <= 2 ^ 16) by (apply Z.pow_le_mono_r; lia).
  lia.
Qed.

Ltac split_words H :=
  unfold words_fit, Spec.dram_words in H;
  repeat match type of H with
         | Forall _ (_ :: _) =>
             let H' := fresh in
             inversion H as [|? ? ? H']; subst; clear H; rename H' into H
         end.

Ltac field_bound :=
  repeat match goal with
         | |- context [if ?c then _ else _] => destruct c
         end;
  first [ apply bit_slice_below_2_16; lia | lia ].

Ltac rebuild_words :=
  unfold words_fit, Spec.dram_words; dram_fields;
  repeat (apply Forall_cons; [first [assumption | field_bound]|]);
  constructor.

Lemma read_common_timings_fit offset d :
  words_fit d -> words_fit (read_common_timings read_smn offset d).
Proof.
  intros H. split_words H. unfold read_common_timings. cbv zeta.
  rebuild_words.
Qed.

Lemma set_rfc_fit v d :
  0 <= v < 2 ^ 16 -> words_fit d -> words_fit (set_rfc v d).
Proof. intros Hv H. split_words H. rebuild_words. Qed.

Lemma set_rfc2_fit v d :
  0 <= v < 2 ^ 16 -> words_fit d -> words_fit (set_rfc2 v d).
Proof. intros Hv H. split_words H. rebuild_words. Qed.

Lemma set_rfcsb_fit v d :
  0 <= v < 2 ^ 16 -> words_fit d -> words_fit (set_rfcsb v d).
Proof. intros Hv H. split_words H. rebuild_words. Qed.

Lemma set_rfc_pair_fit r hi1 lo1 hi2 lo2 d :
  0 <= lo1 <= hi1 -> hi1 <= 31 -> hi1 - lo1 < 16 ->
  0 <= lo2 <= hi2 -> hi2 <= 31 -> hi2 - lo2 < 16 ->
  words_fit d -> words_fit (set_rfc_pair r hi1 lo1 hi2 lo2 d).
Proof.
  intros. unfold set_rfc_pair. destruct (negb (r =? 0)); [|assumption].
  apply set_rfc2_fit; [now apply bit_slice_below_2_16|].
  apply set_rfc_fit; [now apply bit_slice_below_2_16 | assumption].
Qed.

Lemma dram_zero_fit : words_fit dram_zero.
Proof.
  unfold words_fit, Spec.dram_words. dram_fields.
  repeat (apply Forall_cons; [lia|]). constructor.
Qed.

Lemma first_other_fit skip regs :
  Forall (fun x => 0 <= x < 2 ^ 16) regs ->
  0 <= first_other skip regs < 2 ^ 16.
Proof.
  induction 1 as [|r regs Hr _ IH]; cbn [first_other]; [lia|].
  destruct (negb (r =? skip)); assumption.
Qed.

Lemma ddr5_rfcsb_fit d : words_fit d -> words_fit (ddr5_rfcsb read_smn d).
Proof.
  intros H. unfold ddr5_rfcsb. destruct (negb _); [|assumption].
  apply set_rfcsb_fit; [|assumption].
  apply first_other_fit. unfold ddr5_rfcsb_regs.
  repeat (apply Forall_cons; [apply bit_slice_below_2_16; lia|]).
  constructor.
Qed.

(** X2. Whatever the registers hold and whatever the codename index, every
    integer field of the timing record is a 16-bit value. *)
Theorem dram_fields_fit_16_bits codename_index out :
  Forall (fun x => 0 <= x < 2 ^ 16)
         (Spec.dram_words (dram_read_timings read_smn codename_index out)).
Proof.
  change (words_fit (dram_read_timings read_smn codename_index out)).
  unfold dram_read_timings. cbv zeta.
  destruct (generation_of codename_index).
  - rewrite read_ddr5_timings_blocks.
    rewrite (ddr5_ns_frame read_smn words_fit) by dign.
    apply ddr5_rfcsb_fit. unfold ddr5_rfc.
    apply set_rfc_pair_fit; try lia.
    apply read_common_timings_fit.
    rewrite (ddr5_mode_frame read_smn words_fit) by dign.
    exact dram_zero_fit.
  - rewrite read_ddr4_timings_blocks.
    rewrite (ddr4_reset_frame words_fit) by dign.
    unfold ddr4_rfc. apply set_rfc_pair_fit; try lia.
    apply read_common_timings_fit. exact dram_zero_fit.
  - exact dram_zero_fit.
Qed.

(** X3. After [dram_read_timings], a zero [trcd_wr] means that [trcd_rd] is
    zero too, and a zero [twr] that [wtrs] is zero: the fall-backs fill a
    missing field whenever the related field is there. *)
Theorem fall_backs_fill_missing_fields codename_index out :
  let d := dram_read_timings read_smn codename_index out in
  (trcd_wr d = 0 -> trcd_rd d = 0) /\ (twr d = 0 -> wtrs d = 0).
Proof.
  cbv zeta. unfold dram_read_timings. cbv zeta.
  destruct (generation_of codename_index).
  - rewrite read_ddr5_timings_blocks. dram_frames. apply common_fall_backs.
  - rewrite read_ddr4_timings_blocks. dram_frames. apply common_fall_backs.
  - split; reflexivity.
Qed.

Lemma first_other_first_not skip regs :
  first_not skip regs (first_other skip regs).
Proof.
  induction regs as [|r rest IH]; cbn [first_other].
  - right. split; [constructor | reflexivity].
  - destruct (Z.eqb_spec r skip) as [E | E]; cbn [negb].
    + destruct IH as [(pre & post & Hl & Hpre & Hr) | [Hall H0]].
      * left. exists (r :: pre), post.
        split; [cbn [app]; now rewrite <- Hl|].
        split; [constructor; [now symmetry | assumption] | assumption].
      * right. split; [constructor; [now symmetry | assumption] | assumption].
    + left. exists [], rest. split; [reflexivity|]. split; [constructor | assumption].
Qed.

(** The pair of refresh fields after [set_rfc_pair] on a record whose pair
    is zero. *)
Lemma set_rfc_pair_fields r hi1 lo1 hi2 lo2 d :
  rfc d = 0 -> rfc2 d = 0 ->
  rfc (set_rfc_pair r hi1 lo1 hi2 lo2 d) = bit_slice r hi1 lo1
  /\ rfc2 (set_rfc_pair r hi1 lo1 hi2 lo2 d) = bit_slice r hi2 lo2.
Proof.
  intros H1 H2. unfold set_rfc_pair.
  destruct (Z.eqb_spec r 0) as [-> | E]; cbn [negb].
  - now rewrite !bit_slice_zero.
  - split; reflexivity.
Qed.

End DramProps.

Section DramRefresh.
Import Util F32 Dram DramBlocks.

Variable read_smn : Z -> Z.

Lemma dram_zero_refresh : rfc dram_zero = 0 /\ rfc2 dram_zero = 0.
Proof. split; reflexivity. Qed.

(** X4. On the DDR5 path the refresh pair comes from the first of the four
    registers 0x50260..0x5026C that differs from the default 0x00C00138:
    [rfc] is its bits 15..0 and [rfc2] its bits 31..16; when all four hold
    the default both stay 0.  [rfcsb] is the first non-zero 11-bit field of
    the registers 0x502C0..0x502CC, or 0. *)
Theorem ddr5_refresh_register out :
  let d := dram_read_timings read_smn 23 out in
  (exists r,
      first_not 0x00C00138
        [read_smn 0x50260; read_smn 0x50264; read_smn 0x50268;
         read_smn 0x5026C] r
      /\ rfc d = bit_slice r 15 0 /\ rfc2 d = bit_slice r 31 16)
  /\ first_not 0
       [bit_slice (read_smn 0x502C0) 10 0; bit_slice (read_smn 0x502C4) 10 0;
        bit_slice (read_smn 0x502C8) 10 0; bit_slice (read_smn 0x502CC) 10 0]
       (rfcsb d).
Proof.
  cbv zeta. unfold dram_read_timings. cbv zeta.
  change (generation_of 23) with DDR5. cbv iota.
  rewrite read_ddr5_timings_blocks. dram_frames.
  split.
  - exists (first_other 0x00C00138 (ddr5_trfc_regs read_smn)).
    split; [apply first_other_first_not|].
    unfold ddr5_rfc. apply set_rfc_pair_fields.
    + rewrite (proj1 (common_keeps_refresh read_smn 0 _)).
      now dram_frames.
    + rewrite (proj1 (proj2 (common_keeps_refresh read_smn 0 _))).
      now dram_frames.
  - unfold ddr5_rfcsb.
    fold (ddr5_rfcsb_regs read_smn).
    pose proof (first_other_first_not 0 (ddr5_rfcsb_regs read_smn)) as H.
    destruct (Z.eqb_spec (first_other 0 (ddr5_rfcsb_regs read_smn)) 0)
      as [E | E]; cbn [negb].
    + dram_frames.
      rewrite (proj2 (proj2 (common_keeps_refresh read_smn 0 _))).
      dram_frames. cbn [rfcsb dram_zero]. now rewrite E in H.
    + exact H.
Qed.

(** X5. On the DDR4 path the refresh pair comes from register 0x50260,
    unless that register holds the default 0x21060138, in which case it
    comes from register 0x50264: [rfc] is bits 10..0 and [rfc2] bits 21..11
    of the register chosen. *)
Theorem ddr4_refresh_register codename_index out :
  generation_of codename_index = DDR4 ->
  let d := dram_read_timings read_smn codename_index out in
  let r := if read_smn 0x50260 =? 0x21060138
           then read_smn 0x50264 else read_smn 0x50260 in
  rfc d = bit_slice r 10 0 /\ rfc2 d = bit_slice r 21 11.
Proof.
  intros G. cbv zeta. unfold dram_read_timings. cbv zeta. rewrite G.
  rewrite read_ddr4_timings_blocks. dram_frames.
  assert (R : ddr4_trfc_reg read_smn
              = if read_smn 0x50260 =? 0x21060138
                then read_smn 0x50264 else read_smn 0x50260).
  { unfold ddr4_trfc_reg. cbv zeta.
    change (Z.lor 0 0x50260) with 0x50260.
    change (Z.lor 0 0x50264) with 0x50264.
    destruct (Z.eqb_spec (read_smn 0x50260) (read_smn 0x50264)) as [E | E];
      destruct (Z.eqb_spec (read_smn 0x50260) 0x21060138) as [E' | E'];
      cbn [negb]; congruence. }
  rewrite <- R. unfold ddr4_rfc. apply set_rfc_pair_fields.
  - now rewrite (proj1 (common_keeps_refresh read_smn 0 _)).
  - now rewrite (proj1 (proj2 (common_keeps_refresh read_smn 0 _))).
Qed.

(** X6. On the DDR5 path the flags are single register bits: [gdm_enabled]
    is bit 18 and the command rate bit 17 of register 0x50200 ("2T" when
    set, "1T" when clear), [power_down_enabled] is bit 28 of register
    0x5012C. *)
Theorem ddr5_flags_are_register_bits out :
  let d := dram_read_timings read_smn 23 out in
  gdm_enabled d = Z.testbit (read_smn 0x50200) 18
  /\ power_down_enabled d = Z.testbit (read_smn 0x5012C) 28
  /\ c_string (cmd2t d)
     = if Z.testbit (read_smn 0x50200) 17 then [x32; x54] else [x31; x54].
Proof.
  cbv zeta. unfold dram_read_timings. cbv zeta.
  change (generation_of 23) with DDR5. cbv iota.
  rewrite read_ddr5_timings_blocks. dram_frames.
  destruct (common_keeps_mode read_smn 0 (ddr5_mode read_smn dram_zero))
    as (-> & -> & -> & _).
  unfold ddr5_mode. cbv zeta. dram_fields.
  rewrite !bit_slice_bit by lia.
  split; [|split].
  - now destruct (Z.testbit (read_smn 0x50200) 18).
  - now destruct (Z.testbit (read_smn 0x5012C) 28).
  - now destruct (Z.testbit (read_smn 0x50200) 17).
Qed.

Lemma to_nanoseconds_no_frequency cycles : to_nanoseconds cycles zero = zero.
Proof. reflexivity. Qed.

(** X7. Whatever the codename index, the four nanosecond fields of the
    result are [to_nanoseconds] of the final [refi], [rfc], [rfc2] and
    [rfcsb] at the final [frequency_hint_mhz]. *)
Theorem nanoseconds_follow_final_fields codename_index out :
  let d := dram_read_timings read_smn codename_index out in
  trefi_ns d = to_nanoseconds (refi d) (frequency_hint_mhz d)
  /\ trfc_ns d = to_nanoseconds (rfc d) (frequency_hint_mhz d)
  /\ trfc2_ns d = to_nanoseconds (rfc2 d) (frequency_hint_mhz d)
  /\ trfcsb_ns d = to_nanoseconds (rfcsb d) (frequency_hint_mhz d).
Proof.
  cbv zeta. unfold dram_read_timings. cbv zeta.
  destruct (generation_of codename_index).
  - rewrite read_ddr5_timings_blocks.
    set (d0 := ddr5_rfcsb read_smn _).
    assert (F : frequency_hint_mhz (ddr5_ns read_smn d0)
                = ddr5_mem_freq read_smn).
    { dram_frames. subst d0. dram_frames.
      rewrite (proj2 (proj2 (proj2 (common_keeps_mode read_smn 0 _)))).
      reflexivity. }
    rewrite F. repeat split.
  - rewrite read_ddr4_timings_blocks.
    set (d0 := ddr4_rfc read_smn _).
    assert (F : frequency_hint_mhz (ddr4_reset d0) = zero) by reflexivity.
    rewrite F, !to_nanoseconds_no_frequency.
    dram_frames. subst d0. dram_frames.
    destruct (common_keeps_ns read_smn 0 dram_zero) as (-> & -> & -> & ->).
    repeat split.
  - repeat split.
Qed.

End DramRefresh.

Lemma ddr4_refresh_register_witness :
  let d := Dram.dram_read_timings Spec.sample_smn 4 Dram.dram_zero in
  Dram.generation_of 4 = Dram.DDR4
  /\ Dram.rfc d = Util.bit_slice (Spec.sample_smn 0x50260) 10 0.
Proof.
  cbv zeta. split; [reflexivity|].
  exact (proj1 (ddr4_refresh_register Spec.sample_smn 4 Dram.dram_zero
                  eq_refl)).
Defined.

(** *** [dram.c] and [backend.c]: SMN accesses and the memory frequency *)

Section SmnBytes.
Import Util Smn.

Lemma u8_bits x n :
  0 <= n -> Z.testbit (u8 x) n = (n <? 8) && Z.testbit x n.
Proof.
  intros Hn. unfold u8. destruct (Z.ltb_spec n 8).
  - now rewrite Z.mod_pow2_bits_low.
  - now rewrite Z.mod_pow2_bits_high.
Qed.

Lemma u32_bits x n :
  0 <= n -> Z.testbit (u32 x) n = (n <? 32) && Z.testbit x n.
Proof.
  intros Hn. unfold u32. destruct (Z.ltb_spec n 32).
  - now rewrite Z.mod_pow2_bits_low.
  - now rewrite Z.mod_pow2_bits_high.
Qed.

(** X8. The four bytes [read_smn] writes for a 32-bit address decode, by
    the expression that [read_smn] applies to the bytes read back, to that
    address: request and reply use one byte order, and a file that answers
    with the bytes written makes [read_smn] return its argument. *)
Theorem read_smn_byte_order address :
  0 <= address < 2 ^ 32 ->
  value_of_bytes (address_bytes address) = address
  /\ read_smn (Some (fun request => Some request)) address = address.
Proof.
  intros Ha.
  assert (R : value_of_bytes (address_bytes address) = address);
    [|split; [exact R | exact R]].
  apply Z.bits_inj'. intros n Hn.
  unfold value_of_bytes, address_bytes. cbn [nth].
  rewrite !Z.lor_spec, !u32_bits by assumption.
  rewrite !Z.shiftl_spec by assumption.
  assert (Hhigh : 32 <= n -> Z.testbit address n = false).
  { intros H. apply Z.bits_above_log2; [lia|].
    destruct (Z.eq_dec address 0) as [-> | Hz]; [cbn; lia|].
    apply Z.log2_lt_pow2; [lia|].
    apply Z.lt_le_trans with (2 ^ 32); [lia|].
    apply Z.pow_le_mono_r; lia. }
  assert (C : n < 8 \/ 8 <= n < 16 \/ 16 <= n < 24 \/ 24 <= n < 32
              \/ 32 <= n) by lia.
  destruct C as [C | [C | [C | [C | C]]]];
    try (rewrite (Z.testbit_neg_r _ (n - 8)) by lia);
    try (rewrite (Z.testbit_neg_r _ (n - 16)) by lia);
    try (rewrite (Z.testbit_neg_r _ (n - 24)) by lia);
    repeat first [ rewrite u32_bits by lia | rewrite u8_bits by lia
                 | rewrite Z.shiftr_spec by lia ];
    repeat match goal with
           | |- context [?a <? ?b] => destruct (Z.ltb_spec a b); try lia
           end;
    cbn [andb orb]; rewrite ?orb_false_r;
    try (symmetry; apply Hhigh; lia);
    f_equal; lia.
Qed.

End SmnBytes.

Lemma read_smn_byte_order_witness :
  Smn.value_of_bytes (Smn.address_bytes 0x5012C) = 0x5012C.
Proof. apply (proj1 (read_smn_byte_order 0x5012C ltac:(lia))). Defined.

Section BackendMemory.
Import Util F32 Dram PmTable Backend.

Variable read_smn : Z -> Z.

(** X9. The memory frequency of [backend_read_summary]: for codename
    index 23 it is the DDR5 frequency of the ratio register, whatever the
    PM table says; for the DDR4 indices it is [mclk_mhz] of the metrics when
    that is positive and 0 otherwise; for every other index it is 0. *)
Theorem memory_frequency_by_generation codename_idx metrics :
  let f := backend_memory_frequency read_smn codename_idx metrics in
  match generation_of codename_idx with
  | DDR5 => f = mul (div (of_Z (bit_slice (read_smn 0x50200) 15 0)) c100) c200
  | DDR4 => f = if gt (mclk_mhz metrics) zero then mclk_mhz metrics else zero
  | Unsupported => f = zero
  end.
Proof.
  cbv zeta. unfold backend_memory_frequency, summary_memory_frequency.
  cbv zeta. unfold dram_read_timings, mem_type_for_codename, generation_of.
  cbv zeta.
  destruct (codename_idx =? 23).
  - cbn [is_ddr4 andb]. rewrite andb_false_r.
    rewrite read_ddr5_timings_blocks. dram_frames.
    rewrite (proj2 (proj2 (proj2 (common_keeps_mode read_smn 0 _)))).
    reflexivity.
  - destruct (_ || _).
    + rewrite read_ddr4_timings_blocks. cbn [is_ddr4].
      change (frequency_hint_mhz (DramBlocks.ddr4_reset _)) with zero.
      change (SFeqb zero zero) with true. cbn [andb].
      reflexivity.
    + reflexivity.
Qed.

End BackendMemory.

(** *** [pm_table.c]: the table elements that are read *)

Section PmConfined.
Import F32 Mem PmTable Spec.

Variables (t t' : list float) (count : Z).
Hypothesis same : firstn (Z.to_nat count) t = firstn (Z.to_nat count) t'.

Lemma load_same i : i < count -> load t i = load t' i.
Proof.
  intros Hi. unfold load. destruct (Z.ltb_spec i 0); [reflexivity|].
  assert (E : forall l : list float,
             nth (Z.to_nat i) l zero
             = nth (Z.to_nat i) (firstn (Z.to_nat count) l) zero).
  { intros l. rewrite nth_firstn.
    destruct (Nat.ltb_spec (Z.to_nat i) (Z.to_nat count)); [reflexivity|lia]. }
  now rewrite (E t), (E t'), same.
Qed.

Lemma safe_get_same idx : safe_get t count idx = safe_get t' count idx.
Proof.
  unfold safe_get. destruct (Z.leb_spec 0 idx); [|reflexivity].
  destruct (Z.ltb_spec idx count); [|reflexivity].
  cbn [andb]. now apply load_same.
Qed.

Lemma try_plausible_same lo hi cands :
  try_plausible lo hi t count cands = try_plausible lo hi t' count cands.
Proof.
  induction cands as [|c rest IH]; cbn [try_plausible]; [reflexivity|].
  cbv zeta. now rewrite safe_get_same, IH.
Qed.

Lemma ppt_scan_same cands m :
  ppt_scan t count cands m = ppt_scan t' count cands m.
Proof.
  induction cands as [|c rest IH]; cbn [ppt_scan]; [reflexivity|].
  cbv zeta. now rewrite safe_get_same, IH.
Qed.

Lemma copy_from_same start k :
  forall i dst,
    (forall j, i <= j < i + Z.of_nat k -> start + j < count) ->
    copy_from k i t start dst = copy_from k i t' start dst.
Proof.
  induction k as [|k IH]; intros i dst Hb; cbn [copy_from]; [reflexivity|].
  rewrite (load_same (start + i)) by (apply Hb; lia).
  destruct (store dst i (load t' (start + i))) as [dst'|]; cbn [bind];
    [|reflexivity].
  apply IH. intros j Hj. apply Hb. lia.
Qed.

Lemma copy_cores_same n start dst :
  (0 < n -> start + n <= count) ->
  copy_cores n t start dst = copy_cores n t' start dst.
Proof.
  intros Hb. unfold copy_cores. apply copy_from_same. intros j Hj.
  assert (0 < n) by lia. specialize (Hb H). lia.
Qed.

Lemma apply_entry_same e m : apply_entry t count e m = apply_entry t' count e m.
Proof. unfold apply_entry. now rewrite safe_get_same. Qed.

Lemma apply_named_same map m :
  apply_named map t count m = apply_named map t' count m.
Proof.
  unfold apply_named. generalize 0 as i. revert m.
  induction (Z.to_nat (named_count map)) as [|k IH]; intros m i;
    cbn [apply_named_from]; [reflexivity|].
  now rewrite apply_entry_same, IH.
Qed.

Lemma known_core_temps_same m :
  known_core_temps t count m = known_core_temps t' count m.
Proof.
  unfold known_core_temps. cbv zeta.
  destruct (Z.ltb_spec 324 count); [|reflexivity].
  now rewrite (copy_cores_same 8 317) by lia.
Qed.

Lemma read_tdie_same m : read_tdie t count m = read_tdie t' count m.
Proof.
  unfold read_tdie. cbv zeta.
  destruct (Z.ltb_spec 449 count); [|reflexivity].
  now rewrite (load_same 448), (load_same 449) by lia.
Qed.

Lemma known_core_clocks_same m :
  known_core_clocks t count m = known_core_clocks t' count m.
Proof.
  unfold known_core_clocks. cbv zeta.
  destruct (Z.ltb_spec 340 count); [|reflexivity].
  now rewrite (copy_cores_same 16 325) by lia.
Qed.

Lemma known_vid_same m : known_vid t count m = known_vid t' count m.
Proof.
  unfold known_vid.
  destruct (Z.ltb_spec 275 count); [|reflexivity].
  now rewrite (load_same 275) by lia.
Qed.

Lemma known_core_voltages_same m :
  known_core_voltages t count m = known_core_voltages t' count m.
Proof.
  unfold known_core_voltages. cbv zeta.
  destruct (Z.ltb_spec 316 count); [|reflexivity].
  now rewrite (copy_cores_same 8 309) by lia.
Qed.

Lemma known_iod_hotspot_same m :
  known_iod_hotspot t count m = known_iod_hotspot t' count m.
Proof.
  unfold known_iod_hotspot. cbv zeta.
  destruct (Z.ltb_spec 11 count); [|reflexivity].
  now rewrite (load_same 11) by lia.
Qed.

Lemma read_known_indices_same m :
  read_known_indices t count m = read_known_indices t' count m.
Proof.
  unfold read_known_indices, known_ppt. cbv zeta.
  rewrite ppt_scan_same, known_core_temps_same.
  destruct (known_core_temps t' count _) as [m1|]; cbn [bind];
    [|reflexivity].
  rewrite read_tdie_same, known_core_clocks_same.
  destruct (known_core_clocks t' count _) as [m2|]; cbn [bind];
    [|reflexivity].
  rewrite known_vid_same, known_core_voltages_same.
  destruct (known_core_voltages t' count _) as [m3|]; cbn [bind];
    [|reflexivity].
  now rewrite known_iod_hotspot_same.
Qed.

Lemma family_core_temps_same map m :
  family_core_temps map t count m = family_core_temps map t' count m.
Proof.
  unfold family_core_temps. cbv zeta.
  destruct (Z.leb_spec (core_temp_start map + clamp_cores map) count);
    [|reflexivity].
  now rewrite (copy_cores_same (clamp_cores map) (core_temp_start map))
    by lia.
Qed.

Lemma family_core_voltages_same map m :
  family_core_voltages map t count m = family_core_voltages map t' count m.
Proof.
  unfold family_core_voltages. cbv zeta.
  destruct (Z.leb_spec (core_voltage_start map + clamp_cores map) count);
    [|reflexivity].
  now rewrite (copy_cores_same (clamp_cores map) (core_voltage_start map))
    by lia.
Qed.

Lemma family_scalars_same map m :
  family_scalars map t count m = family_scalars map t' count m.
Proof.
  unfold family_scalars, try_plausible_power, try_plausible_current,
    try_plausible_temp.
  now rewrite !(try_plausible_same _ _ _), !safe_get_same.
Qed.

Lemma family_pass_same map m :
  family_pass map t count m = family_pass map t' count m.
Proof.
  unfold family_pass. cbv zeta.
  rewrite apply_named_same, family_core_temps_same.
  destruct (family_core_temps map t' count _) as [m1|]; cbn [bind];
    [|reflexivity].
  rewrite family_core_voltages_same.
  destruct (family_core_voltages map t' count _) as [m2|]; cbn [bind];
    [|reflexivity].
  now rewrite family_scalars_same.
Qed.

Lemma pm_table_granite_same m :
  pm_table_granite t count m = pm_table_granite t' count m.
Proof.
  unfold pm_table_granite, read_granite_ridge_offsets. cbv zeta.
  rewrite !safe_get_same, read_known_indices_same.
  destruct (read_known_indices t' count _) as [m1|]; cbn [bind];
    [|reflexivity].
  unfold derive_cpu_temp, try_plausible_power, try_plausible_current,
    try_plausible_temp.
  now rewrite !(try_plausible_same _ _ _).
Qed.

Lemma pm_table_generic_same map m :
  pm_table_generic map t count m = pm_table_generic map t' count m.
Proof.
  unfold pm_table_generic. rewrite family_pass_same.
  destruct (family_pass map t' count m) as [m1|]; cbn [bind]; [|reflexivity].
  apply read_known_indices_same.
Qed.

(** X10. [pm_table_read] uses no table element at or after index [count]:
    two tables with the same first [count] elements give the same
    result. *)
Theorem pm_table_read_confined version codename_index out :
  pm_table_read version (Some t) count codename_index out
  = pm_table_read version (Some t') count codename_index out.
Proof.
  unfold pm_table_read. cbv zeta.
  now rewrite pm_table_granite_same, pm_table_generic_same.
Qed.

End PmConfined.

Lemma pm_table_read_confined_witness :
  PmTable.pm_table_read 0 (Some (Spec.table_of_fours 12)) 12 23
    PmTable.smu_zero
  = PmTable.pm_table_read 0
      (Some (Spec.table_of_fours 12 ++ [F32.c100; F32.c150])) 12 23
      PmTable.smu_zero.
Proof. apply pm_table_read_confined. reflexivity. Defined.

(** *** [pm_table.c]: the blocks that store into arrays, as frames *)

Section PmArrayFrames.
Import F32 Mem PmTable Spec.

Context {X : Type} (obs : smu_metrics_t -> X).
Variables (t : list float) (count : Z).

Lemma known_core_temps_frame m m' :
  ignores obs set_core_temps_count -> ignores obs set_core_temps_c ->
  known_core_temps t count m = Some m' -> obs m' = obs m.
Proof.
  intros H1 H2. unfold known_core_temps. cbv zeta.
  destruct (324 <? count); [|intros [= <-]; reflexivity].
  destruct (copy_cores _ _ _ _) as [a|]; cbn [bind]; [|discriminate].
  intros [= <-]. now rewrite H2, H1.
Qed.

Lemma known_core_clocks_frame m m' :
  ignores obs set_core_clocks_count -> ignores obs set_core_clocks_ghz ->
  known_core_clocks t count m = Some m' -> obs m' = obs m.
Proof.
  intros H1 H2. unfold known_core_clocks. cbv zeta.
  destruct (340 <? count); [|intros [= <-]; reflexivity].
  destruct (copy_cores _ _ _ _) as [a|]; cbn [bind]; [|discriminate].
  intros [= <-]. now rewrite H2, H1.
Qed.

Lemma known_core_voltages_frame m m' :
  ignores obs set_core_voltages_count -> ignores obs set_core_voltages ->
  known_core_voltages t count m = Some m' -> obs m' = obs m.
Proof.
  intros H1 H2. unfold known_core_voltages. cbv zeta.
  destruct (316 <? count); [|intros [= <-]; reflexivity].
  destruct (copy_cores _ _ _ _) as [a|]; cbn [bind]; [|discriminate].
  intros [= <-]. now rewrite H2, H1.
Qed.

Lemma family_core_temps_frame map m m' :
  ignores obs set_core_temps_count -> ignores obs set_core_temps_c ->
  family_core_temps map t count m = Some m' -> obs m' = obs m.
Proof.
  intros H1 H2. unfold family_core_temps. cbv zeta.
  destruct (_ <=? count); [|intros [= <-]; reflexivity].
  destruct (copy_cores _ _ _ _) as [a|]; cbn [bind]; [|discriminate].
  intros [= <-]. now rewrite H2, H1.
Qed.

Lemma family_core_voltages_frame map m m' :
  ignores obs set_core_voltages_count -> ignores obs set_core_voltages ->
  family_core_voltages map t count m = Some m' -> obs m' = obs m.
Proof.
  intros H1 H2. unfold family_core_voltages. cbv zeta.
  destruct (_ <=? count); [|intros [= <-]; reflexivity].
  destruct (copy_cores _ _ _ _) as [a|]; cbn [bind]; [|discriminate].
  intros [= <-]. now rewrite H2, H1.
Qed.

End PmArrayFrames.

Ltac ign_more :=
  solve [ ign
        | unfold PmProps.ignores_known, PmProps.ignores_arrays;
          repeat split; intros ? ?; reflexivity ].

Section PmPassFrames.
Import F32 Mem PmTable Spec PmProps.

Context {X : Type} (obs : smu_metrics_t -> X).
Variables (t : list float) (count : Z).

(** What [read_known_indices] does to an observation that only the PPT
    loop can change. *)
Lemma read_known_indices_frame m m' :
  ignores_known obs ->
  read_known_indices t count m = Some m' ->
  obs m' = obs (known_ppt t count m).
Proof.
  intros ((A1 & A2 & A3 & A4 & A5 & A6) & T1 & T2 & V & I1 & I2).
  unfold read_known_indices. cbv zeta.
  destruct (known_core_temps t count _) as [m1|] eqn:E1; cbn [bind];
    [|discriminate].
  destruct (known_core_clocks t count _) as [m2|] eqn:E2; cbn [bind];
    [|discriminate].
  destruct (known_core_voltages t count _) as [m3|] eqn:E3; cbn [bind];
    [|discriminate].
  intros [= <-].
  rewrite (known_iod_hotspot_frame obs) by assumption.
  rewrite (known_core_voltages_frame obs t count _ _ A5 A6 E3).
  rewrite (known_vid_frame obs) by assumption.
  rewrite (known_core_clocks_frame obs t count _ _ A3 A4 E2).
  rewrite (read_tdie_frame obs) by assumption.
  apply (known_core_temps_frame obs t count _ _ A1 A2 E1).
Qed.

(** What the family-map pass does to an observation that only
    [family_scalars] can change, and to one that only [apply_named] can. *)
Lemma family_pass_scalars map m m' :
  ignores_arrays obs ->
  family_pass map t count m = Some m' ->
  exists m2,
    m' = family_scalars map t count m2
    /\ forall Y (obs' : smu_metrics_t -> Y),
        ignores_arrays obs' -> obs' m2 = obs' (apply_named map t count m).
Proof.
  intros _. unfold family_pass. cbv zeta.
  destruct (family_core_temps map t count _) as [m1|] eqn:E1; cbn [bind];
    [|discriminate].
  destruct (family_core_voltages map t count _) as [m2|] eqn:E2; cbn [bind];
    [|discriminate].
  intros [= <-]. exists m2. split; [reflexivity|].
  intros Y obs' (A1 & A2 & A3 & A4 & A5 & A6).
  rewrite (family_core_voltages_frame obs' t count _ _ _ A5 A6 E2).
  apply (family_core_temps_frame obs' t count _ _ _ A1 A2 E1).
Qed.

End PmPassFrames.

(** *** [pm_table.c]: the plausibility filters *)

Section PmPlausible.
Import F32 Mem PmTable Spec PmProps.

Variables (t : list float) (count : Z).

(** X11. A candidate loop ([try_plausible_power], [try_plausible_current],
    [try_plausible_temp]) returns the table value of the first candidate
    index whose value lies within the bounds, and 0 when no candidate
    does. *)
Theorem try_plausible_first lo hi candidates :
  first_plausible lo hi t count candidates
    (try_plausible lo hi t count candidates).
Proof.
  induction candidates as [|c rest IH]; cbn [try_plausible].
  - right. split; [constructor | reflexivity].
  - cbv zeta. fold (in_range lo hi (safe_get t count c)).
    destruct (in_range lo hi (safe_get t count c)) eqn:E.
    + left. exists [], c, rest.
      split; [reflexivity|]. split; [constructor|]. split; [reflexivity|].
      exact E.
    + destruct IH as [(pre & c' & post & Hl & Hpre & Hv & Hr) | [Hall Hz]].
      * left. exists (c :: pre), c', post.
        split; [cbn [app]; now rewrite <- Hl|].
        split; [constructor; assumption|]. split; assumption.
      * right. split; [constructor; assumption | assumption].
Qed.

Lemma try_plausible_plausible lo hi candidates :
  plausible lo hi (try_plausible lo hi t count candidates).
Proof.
  destruct (try_plausible_first lo hi candidates)
    as [(pre & c & post & _ & _ & _ & Hr) | [_ Hz]].
  - now right.
  - now left.
Qed.

Lemma ppt_scan_plausible cands m :
  plausible c0_5 c400 (ppt_w m) ->
  plausible c0_5 c400 (ppt_w (ppt_scan t count cands m)).
Proof.
  intros Hm. induction cands as [|c rest IH]; cbn [ppt_scan]; [exact Hm|].
  cbv zeta. fold (in_range c0_5 c400 (safe_get t count c)).
  destruct (in_range c0_5 c400 (safe_get t count c)) eqn:E; [|exact IH].
  right. exact E.
Qed.

Lemma family_scalars_plausible map m :
  let m' := family_scalars map t count m in
  plausible c0_5 c400 (package_power_w m')
  /\ plausible c0_5 c200 (package_current_a m')
  /\ (plausible c0_5 c400 (ppt_w m) -> plausible c0_5 c400 (ppt_w m')).
Proof.
  cbv zeta. unfold family_scalars. cbv zeta.
  fold (in_range c0_5 c400 (safe_get t count (ppt_idx map))).
  fold (in_range c0_5 c400 (safe_get t count (socket_power_idx map))).
  destruct (gt (safe_get t count (vid_idx map)) zero);
    destruct (in_range c0_5 c400 (safe_get t count (ppt_idx map))) eqn:E1;
    destruct (in_range c0_5 c400 (safe_get t count (socket_power_idx map)))
      eqn:E2;
    frames;
    (split; [first [ right; exact E2 | apply try_plausible_plausible ]|]);
    (split; [apply try_plausible_plausible|]);
    intros H; first [ right; exact E1 | exact H ].
Qed.

End PmPlausible.

Section PmPower.
Import F32 Mem PmTable Spec PmProps.

Variable count : Z.

(** X12. The power fields of a result of [pm_table_read] are filtered:
    [package_power_w] and [ppt_w] are 0 or within [0.5, 400], and
    [package_current_a] is 0 or within [0.5, 200]. *)
Theorem power_fields_plausible version table codename_index out m :
  pm_table_read version table count codename_index out = Some m ->
  plausible c0_5 c400 (package_power_w m)
  /\ plausible c0_5 c200 (package_current_a m)
  /\ plausible c0_5 c400 (ppt_w m).
Proof.
  unfold pm_table_read. cbv zeta.
  assert (Z0 : forall lo hi, plausible lo hi zero) by (intros; now left).
  destruct table as [tb|]; [|intros [= <-]; repeat split; apply Z0].
  destruct (count <? 4); [intros [= <-]; repeat split; apply Z0|].
  destruct (codename_index =? 23).
  - unfold pm_table_granite. cbv zeta.
    destruct (read_known_indices tb count _) as [m1|] eqn:E1; cbn [bind];
      [|discriminate].
    intros [= <-]. frames.
    split; [apply try_plausible_plausible|].
    split; [apply try_plausible_plausible|].
    rewrite (read_known_indices_frame ppt_w tb count _ _ ltac:(ign_more) E1).
    apply ppt_scan_plausible. frames. apply Z0.
  - unfold pm_table_generic.
    destruct (family_pass _ tb count smu_zero) as [m1|] eqn:E1; cbn [bind];
      [|discriminate].
    intros E2.
    destruct (family_pass_scalars ppt_w tb count _ _ _ ltac:(ign_more) E1)
      as (m2 & -> & Hm2).
    rewrite (read_known_indices_frame package_power_w tb count _ _
               ltac:(ign_more) E2).
    rewrite (read_known_indices_frame package_current_a tb count _ _
               ltac:(ign_more) E2).
    rewrite (read_known_indices_frame ppt_w tb count _ _ ltac:(ign_more) E2).
    frames.
    destruct (family_scalars_plausible tb count (get_family_map version) m2)
      as (P1 & P2 & P3).
    split; [|split]; try assumption.
    apply ppt_scan_plausible, P3.
    rewrite (Hm2 _ ppt_w ltac:(ign_more)). frames. apply Z0.
Qed.

End PmPower.

Lemma power_fields_plausible_witness :
  exists m,
    PmTable.pm_table_read 0 (Some (Spec.table_of_fours 12)) 12 23
      PmTable.smu_zero = Some m
    /\ PmProps.plausible F32.c0_5 F32.c400 (PmTable.package_power_w m).
Proof.
  eexists. split; [vm_compute; reflexivity|].
  refine (proj1 (power_fields_plausible 12 0 (Some (Spec.table_of_fours 12))
                   23 PmTable.smu_zero _ _)).
  vm_compute. reflexivity.
Defined.

(** *** [pm_table.c]: the CPU temperature and the named fields *)

Section PmScalars.
Import F32 Mem PmTable Spec PmProps.

Variables (t : list float) (count : Z).

Lemma derive_cpu_temp_value m :
  cpu_temp_c (derive_cpu_temp t count m)
  = if has_tdie m && gt (tdie_c m) zero then tdie_c m
    else try_plausible_temp t count.
Proof.
  unfold derive_cpu_temp. now destruct (has_tdie m && gt (tdie_c m) zero).
Qed.

(** X13. The CPU temperature of a result: for codename index 23 it is
    [tdie_c] when Tdie was found and is positive, and the first plausible
    of the table elements 1, 448, 449 otherwise; for every other index it
    is the first plausible of these elements, also when Tdie was found. *)
Theorem cpu_temp_source version codename_index out m :
  4 <= count ->
  pm_table_read version (Some t) count codename_index out = Some m ->
  cpu_temp_c m
  = if (codename_index =? 23) && has_tdie m && gt (tdie_c m) zero
    then tdie_c m
    else try_plausible_temp t count.
Proof.
  intros Hc. unfold pm_table_read. cbv zeta.
  destruct (Z.ltb_spec count 4); [lia|].
  destruct (codename_index =? 23); cbn [andb].
  - unfold pm_table_granite. cbv zeta.
    destruct (read_known_indices t count _) as [m1|] eqn:E1; cbn [bind];
      [|discriminate].
    intros [= <-]. rewrite derive_cpu_temp_value. frames. reflexivity.
  - unfold pm_table_generic.
    destruct (family_pass _ t count smu_zero) as [m1|] eqn:E1; cbn [bind];
      [|discriminate].
    intros E2.
    destruct (family_pass_scalars cpu_temp_c t count _ _ _ ltac:(ign_more) E1)
      as (m2 & -> & _).
    rewrite (read_known_indices_frame cpu_temp_c t count _ _
               ltac:(ign_more) E2).
    frames. unfold family_scalars. cbv zeta. frames. reflexivity.
Qed.

Lemma granite_offsets_match_default_map m :
  named_fields (read_granite_ridge_offsets t count m)
  = named_fields (apply_named GRANITE_RIDGE t count m).
Proof.
  unfold apply_named, read_granite_ridge_offsets.
  cbn [GRANITE_RIDGE named_count named Z.to_nat Pos.to_nat Pos.iter_op
       Nat.add apply_named_from nth Z.add Pos.add Pos.succ].
  unfold apply_entry. cbv zeta.
  cbn [E index field_offset].
  destruct (ge (safe_get t count 11) c1 && le (safe_get t count 11) c150);
    reflexivity.
Qed.

Lemma get_family_map_default version :
  ~ In version known_versions -> get_family_map version = GRANITE_RIDGE.
Proof.
  intros H. unfold get_family_map.
  repeat match goal with
         | |- context [version =? ?k] =>
             destruct (Z.eqb_spec version k) as [-> | _];
             [exfalso; apply H; cbn; tauto|]
         end.
  reflexivity.
Qed.

(** X14. Every family map that [get_family_map] returns is well formed:
    [named_count] is the number of initialised entries of [named], at most
    the 12 slots of the array, so the loop of [apply_named] reads
    initialised entries only; no table index of the map is negative, be it
    the index of a named entry, [vid_idx], [ppt_idx], [socket_power_idx],
    [core_voltage_start] or [core_temp_start]; [max_cores] is positive and
    at most [MAX_CORES], so the clamp of the generic branch changes
    nothing; and the per-core temperatures follow the per-core voltages
    directly. *)
Theorem family_maps_well_formed version :
  let map := get_family_map version in
  named_count map = Z.of_nat (length (named map))
  /\ (length (named map) <= 12)%nat
  /\ Forall (fun e => 0 <= index e) (named map)
  /\ (0 <= vid_idx map /\ 0 <= ppt_idx map /\ 0 <= socket_power_idx map
      /\ 0 <= core_voltage_start map /\ 0 <= core_temp_start map)
  /\ 0 < max_cores map <= MAX_CORES
  /\ clamp_cores map = max_cores map
  /\ core_temp_start map = core_voltage_start map + max_cores map.
Proof.
  cbv zeta. unfold get_family_map.
  repeat match goal with
         | |- context [version =? ?k] => destruct (version =? k)
         end;
    (split; [reflexivity|]); (split; [cbn; lia|]);
    (split; [repeat (apply Forall_cons; [cbn; lia|]); constructor|]);
    (split; [cbn; lia|]);
    (split; [cbv; split; [reflexivity | discriminate]|]);
    split; reflexivity.
Qed.

(** X15. For a PM table version that [get_family_map] does not know, the
    generic branch and the branch of codename index 23 decode the nine
    named fields (FCLK, UCLK, MCLK, VSOC, VDDP, VDDG IOD, VDDG CCD,
    VDD MISC, VCORE) alike: the byte offsets of
    [read_granite_ridge_offsets] are the indices of the default family
    map. *)
Theorem unknown_version_named_fields version codename_index out m23 m :
  ~ In version known_versions ->
  pm_table_read version (Some t) count 23 out = Some m23 ->
  pm_table_read version (Some t) count codename_index out = Some m ->
  named_fields m = named_fields m23.
Proof.
  intros Hv. unfold pm_table_read. cbv zeta.
  destruct (count <? 4); [intros [= <-] [= <-]; reflexivity|].
  change (23 =? 23) with true. cbv iota.
  destruct (codename_index =? 23); [intros -> [= ->]; reflexivity|].
  rewrite (get_family_map_default version Hv).
  unfold pm_table_granite, pm_table_generic. cbv zeta.
  destruct (read_known_indices t count (read_granite_ridge_offsets _ _ _))
    as [m1|] eqn:E1; cbn [bind]; [|discriminate].
  intros [= <-].
  destruct (family_pass _ t count smu_zero) as [m2|] eqn:E2; cbn [bind];
    [|discriminate].
  intros E3.
  destruct (family_pass_scalars named_fields t count _ _ _
              ltac:(ign_more) E2) as (m3 & -> & Hm3).
  rewrite (read_known_indices_frame named_fields t count _ _
             ltac:(ign_more) E3).
  rewrite (derive_cpu_temp_frame named_fields) by ign.
  rewrite (derive_core_clock_frame named_fields) by ign.
  change (named_fields (set_package_current_a ?a (set_package_power_w ?b m1)))
    with (named_fields m1).
  rewrite (read_known_indices_frame named_fields t count _ _
             ltac:(ign_more) E1).
  rewrite !(known_ppt_frame named_fields) by ign.
  rewrite (family_scalars_frame named_fields) by ign.
  rewrite (Hm3 _ named_fields ltac:(ign_more)).
  symmetry. apply granite_offsets_match_default_map.
Qed.

End PmScalars.

Lemma cpu_temp_source_witness :
  exists m,
    PmTable.pm_table_read 0 (Some (Spec.table_of_fours 12)) 12 4
      PmTable.smu_zero = Some m
    /\ PmTable.cpu_temp_c m
       = PmTable.try_plausible_temp (Spec.table_of_fours 12) 12.
Proof.
  eexists. split; [vm_compute; reflexivity|].
  refine (cpu_temp_source (Spec.table_of_fours 12) 12 0 4 PmTable.smu_zero
            _ _ _); [lia|].
  vm_compute. reflexivity.
Defined.

Lemma unknown_version_named_fields_witness :
  exists m23 m,
    PmTable.pm_table_read 7 (Some (Spec.table_of_indices 300)) 300 23
      PmTable.smu_zero = Some m23
    /\ PmTable.pm_table_read 7 (Some (Spec.table_of_indices 300)) 300 4
         PmTable.smu_zero = Some m
    /\ PmProps.named_fields m = PmProps.named_fields m23.
Proof.
  eexists. eexists.
  split; [vm_compute; reflexivity|]. split; [vm_compute; reflexivity|].
  refine (unknown_version_named_fields (Spec.table_of_indices 300) 300 7 4
            PmTable.smu_zero _ _ _ _ _).
  - cbn. intros H. repeat (destruct H as [H | H]; [discriminate H|]). exact H.
  - vm_compute. reflexivity.
  - vm_compute. reflexivity.
Defined.

(** *** [aod_voltages.c]: what a result of the scan stands for *)

Section AodSound.
Import Aod Spec.

Lemma scan_at_sound aml i addr :
  scan_at aml i = Some addr ->
  memcmp_eq aml i aode_pattern = true
  /\ ((nth (Z.to_nat (i + pattern_len)) aml x00 = x0c
       /\ addr = read_le aml (i + pattern_len + 1) 4)
      \/ (nth (Z.to_nat (i + pattern_len)) aml x00 = x0e
          /\ addr = read_le aml (i + pattern_len + 1) 8)).
Proof.
  unfold scan_at. cbv zeta.
  destruct (memcmp_eq aml i aode_pattern); cbn [negb]; [|discriminate].
  destruct (Byte.eqb _ x0c) eqn:E1.
  - intros [= <-]. apply Byte.byte_dec_bl in E1. auto.
  - destruct (Byte.eqb _ x0e) eqn:E2; [|discriminate].
    intros [= <-]. apply Byte.byte_dec_bl in E2. auto.
Qed.

Lemma scan_from_sound aml addr k :
  forall i,
    scan_from k i aml = Some addr ->
    exists j,
      i <= j < i + Z.of_nat k
      /\ scan_at aml j = Some addr
      /\ forall j', i <= j' < j -> scan_at aml j' = None.
Proof.
  induction k as [|k IH]; intros i; cbn [scan_from]; [discriminate|].
  destruct (scan_at aml i) as [a|] eqn:E.
  - intros [= <-]. exists i. split; [lia|]. split; [exact E|].
    intros j' Hj'. lia.
  - intros H. destruct (IH _ H) as (j & Hj & Hs & Hmin).
    exists j. split; [lia|]. split; [exact Hs|].
    intros j' Hj'. destruct (Z.eq_dec j' i) as [-> | Hne]; [exact E|].
    apply Hmin. lia.
Qed.

Lemma scan_aml_sound aml addr :
  scan_aml aml = Some addr ->
  exists i,
    0 <= i /\ i + pattern_len + 10 < Z.of_nat (length aml)
    /\ scan_at aml i = Some addr
    /\ forall j, 0 <= j < i -> scan_at aml j = None.
Proof.
  unfold scan_aml. intros H.
  destruct (scan_from_sound _ _ _ _ H) as (j & Hj & Hs & Hmin).
  exists j. repeat split; [lia | lia | exact Hs | exact Hmin].
Qed.

(** X16. A non-zero result of [find_aod_phys] is the operand of a
    signature in some SSDT with the OEM table identifier of AOD: the
    signature matches at an index [i] with [i + 17 < aml_len], no earlier
    index of that table gives an address, and the result is the 4
    little-endian bytes after tag 0x0C or the 8 after tag 0x0E. *)
Theorem find_aod_phys_sound tables :
  find_aod_phys tables <> 0 ->
  exists hdr i,
    In hdr tables
    /\ bytes_eqb (oem_table_id hdr) AOD_OEM_ID = true
    /\ 0 <= i /\ i + pattern_len + 10 < Z.of_nat (length (aml hdr))
    /\ memcmp_eq (aml hdr) i aode_pattern = true
    /\ (forall j, 0 <= j < i -> scan_at (aml hdr) j = None)
    /\ ((nth (Z.to_nat (i + pattern_len)) (aml hdr) x00 = x0c
         /\ find_aod_phys tables = read_le (aml hdr) (i + pattern_len + 1) 4)
        \/ (nth (Z.to_nat (i + pattern_len)) (aml hdr) x00 = x0e
            /\ find_aod_phys tables
               = read_le (aml hdr) (i + pattern_len + 1) 8)).
Proof.
  induction tables as [|hdr rest IH]; cbn [find_aod_phys];
    [intros H; now contradict H|].
  assert (K : find_aod_phys rest <> 0 ->
              exists hdr0 i,
                In hdr0 (hdr :: rest)
                /\ bytes_eqb (oem_table_id hdr0) AOD_OEM_ID = true
                /\ 0 <= i
                /\ i + pattern_len + 10 < Z.of_nat (length (aml hdr0))
                /\ memcmp_eq (aml hdr0) i aode_pattern = true
                /\ (forall j, 0 <= j < i -> scan_at (aml hdr0) j = None)
                /\ ((nth (Z.to_nat (i + pattern_len)) (aml hdr0) x00 = x0c
                     /\ find_aod_phys rest
                        = read_le (aml hdr0) (i + pattern_len + 1) 4)
                    \/ (nth (Z.to_nat (i + pattern_len)) (aml hdr0) x00 = x0e
                        /\ find_aod_phys rest
                           = read_le (aml hdr0) (i + pattern_len + 1) 8))).
  { intros H. destruct (IH H) as (h & i & Hin & Rest).
    exists h, i. split; [now right | exact Rest]. }
  destruct (bytes_eqb (oem_table_id hdr) AOD_OEM_ID) eqn:Eo; cbn [negb];
    [|exact K].
  destruct (scan_aml (aml hdr)) as [addr|] eqn:Es; [|exact K].
  intros _. destruct (scan_aml_sound _ _ Es) as (i & H0 & Hl & Hs & Hmin).
  destruct (scan_at_sound _ _ _ Hs) as (Hm & Htag).
  exists hdr, i. split; [now left|]. repeat split; assumption.
Qed.

(** Tables of another OEM, and AOD tables without a hit, are passed over. *)
Lemma find_aod_phys_cons_skip hdr rest :
  bytes_eqb (oem_table_id hdr) AOD_OEM_ID = false
  \/ scan_aml (aml hdr) = None ->
  find_aod_phys (hdr :: rest) = find_aod_phys rest.
Proof.
  intros H. cbn [find_aod_phys].
  destruct (bytes_eqb (oem_table_id hdr) AOD_OEM_ID); cbn [negb];
    [|reflexivity].
  destruct H as [H | H]; [discriminate H|]. now rewrite H.
Qed.

(** X17. The SSDTs are tried in the order of their indices, and the first
    AOD table whose scan returns an address decides: tables of another OEM
    and AOD tables in which the scan finds nothing have no influence on the
    result, wherever they stand before it. *)
Theorem find_aod_phys_first_hit pre hdr rest addr :
  Forall (fun h => bytes_eqb (oem_table_id h) AOD_OEM_ID = false
                   \/ scan_aml (aml h) = None) pre ->
  bytes_eqb (oem_table_id hdr) AOD_OEM_ID = true ->
  scan_aml (aml hdr) = Some addr ->
  find_aod_phys (pre ++ hdr :: rest) = addr.
Proof.
  intros Hpre Ho Hs. induction Hpre as [|h pre Hh _ IH]; cbn [app].
  - cbn [find_aod_phys]. now rewrite Ho, Hs.
  - now rewrite find_aod_phys_cons_skip.
Qed.

Lemma le_combine_bound bs :
  0 <= le_combine bs < 256 ^ Z.of_nat (length bs).
Proof.
  induction bs as [|b r IH]; cbn [le_combine length]; [cbn; lia|].
  rewrite Nat2Z.inj_succ, Z.pow_succ_r by lia.
  assert (Hb : 0 <= Z.of_N (Byte.to_N b) < 256).
  { pose proof (Byte.to_N_bounded b). lia. }
  lia.
Qed.

Lemma read_le_bound p i n :
  0 <= read_le p i n < 256 ^ Z.of_nat n.
Proof.
  unfold read_le.
  pose proof (le_combine_bound (firstn n (skipn (Z.to_nat i) p))) as H.
  pose proof (firstn_le_length n (skipn (Z.to_nat i) p)) as Hl.
  split; [lia|].
  apply Z.lt_le_trans with (1 := proj2 H).
  apply Z.pow_le_mono_r; lia.
Qed.

(** X18. The address [find_aod_phys] returns fits the 64 bits of
    [phys_addr_t], and an address read after tag 0x0C fits 32 bits: the
    little-endian copies into [tmp32] and [addr] lose nothing. *)
Theorem find_aod_phys_width tables aml i :
  0 <= find_aod_phys tables < 2 ^ 64
  /\ match scan_at aml i with
     | Some addr =>
         0 <= addr
         < (if Byte.eqb (nth (Z.to_nat (i + pattern_len)) aml x00) x0c
            then 2 ^ 32 else 2 ^ 64)
     | None => True
     end.
Proof.
  assert (S : forall aml i addr,
             scan_at aml i = Some addr ->
             0 <= addr
             < (if Byte.eqb (nth (Z.to_nat (i + pattern_len)) aml x00) x0c
                then 2 ^ 32 else 2 ^ 64)).
  { clear. intros aml i addr Hs.
    destruct (scan_at_sound _ _ _ Hs) as (_ & [[-> ->] | [-> ->]]).
    - pose proof (read_le_bound aml (i + pattern_len + 1) 4) as H.
      change (256 ^ Z.of_nat 4) with (2 ^ 32) in H. exact H.
    - pose proof (read_le_bound aml (i + pattern_len + 1) 8) as H.
      change (256 ^ Z.of_nat 8) with (2 ^ 64) in H. exact H. }
  split.
  - induction tables as [|hdr rest IH]; cbn [find_aod_phys]; [lia|].
    destruct (negb _); [exact IH|].
    destruct (scan_aml (Aod.aml hdr)) as [addr|] eqn:Es; [|exact IH].
    destruct (scan_aml_sound _ _ Es) as (j & _ & _ & Hs & _).
    specialize (S _ _ _ Hs). destruct (Byte.eqb _ x0c); lia.
  - destruct (scan_at aml i) as [addr|] eqn:Es; [|exact I].
    now apply S.
Qed.

End AodSound.

Lemma find_aod_phys_sound_witness :
  exists hdr i,
    In hdr [Spec.aod_table (Spec.aode_dword_1000 ++ repeat xff 6)]
    /\ Aod.memcmp_eq (Aod.aml hdr) i Aod.aode_pattern = true.
Proof.
  destruct (find_aod_phys_sound
              [Spec.aod_table (Spec.aode_dword_1000 ++ repeat xff 6)])
    as (hdr & i & Hin & _ & _ & _ & Hm & _ & _).
  - vm_compute. discriminate.
  - exists hdr, i. split; assumption.
Defined.

Lemma find_aod_phys_first_hit_witness :
  Aod.find_aod_phys
    ([Aod.Build_ssdt [x41; x4f; x44; x20; x20; x20; x20; x21] [];
      Spec.aod_table Spec.aode_dword_1000]
     ++ Spec.aod_table (Spec.aode_dword_1000 ++ repeat xff 6) :: [])
  = 0x1000.
Proof.
  apply find_aod_phys_first_hit.
  - apply Forall_cons; [left; reflexivity|].
    apply Forall_cons; [right; reflexivity|]. constructor.
  - reflexivity.
  - reflexivity.
Defined.

(** *** [util.c]: [read_file_string] and [run_command] *)

Section UtilFiles.
Import Dram UtilIo.

Lemma strip_trailing_le buf len : (strip_trailing len buf <= len)%nat.
Proof.
  induction len as [|k IH]; cbn [strip_trailing]; [lia|].
  destruct (is_trailing_space _); lia.
Qed.

Lemma strip_trailing_dropped buf len k :
  (strip_trailing len buf <= k < len)%nat ->
  is_trailing_space (nth k buf x00) = true.
Proof.
  induction len as [|n IH]; cbn [strip_trailing]; [lia|].
  destruct (is_trailing_space (nth n buf x00)) eqn:E; [|lia].
  intros H. destruct (Nat.eq_dec k n) as [-> | Hn]; [exact E|].
  apply IH. lia.
Qed.

Lemma strip_trailing_kept buf len :
  strip_trailing len buf = O
  \/ is_trailing_space (nth (strip_trailing len buf - 1) buf x00) = false.
Proof.
  induction len as [|n IH]; cbn [strip_trailing]; [now left|].
  destruct (is_trailing_space (nth n buf x00)) eqn:E; [exact IH|].
  right. cbn [Nat.sub]. now rewrite Nat.sub_0_r.
Qed.

Lemma fgets_length n stream : (length (fgets n stream) <= n)%nat.
Proof.
  revert stream. induction n as [|n IH]; intros [|b r]; cbn [fgets length];
    try lia.
  destruct (Byte.eqb b x0a); cbn [length]; [lia|].
  specialize (IH r). lia.
Qed.

(** A newline is the last character that [fgets] stores. *)
Lemma fgets_newline n :
  forall stream i,
    (S i < length (fgets n stream))%nat -> nth i (fgets n stream) x00 <> x0a.
Proof.
  induction n as [|n IH]; intros [|b r] i; cbn [fgets length]; try lia.
  destruct (Byte.eqb b x0a) eqn:E; cbn [length]; [lia|].
  intros Hi. destruct i as [|i]; cbn [nth].
  - intros ->. discriminate E.
  - apply IH. lia.
Qed.

Lemma c_string_prefix buf :
  c_string buf = firstn (length (c_string buf)) buf.
Proof.
  induction buf as [|b r IH]; cbn [c_string]; [reflexivity|].
  destruct (Byte.eqb b x00); cbn [length firstn]; [reflexivity|].
  now rewrite <- IH.
Qed.

Lemma nth_prefix (l : list byte) (n i : nat) :
  (i < n)%nat -> nth i (firstn n l) x00 = nth i l x00.
Proof.
  intros H. rewrite nth_firstn.
  destruct (Nat.ltb_spec i n); [reflexivity | lia].
Qed.

Lemma last_as_nth (l : list byte) : last l x00 = nth (length l - 1) l x00.
Proof.
  induction l as [|b r IH]; [reflexivity|].
  destruct r as [|c r']; [reflexivity|].
  cbn [last] in *. rewrite IH. cbn [length Nat.sub nth].
  now rewrite Nat.sub_0_r.
Qed.

Lemma forallb_nth (f : byte -> bool) (l : list byte) :
  (forall i, (i < length l)%nat -> f (nth i l x00) = true) ->
  forallb f l = true.
Proof.
  induction l as [|b r IH]; intros H; cbn [forallb]; [reflexivity|].
  pose proof (H 0%nat ltac:(cbn; lia)) as H0. cbn [nth] in H0.
  rewrite H0. cbn [andb].
  apply IH. intros i Hi. apply (H (S i)). cbn. lia.
Qed.

(** X19. The string [read_file_string] leaves in [buf] when it returns 1:
    it is the first line of the file as [fgets] stored it, up to its first
    NUL, without the trailing run of newlines, carriage returns and
    spaces; it does not end in such a character, holds no newline at all,
    and fits [sz - 1] characters. *)
Theorem read_file_string_result file sz s :
  (2 <= sz)%nat ->
  read_file_string file sz = Some s ->
  (exists stream suffix,
      file = Some stream
      /\ c_string (fgets (sz - 1) stream) = s ++ suffix
      /\ forallb is_trailing_space suffix = true)
  /\ (s = [] \/ is_trailing_space (last s x00) = false)
  /\ ~ In x0a s
  /\ (length s <= sz - 1)%nat.
Proof.
  intros Hsz. unfold read_file_string.
  destruct file as [stream|]; [|discriminate].
  destruct stream as [|b0 r0]; [discriminate|].
  set (line := fgets (sz - 1) (b0 :: r0)).
  set (str := c_string line). cbv zeta.
  set (r := strip_trailing (length str) str).
  intros [= <-].
  pose proof (strip_trailing_le str (length str)) as Hr. fold r in Hr.
  assert (Hlen : length (firstn r str) = r) by (rewrite length_firstn; lia).
  assert (Hstr : (length str <= length line)%nat).
  { unfold str. rewrite (c_string_prefix line) at 1.
    rewrite length_firstn. lia. }
  split; [|split; [|split]].
  - exists (b0 :: r0), (skipn r str).
    split; [reflexivity|]. split; [now rewrite firstn_skipn|].
    apply forallb_nth. intros i Hi. rewrite length_skipn in Hi.
    rewrite nth_skipn. apply (strip_trailing_dropped str (length str)).
    fold r. lia.
  - pose proof (strip_trailing_kept str (length str)) as K. fold r in K.
    destruct K as [H0 | Hk].
    + left. rewrite H0. reflexivity.
    + destruct (Nat.eq_dec r 0) as [E0 | E0];
        [left; rewrite E0; reflexivity | right].
      rewrite <- (nth_prefix str r (r - 1)) in Hk by lia.
      replace (r - 1)%nat with (length (firstn r str) - 1)%nat in Hk
        by (rewrite Hlen; reflexivity).
      rewrite <- last_as_nth in Hk. exact Hk.
  - intros Hin. apply (In_nth _ _ x00) in Hin.
    destruct Hin as (i & Hi & Hn). rewrite Hlen in Hi.
    rewrite nth_prefix in Hn by assumption.
    destruct (Nat.eq_dec (S i) r) as [E | E].
    + pose proof (strip_trailing_kept str (length str)) as K. fold r in K.
      destruct K as [H0 | Hk]; [lia|].
      replace (r - 1)%nat with i in Hk by lia.
      rewrite Hn in Hk. discriminate Hk.
    + assert (Hi' : (S i < length line)%nat) by lia.
      apply (fgets_newline _ _ _ Hi').
      rewrite <- Hn. unfold str. rewrite (c_string_prefix line).
      rewrite nth_prefix; [reflexivity|]. fold str. lia.
  - rewrite Hlen. pose proof (fgets_length (sz - 1) (b0 :: r0)). fold line in H.
    lia.
Qed.

End UtilFiles.

Lemma read_file_string_result_witness :
  UtilIo.read_file_string (Some [x32; x33; x20; x0a]) 32 = Some [x32; x33]
  /\ ~ In x0a [x32; x33].
Proof.
  split; [reflexivity|].
  exact (proj1 (proj2 (proj2
           (read_file_string_result (Some [x32; x33; x20; x0a]) 32
              [x32; x33] ltac:(lia) eq_refl)))).
Defined.

Section UtilCommand.
Import UtilIo.

Variable realloc_ok : Z -> bool.

Lemma firstn_then_firstn (l : list byte) (n k : nat) :
  firstn n l ++ firstn k (skipn n l) = firstn (n + k) l.
Proof.
  revert l. induction n as [|n IH]; intros l; [reflexivity|].
  destruct l as [|b r]; cbn [firstn skipn app Nat.add].
  - now rewrite firstn_nil.
  - now rewrite IH.
Qed.

(** The loop ends while the pipe has fewer bytes left than iterations, the
    buffer is then a prefix of the output with room for the NUL, and the
    whole output when no [realloc] fails. *)
Lemma run_command_loop_ends fuel :
  forall cap buf rest,
    Z.of_nat (length buf) + 1 < cap ->
    (length rest < fuel)%nat ->
    exists out cap',
      run_command_loop fuel realloc_ok cap buf rest = Some (out, cap')
      /\ Z.of_nat (length out) < cap'
      /\ (exists k, out = buf ++ firstn k rest)
      /\ ((forall c, realloc_ok c = true) -> out = buf ++ rest).
Proof.
  induction fuel as [|fuel IH]; intros cap buf rest Hcap Hfuel; [lia|].
  cbn [run_command_loop]. cbv zeta.
  set (n := Z.min (cap - Z.of_nat (length buf) - 1) (Z.of_nat (length rest))).
  destruct (Z.leb_spec n 0) as [Hn | Hn].
  - assert (Hr : rest = []) by (destruct rest; [reflexivity | cbn in n; lia]).
    exists buf, cap. subst rest.
    split; [reflexivity|]. split; [lia|].
    split; [exists 0%nat|intros _]; now rewrite ?firstn_nil, app_nil_r.
  - assert (Hlen : Z.of_nat (length (buf ++ firstn (Z.to_nat n) rest))
                   = Z.of_nat (length buf) + n).
    { rewrite length_app, length_firstn. lia. }
    assert (Hrest : (length (skipn (Z.to_nat n) rest) < fuel)%nat).
    { rewrite length_skipn. lia. }
    assert (Hpre : forall out,
               (exists k, out = (buf ++ firstn (Z.to_nat n) rest)
                                ++ firstn k (skipn (Z.to_nat n) rest)) ->
               exists k, out = buf ++ firstn k rest).
    { intros out (k & ->). exists (Z.to_nat n + k)%nat.
      now rewrite <- app_assoc, firstn_then_firstn. }
    assert (Hall : (buf ++ firstn (Z.to_nat n) rest)
                   ++ skipn (Z.to_nat n) rest = buf ++ rest)
      by now rewrite <- app_assoc, firstn_skipn.
    destruct (Z.leb_spec cap (Z.of_nat (length buf) + n + 1)) as [Hfull | Hroom].
    + destruct (realloc_ok (cap * 2)) eqn:Eok.
      * destruct (IH (cap * 2) (buf ++ firstn (Z.to_nat n) rest)
                    (skipn (Z.to_nat n) rest))
          as (out & cap' & E & Hout & Hk & Hwhole); [lia | exact Hrest|].
        exists out, cap'. split; [exact E|]. split; [exact Hout|].
        split; [now apply Hpre|].
        intros Hok. rewrite (Hwhole Hok). exact Hall.
      * exists (buf ++ firstn (Z.to_nat n) rest), cap.
        split; [reflexivity|]. split; [lia|].
        split; [now exists (Z.to_nat n)|].
        intros Hok. rewrite Hok in Eok. discriminate Eok.
    + destruct (IH cap (buf ++ firstn (Z.to_nat n) rest)
                  (skipn (Z.to_nat n) rest))
        as (out & cap' & E & Hout & Hk & Hwhole); [lia | exact Hrest|].
      exists out, cap'. split; [exact E|]. split; [exact Hout|].
      split; [now apply Hpre|].
      intros Hok. rewrite (Hwhole Hok). exact Hall.
Qed.

(** X20. [run_command] on a command that runs: the loop ends, the final
    [buf[len] = 0] stores inside the allocation, the string returned is a
    prefix of the output of the command, and it is the whole output, of
    any length, when no [realloc] fails. *)
Theorem run_command_returns fuel data :
  (length data < fuel)%nat ->
  exists out cap,
    run_command fuel (Some data) true realloc_ok = Some (Buffer out cap)
    /\ Z.of_nat (length out) < cap
    /\ (exists k, out = firstn k data)
    /\ ((forall c, realloc_ok c = true) -> out = data).
Proof.
  intros Hfuel. unfold run_command.
  destruct (run_command_loop_ends fuel 4096 [] data)
    as (out & cap & E & Hout & Hk & Hwhole); [cbn; lia | exact Hfuel|].
  exists out, cap. rewrite E. auto.
Qed.

End UtilCommand.

Lemma run_command_returns_witness :
  exists out cap,
    UtilIo.run_command 3 (Some [x41; x42]) true (fun _ => true)
    = Some (UtilIo.Buffer out cap)
    /\ Z.of_nat (length out) < cap.
Proof.
  destruct (run_command_returns (fun _ => true) 3 [x41; x42])
    as (out & cap & E & H & _); [cbn; lia|].
  exists out, cap. split; assumption.
Defined.

(** *** [backend.c]: the AGESA version string *)

Section AgesaFacts.
Import Agesa.

Variable isalnum : byte -> bool.

Lemma bytes_eqb_eq a : forall b, Aod.bytes_eqb a b = true -> a = b.
Proof.
  induction a as [|x a IH]; intros [|y b]; cbn [Aod.bytes_eqb];
    try discriminate; [reflexivity|].
  intros H. apply andb_prop in H. destruct H as [H1 H2].
  apply Byte.byte_dec_bl in H1. now rewrite H1, (IH b H2).
Qed.

Lemma skip_disallowed_split l :
  exists gap,
    l = gap ++ skip_disallowed isalnum l
    /\ forallb (fun b => negb (agesa_allowed isalnum b)) gap = true.
Proof.
  induction l as [|b r (gap & Hl & Hg)]; cbn [skip_disallowed].
  - now exists [].
  - destruct (agesa_allowed isalnum b) eqn:E; cbn [negb].
    + now exists [].
    + exists (b :: gap). cbn [app forallb]. rewrite E, Hg.
      split; [now rewrite <- Hl | reflexivity].
Qed.

Lemma take_allowed_split l :
  exists tail,
    l = take_allowed isalnum l ++ tail
    /\ forallb (agesa_allowed isalnum) (take_allowed isalnum l) = true
    /\ match tail with
       | [] => True
       | b :: _ => agesa_allowed isalnum b = false
       end.
Proof.
  induction l as [|b r (tail & Hl & Ha & Ht)]; cbn [take_allowed].
  - now exists [].
  - destruct (agesa_allowed isalnum b) eqn:E.
    + exists tail. cbn [app forallb]. rewrite E, Ha.
      split; [now rewrite <- Hl | split; [reflexivity | exact Ht]].
    + exists (b :: r). split; [reflexivity|]. split; [reflexivity | exact E].
Qed.

Lemma find_from_first k outsz out :
  forall l,
    find_from isalnum k l outsz = Some out ->
    exists pre post,
      l = pre ++ marker ++ post
      /\ (forall j, (j < length pre)%nat ->
                    Aod.bytes_eqb (firstn (length marker) (skipn j l)) marker
                    = false)
      /\ version_after isalnum post outsz = Some out.
Proof.
  induction k as [|k IH]; intros l; cbn [find_from]; [discriminate|].
  destruct (Aod.bytes_eqb (firstn (length marker) l) marker) eqn:E.
  - intros H. exists [], (skipn (length marker) l).
    split; [|split; [cbn; intros j Hj; lia | exact H]].
    apply bytes_eqb_eq in E.
    rewrite <- (firstn_skipn (length marker) l) at 1. now rewrite E.
  - intros H. destruct (IH _ H) as (pre & post & Hl & Hno & Hv).
    destruct l as [|b r]; cbn [tl] in Hl.
    + destruct pre; discriminate Hl.
    + exists (b :: pre), post. split; [cbn [app]; now rewrite <- Hl|].
      split; [|exact Hv].
      intros [|j] Hj; [exact E|].
      cbn [skipn]. cbn [tl] in Hno. apply Hno. cbn in Hj. lia.
Qed.

(** X21. When [find_agesa_in_buf] returns 1, the buffer holds the marker
    "AGESA!V9" at some index and at no earlier one; after it come bytes
    that [agesa_allowed] rejects, then a longest run of bytes it accepts,
    and [out] holds the first [outsz - 1] bytes of that run: [out] is made
    of accepted bytes only, and is not empty when [outsz] is at least 2. *)
Theorem find_agesa_in_buf_result buf outsz out :
  (1 <= outsz)%nat ->
  find_agesa_in_buf isalnum buf outsz = Some out ->
  (exists pre gap ver tail,
      buf = pre ++ marker ++ gap ++ ver ++ tail
      /\ (forall j, (j < length pre)%nat ->
                    Aod.bytes_eqb (firstn (length marker) (skipn j buf))
                      marker = false)
      /\ forallb (fun b => negb (agesa_allowed isalnum b)) gap = true
      /\ forallb (agesa_allowed isalnum) ver = true
      /\ match tail with
         | [] => True
         | b :: _ => agesa_allowed isalnum b = false
         end
      /\ out = firstn (outsz - 1) ver)
  /\ forallb (agesa_allowed isalnum) out = true
  /\ (length out <= outsz - 1)%nat
  /\ ((2 <= outsz)%nat -> out <> []).
Proof.
  intros Hsz. unfold find_agesa_in_buf.
  destruct (length buf <? length marker)%nat; [discriminate|].
  intros H. destruct (find_from_first _ _ _ _ H) as (pre & post & Hl & Hno & Hv).
  unfold version_after in Hv.
  destruct (skip_disallowed_split post) as (gap & Hpost & Hgap).
  destruct (take_allowed_split (skip_disallowed isalnum post))
    as (tail & Hrun & Hver & Htail).
  set (ver := take_allowed isalnum (skip_disallowed isalnum post)) in *.
  assert (Hout : out = firstn (outsz - 1) ver /\ ver <> []).
  { destruct ver as [|v0 ver']; [discriminate Hv|].
    injection Hv as <-. split; [reflexivity | discriminate]. }
  destruct Hout as [-> Hne].
  split; [|split; [|split]].
  - exists pre, gap, ver, tail.
    split; [rewrite Hl; do 2 f_equal; now rewrite Hpost at 1; rewrite <- Hrun|].
    repeat split; assumption.
  - rewrite <- (firstn_skipn (outsz - 1) ver), forallb_app in Hver.
    now apply andb_prop in Hver.
  - rewrite length_firstn. lia.
  - intros H2. destruct ver as [|v0 ver']; [contradiction|].
    destruct outsz as [|[|n]]; [lia | lia | discriminate].
Qed.

End AgesaFacts.

Lemma find_agesa_in_buf_result_witness :
  Agesa.find_agesa_in_buf (fun _ => false)
    (Agesa.marker ++ [x00; x2d; x2e; x00]) 8 = Some [x2d; x2e]
  /\ forallb (Agesa.agesa_allowed (fun _ => false)) [x2d; x2e] = true.
Proof.
  split; [reflexivity|].
  exact (proj1 (proj2
           (find_agesa_in_buf_result (fun _ => false)
              (Agesa.marker ++ [x00; x2d; x2e; x00]) 8 [x2d; x2e]
              ltac:(lia) eq_refl))).
Defined.

(** *** [backend.c]: the per-core temperatures of hwmon *)

Section HwmonCoreTemps.
Import F32 Mem PmTable Spec Backend.

Lemma apply_core_temp_keeps core c m :
  arrays_ok m -> core_temps_count m <= 16 ->
  exists m',
    apply_core_temp core c m = Some m'
    /\ arrays_ok m'
    /\ core_temps_count m <= core_temps_count m' <= 16
    /\ core_voltages m' = core_voltages m
    /\ core_clocks_ghz m' = core_clocks_ghz m.
Proof.
  intros (Ht & Hv & Hc & Hu) Hn. unfold apply_core_temp.
  assert (Hself : exists m',
             Some m = Some m' /\ arrays_ok m'
             /\ core_temps_count m <= core_temps_count m' <= 16
             /\ core_voltages m' = core_voltages m
             /\ core_clocks_ghz m' = core_clocks_ghz m).
  { exists m. unfold arrays_ok. repeat split; auto; lia. }
  destruct (Z.ltb_spec core 0); cbn [orb]; [exact Hself|].
  destruct (Z.leb_spec MAX_CORES core); [exact Hself|].
  destruct (ge c zero); [|exact Hself].
  unfold MAX_CORES in *.
  rewrite store_inside by (rewrite Ht; lia). cbn [bind]. cbv zeta.
  eexists. split; [reflexivity|].
  destruct (Z.leb_spec (core_temps_count
                          (set_core_temps_c
                             (replace_nth (Z.to_nat core) c (core_temps_c m))
                             m)) core) as [Hle | Hgt];
    unfold arrays_ok; frames; revert Hle || revert Hgt; frames; intros;
    rewrite replace_nth_length; repeat split; auto; lia.
Qed.

(** X22. [apply_per_core_temps_hwmon] on a record whose arrays have their
    16 slots and whose temperature count is at most 16, as [pm_table_read]
    leaves it: whatever core numbers the labels carry, every store hits a
    slot of [core_temps_c], the count does not decrease and stays at most
    16, and the voltage and clock arrays are not touched. *)
Theorem hwmon_core_temps_bounded labels :
  forall m,
    arrays_ok m -> core_temps_count m <= 16 ->
    exists m',
      apply_per_core_temps_hwmon labels m = Some m'
      /\ arrays_ok m'
      /\ core_temps_count m <= core_temps_count m' <= 16
      /\ core_voltages m' = core_voltages m
      /\ core_clocks_ghz m' = core_clocks_ghz m.
Proof.
  induction labels as [|[core c] rest IH]; intros m Hok Hn;
    cbn [apply_per_core_temps_hwmon].
  - exists m. split; [reflexivity|]. split; [exact Hok|].
    split; [lia|]. split; reflexivity.
  - destruct (apply_core_temp_keeps core c m Hok Hn)
      as (m1 & -> & Hok1 & Hn1 & Hv1 & Hc1).
    cbn [bind].
    destruct (IH m1 Hok1 (proj2 Hn1)) as (m' & E & Hok' & Hn' & Hv' & Hc').
    exists m'. split; [exact E|]. split; [exact Hok'|].
    split; [lia|]. split; congruence.
Qed.

End HwmonCoreTemps.

Lemma hwmon_core_temps_bounded_witness :
  exists m',
    Backend.apply_per_core_temps_hwmon
      [(3, F32.c100); (40, F32.c100); (-1, F32.c1)] PmTable.smu_zero
    = Some m'
    /\ PmTable.core_temps_count m' <= 16.
Proof.
  destruct (hwmon_core_temps_bounded
              [(3, F32.c100); (40, F32.c100); (-1, F32.c1)] PmTable.smu_zero)
    as (m' & E & _ & H & _).
  - repeat split.
  - cbn. lia.
  - exists m'. split; [exact E | lia].
Defined.
